(** * Traffic privacy demo: route generator and grid aggregator

    A shallow embedding of [infrastructure_src/generate.py]
    ([simulate_driver_route], [generate_traffic_data],
    [save_traffic_data]), of the analysis function
    [analyze_congestion_patterns] of [infrastructure_src/analyze.py] and of
    [main] of [traffic_privacy_demo.py], with the NumPy and pandas
    operations they call.

    Numeric model.  A float64 is a value of [Float.t]: an exact rational, or
    one of the special values +inf, -inf and NaN with their IEEE 754
    behaviour.  Rounding and overflow are not modelled, and zero has no
    sign.  A value within rounding of a bin edge, of a bound or of a
    threshold can therefore be treated differently by the model and by
    binary64.  The statements below are written not to hinge on such
    values: bins are delimited by the edges as [np.linspace] computes
    them, a limit is stated with a margin, and where the arithmetic could
    overflow the inputs are coordinates in degrees.  The section on
    rounding shows, on binary64 itself, the threshold of the statement on
    identical points.  A pandas [Timestamp] or [Timedelta] is its integer
    number of nanoseconds. *)

From Stdlib Require Import String.
From Stdlib Require Import ZArith QArith Qround Lqa List Bool Lia.
From Stdlib Require PrimFloat Uint63 DecimalString Reals Qreals.
Import ListNotations.

Local Open Scope Z_scope.

(** ** Python exceptions *)

Inductive exn : Type :=
| ValueError (msg : string)
| KeyError (key : string)
| IndexError (msg : string)
| ZeroDivisionError (msg : string).

Inductive result (A : Type) : Type :=
| Ok (a : A)
| Raise (e : exn).

Arguments Ok {A} a.
Arguments Raise {A} e.

Definition rbind {A B} (r : result A) (k : A -> result B) : result B :=
  match r with
  | Ok a => k a
  | Raise e => Raise e
  end.

Declare Scope result_scope.
Delimit Scope result_scope with result.
Notation "x <- c ;; k" := (rbind c (fun x => k))
  (at level 61, c at next level, right associativity) : result_scope.

(** ** float64, idealised *)

Module Float.

Inductive t : Type :=
| Fin (q : Q)
| PInf
| NInf
| NaN.

(** Finite results are kept in lowest terms, so that equal values are
    equal terms. *)
Definition fin (q : Q) : t := Fin (Qred q).

Definition of_Z (z : Z) : t := Fin (inject_Z z).
Definition of_nat (n : nat) : t := of_Z (Z.of_nat n).

Definition isnan (x : t) : bool :=
  match x with NaN => true | _ => false end.

Definition isfinite (x : t) : bool :=
  match x with Fin _ => true | _ => false end.

Definition Qltb (a b : Q) : bool := negb (Qle_bool b a).

(** Sign of a rational: [Lt], [Eq] or [Gt] as it is below, at or above 0. *)
Definition sgn (q : Q) : comparison := Qnum q ?= 0.

Definition inf_of (c : comparison) : t :=
  match c with Gt => PInf | Lt => NInf | Eq => NaN end.


Definition add (x y : t) : t :=
  match x, y with
  | NaN, _ | _, NaN => NaN
  | Fin a, Fin b => fin (a + b)
  | PInf, NInf | NInf, PInf => NaN
  | PInf, _ | _, PInf => PInf
  | NInf, _ | _, NInf => NInf
  end.

Definition sub (x y : t) : t :=
  match x, y with
  | NaN, _ | _, NaN => NaN
  | Fin a, Fin b => fin (a - b)
  | PInf, PInf | NInf, NInf => NaN
  | PInf, _ | _, NInf => PInf
  | NInf, _ | _, PInf => NInf
  end.

Definition mul (x y : t) : t :=
  match x, y with
  | NaN, _ | _, NaN => NaN
  | Fin a, Fin b => fin (a * b)
  | Fin a, PInf | PInf, Fin a => inf_of (sgn a)
  | Fin a, NInf | NInf, Fin a => inf_of (CompOpp (sgn a))
  | PInf, PInf | NInf, NInf => PInf
  | PInf, NInf | NInf, PInf => NInf
  end.

(** NumPy division: a zero divisor gives an infinity or NaN, no exception. *)
Definition div (x y : t) : t :=
  match x, y with
  | NaN, _ | _, NaN => NaN
  | Fin a, Fin b =>
      if Qeq_bool b 0 then inf_of (sgn a) else fin (a / b)
  | Fin _, _ => Fin 0
  | PInf, Fin b => if Qltb b 0 then NInf else PInf
  | NInf, Fin b => if Qltb b 0 then PInf else NInf
  | _, _ => NaN
  end.

Definition eqb (x y : t) : bool :=
  match x, y with
  | Fin a, Fin b => Qeq_bool a b
  | PInf, PInf | NInf, NInf => true
  | _, _ => false
  end.

Definition ltb (x y : t) : bool :=
  match x, y with
  | NaN, _ | _, NaN => false
  | Fin a, Fin b => Qltb a b
  | NInf, NInf | PInf, _ | _, NInf => false
  | _, _ => true
  end.

Definition leb (x y : t) : bool :=
  match x, y with
  | NaN, _ | _, NaN => false
  | Fin a, Fin b => Qle_bool a b
  | NInf, _ | _, PInf => true
  | _, _ => false
  end.

Definition geb (x y : t) : bool := leb y x.

End Float.

Abbreviation float := Float.t.
Abbreviation Fin := Float.Fin.
Abbreviation PInf := Float.PInf.
Abbreviation NInf := Float.NInf.
Abbreviation NaN := Float.NaN.

(** A decimal literal of the source. *)
Definition lit (q : Q) : float := Float.fin q.

(** ** NumPy operations used by the aggregator *)

Module Np.

(** [np.mean] of a 1-D array: the sum divided by the length.  On an empty
    array this is 0/0 = NaN (NumPy warns, it does not raise). *)
Definition mean (a : list float) : float :=
  Float.div (fold_left Float.add a (Fin 0)) (Float.of_nat (length a)).

(** [np.minimum] and [np.maximum] propagate NaN. *)
Definition minimum (x y : float) : float :=
  if Float.ltb x y || Float.isnan x then x else y.

Definition maximum (x y : float) : float :=
  if Float.ltb y x || Float.isnan x then x else y.

(** [np.min] and [np.max]: a reduction with no identity, so a zero-size
    array raises [ValueError]. *)
Definition min (a : list float) : result float :=
  match a with
  | [] => Raise (ValueError
      "zero-size array to reduction operation minimum which has no identity")
  | x :: r => Ok (fold_left minimum r x)
  end.

Definition max (a : list float) : result float :=
  match a with
  | [] => Raise (ValueError
      "zero-size array to reduction operation maximum which has no identity")
  | x :: r => Ok (fold_left maximum r x)
  end.

(** [np.arange(0, num)] as floats. *)
Definition arange (num : nat) : list float :=
  map Float.of_nat (seq 0 num).

(** Replace the last element: [y[-1] = stop]. *)
Fixpoint set_last (y : list float) (stop : float) : list float :=
  match y with
  | [] => []
  | [_] => [stop]
  | x :: r => x :: set_last r stop
  end.

(** [np.linspace(start, stop, num)] for scalar bounds, [endpoint=True]:
    [num] samples, [div = num - 1] intervals. *)
Definition linspace (start stop : float) (num : nat) : list float :=
  let div := (num - 1)%nat in
  let delta := Float.sub stop start in
  let y := arange num in
  let y :=
    if (0 <? div)%nat then
      let step := Float.div delta (Float.of_nat div) in
      if Float.eqb step (Fin 0) then
        map (fun v => Float.mul (Float.div v (Float.of_nat div)) delta) y
      else
        map (fun v => Float.mul v step) y
    else
      map (fun v => Float.mul v delta) y in
  let y := map (fun v => Float.add v start) y in
  if (1 <? num)%nat then set_last y stop else y.

(** The sort order of NumPy's float comparisons: NaN sorts last. *)
Definition less (a b : float) : bool :=
  Float.ltb a b || (Float.isnan b && negb (Float.isnan a)).

Definition less_equal (a b : float) : bool := negb (less b a).

(** The binary search of [np.searchsorted] for one key.  Each round
    shrinks [max_idx - min_idx], so [fuel = max_idx - min_idx] rounds
    reach [min_idx = max_idx]. *)
Fixpoint binsearch (fuel : nat) (cmp : float -> float -> bool)
    (arr : list float) (key_val : float) (min_idx max_idx : nat) : nat :=
  match fuel with
  | O => min_idx
  | S fuel' =>
      if (min_idx <? max_idx)%nat then
        let mid_idx := (min_idx + (max_idx - min_idx) / 2)%nat in
        let mid_val := nth mid_idx arr NaN in
        if cmp mid_val key_val
        then binsearch fuel' cmp arr key_val (mid_idx + 1)%nat max_idx
        else binsearch fuel' cmp arr key_val min_idx mid_idx
      else min_idx
  end.

(** [np.searchsorted(arr, v, side='right')]. *)
Definition searchsorted_right (arr : list float) (v : float) : nat :=
  binsearch (length arr) less_equal arr v 0 (length arr).

(** The loops of [check_array_monotonic], which [np.digitize] runs on the
    bins. *)
Fixpoint skip_repeated (last : float) (a : list float) : list float :=
  match a with
  | [] => []
  | x :: r => if Float.eqb x last then skip_repeated last r else a
  end.

(** No later pair has [last > next]. *)
Fixpoint never_decreases (last : float) (a : list float) : bool :=
  match a with
  | [] => true
  | next :: r =>
      if Float.ltb next last then false else never_decreases next r
  end.

(** No later pair has [last < next]. *)
Fixpoint never_increases (last : float) (a : list float) : bool :=
  match a with
  | [] => true
  | next :: r =>
      if Float.ltb last next then false else never_increases next r
  end.

(** 1 for increasing, -1 for decreasing, 0 for neither. *)
Definition monotonicity (a : list float) : Z :=
  match a with
  | [] => 1
  | last :: r =>
      match skip_repeated last r with
      | [] => 1
      | next :: r' =>
          if Float.ltb last next
          then (if never_decreases next r' then 1 else 0)
          else (if never_increases next r' then -1 else 0)
      end
  end.

(** [np.digitize(x, bins)] for a scalar [x], [right=False]. *)
Definition digitize (x : float) (bins : list float) : result Z :=
  let mono := monotonicity bins in
  if mono =? 0 then
    Raise (ValueError "bins must be monotonically increasing or decreasing")
  else if mono =? -1 then
    Ok (Z.of_nat (length bins) - Z.of_nat (searchsorted_right (rev bins) x))
  else
    Ok (Z.of_nat (searchsorted_right bins x)).

End Np.

(** ** analyze.py: [analyze_congestion_patterns] *)

Module Analyze.

Local Open Scope result_scope.

Record Hotspot : Type := mkHotspot {
  latitude : float;
  longitude : float;
  congestion_level : float
}.

Record Bounds : Type := mkBounds {
  lat_min : float;
  lat_max : float;
  lon_min : float;
  lon_max : float
}.

Definition Grid : Type := list (list float).

Record Analysis : Type := mkAnalysis {
  total_gps_points : nat;
  average_location : float * float;
  congestion_grid : Grid;
  hotspots : list Hotspot;
  grid_bounds : Bounds
}.

Definition grid_size : nat := 10.

(** [np.zeros((rows, cols))]. *)
Definition zeros (rows cols : nat) : Grid := repeat (repeat (Fin 0) cols) rows.

(** An integer index into an axis of length [n]: negative indices count
    from the end, anything else out of range raises [IndexError]. *)
Definition norm_index (i : Z) (n : nat) : result nat :=
  if (0 <=? i) && (i <? Z.of_nat n) then Ok (Z.to_nat i)
  else if (- Z.of_nat n <=? i) && (i <? 0) then Ok (Z.to_nat (i + Z.of_nat n))
  else Raise (IndexError "index is out of bounds").

Fixpoint alter_nth {A : Type} (f : A -> A) (n : nat) (l : list A) : list A :=
  match l, n with
  | [], _ => []
  | x :: r, O => f x :: r
  | x :: r, S n' => x :: alter_nth f n' r
  end.

(** [grid[i, j] += 1]. *)
Definition grid_incr (grid : Grid) (i j : Z) : result Grid :=
  r <- norm_index i (length grid) ;;
  c <- norm_index j (length (nth r grid [])) ;;
  Ok (alter_nth (alter_nth (fun v => Float.add v (Fin 1)) c) r grid).

(** [grid[i, j]] for indices of [range(grid_size)]. *)
Definition cell (grid : Grid) (i j : nat) : float :=
  nth j (nth i grid []) NaN.

(** The body of the counting loop, for one point. *)
Definition count_point (lat_bins lon_bins : list float)
    (grid : Grid) (p : float * float) : result Grid :=
  d_lat <- Np.digitize (fst p) lat_bins ;;
  let lat_idx := d_lat - 1 in
  d_lon <- Np.digitize (snd p) lon_bins ;;
  let lon_idx := d_lon - 1 in
  let lat_idx := Z.max 0 (Z.min lat_idx (Z.of_nat grid_size - 1)) in
  let lon_idx := Z.max 0 (Z.min lon_idx (Z.of_nat grid_size - 1)) in
  grid_incr grid lat_idx lon_idx.

(** [for i in range(len(all_coords)): ...] *)
Fixpoint count_points (lat_bins lon_bins : list float)
    (grid : Grid) (all_coords : list (float * float)) : result Grid :=
  match all_coords with
  | [] => Ok grid
  | p :: rest =>
      grid' <- count_point lat_bins lon_bins grid p ;;
      count_points lat_bins lon_bins grid' rest
  end.

(** The midpoint of bin [i]: [(bins[i] + bins[i+1]) / 2].  [bins] has
    [grid_size + 1] entries and [i < grid_size]. *)
Definition bin_mid (bins : list float) (i : nat) : float :=
  Float.div (Float.add (nth i bins NaN) (nth (i + 1) bins NaN)) (Fin 2).

(** The two nested loops that collect the hotspots, row by row. *)
Definition find_hotspots (grid : Grid) (lat_bins lon_bins : list float)
    (hotspot_threshold : float) : list Hotspot :=
  flat_map (fun i =>
    flat_map (fun j =>
      if Float.geb (cell grid i j) hotspot_threshold then
        [ {| latitude := bin_mid lat_bins i;
             longitude := bin_mid lon_bins j;
             congestion_level := cell grid i j |} ]
      else [])
    (seq 0 grid_size))
  (seq 0 grid_size).

Definition analyze_congestion_patterns
    (all_coords : list (float * float)) (driver_ids : list Z)
    : result Analysis :=
  let total_points := length all_coords in
  let avg_lat := Np.mean (map fst all_coords) in
  let avg_lon := Np.mean (map snd all_coords) in
  lat_min <- Np.min (map fst all_coords) ;;
  lat_max <- Np.max (map fst all_coords) ;;
  lon_min <- Np.min (map snd all_coords) ;;
  lon_max <- Np.max (map snd all_coords) ;;
  let lat_bins := Np.linspace lat_min lat_max (grid_size + 1) in
  let lon_bins := Np.linspace lon_min lon_max (grid_size + 1) in
  congestion_grid <-
    count_points lat_bins lon_bins (zeros grid_size grid_size) all_coords ;;
  max_congestion <- Np.max (concat congestion_grid) ;;
  let hotspot_threshold := Float.mul max_congestion (lit 0.7) in
  let hotspots :=
    find_hotspots congestion_grid lat_bins lon_bins hotspot_threshold in
  Ok {| total_gps_points := total_points;
        average_location := (avg_lat, avg_lon);
        congestion_grid := congestion_grid;
        hotspots := hotspots;
        grid_bounds := {| lat_min := lat_min; lat_max := lat_max;
                          lon_min := lon_min; lon_max := lon_max |} |}.

End Analyze.

(** ** generate.py: [simulate_driver_route] and [generate_traffic_data] *)

Module Generate.

(** *** pandas time values, in nanoseconds *)

Abbreviation Timestamp := Z.
Abbreviation Timedelta := Z.

Definition ns_per_minute : Z := 60 * 1000000000.
Definition ns_per_hour : Z := 60 * ns_per_minute.
Definition ns_per_day : Z := 24 * ns_per_hour.

(** [pd.Timedelta(days=d, hours=h, minutes=m)]. *)
Definition timedelta (days hours minutes : Z) : Timedelta :=
  days * ns_per_day + hours * ns_per_hour + minutes * ns_per_minute.

(** [ts.replace(hour=h, minute=m)]: the date and the fields below the
    minute are kept. *)
Definition replace_hour_minute (ts : Timestamp) (hour minute : Z) : Timestamp :=
  (ts / ns_per_day) * ns_per_day
  + hour * ns_per_hour + minute * ns_per_minute
  + ts mod ns_per_minute.

(** [Timedelta * float]: the product is cast to int64, which truncates
    towards zero. *)
Definition timedelta_mul (td : Timedelta) (x : Q) : Timedelta :=
  let p := (inject_Z td * x)%Q in
  Z.quot (Qnum p) (Z.pos (Qden p)).

(** [pd.Timestamp('2024-01-01')]: 19723 days after the epoch. *)
Definition timestamp_2024_01_01 : Timestamp := 19723 * ns_per_day.

(** Python's [a / b] on integers. *)
Definition truediv (a b : Z) : result Q :=
  if b =? 0 then Raise (ZeroDivisionError "division by zero")
  else Ok (Qred (inject_Z a / inject_Z b)).

(** [range(n)] and [range(start, stop, step)] for a positive step. *)
Definition range (n : Z) : list Z := map Z.of_nat (seq 0 (Z.to_nat n)).

Definition range_step (start stop step : Z) : list Z :=
  map (fun k => start + Z.of_nat k * step)
      (seq 0 (Z.to_nat ((stop - start + step - 1) / step))).

(** *** The random source

    The module-level generator of [random] is a state: the number of
    draws made so far.  [rnd k] is the value of the [k]-th call of
    [random.random()].  A computation takes the state and returns a value
    and the new state, or raises. *)

Definition M (A : Type) : Type := nat -> result (A * nat).

Definition ret {A} (a : A) : M A := fun s => Ok (a, s).

Definition bind {A B} (m : M A) (k : A -> M B) : M B :=
  fun s => match m s with
           | Ok (a, s') => k a s'
           | Raise e => Raise e
           end.

Definition lift {A} (r : result A) : M A :=
  fun s => match r with Ok a => Ok (a, s) | Raise e => Raise e end.

Declare Scope gen_scope.
Delimit Scope gen_scope with gen.
Notation "x <- c ;; k" := (bind c (fun x => k))
  (at level 61, c at next level, right associativity) : gen_scope.
Notation "' pat <- c ;; k" := (bind c (fun x => match x with pat => k end))
  (at level 61, pat pattern, c at next level, right associativity) : gen_scope.

(** [[body(x) for x in xs]], run in order. *)
Fixpoint for_each {A B} (xs : list A) (body : A -> M B) : M (list B) :=
  match xs with
  | [] => ret []
  | x :: r =>
      (b <- body x ;;
       bs <- for_each r body ;;
       ret (b :: bs))%gen
  end.

Record Row : Type := mkRow {
  driver_id : Z;
  latitude : float;
  longitude : float;
  timestamp : Timestamp
}.

Section WithRandom.

Variable rnd : nat -> float.

Local Open Scope gen_scope.

(** [random.uniform(a, b)] is [a + (b - a) * random()]. *)
Definition uniform (a b : float) : M float :=
  fun s => Ok (Float.add a (Float.mul (Float.sub b a) (rnd s)), S s).

Abbreviation GpsPoint := (float * float * Timestamp)%type.

Definition simulate_driver_route (driver_id : Z) (start_time : Timestamp)
    : M (list GpsPoint) :=
  h1 <- uniform (lit (-0.05)) (lit 0.05) ;;
  let home_lat := Float.add (lit 40.7128) h1 in
  h2 <- uniform (lit (-0.05)) (lit 0.05) ;;
  let home_lon := Float.add (lit (-74.0060)) h2 in
  w1 <- uniform (lit (-0.02)) (lit 0.02) ;;
  let work_lat := Float.add (lit 40.7589) w1 in
  w2 <- uniform (lit (-0.02)) (lit 0.02) ;;
  let work_lon := Float.add (lit (-73.9851)) w2 in
  (* Morning commute: Home -> Work (7:00-9:00) *)
  let morning_start := replace_hour_minute start_time 7 0 in
  let commute_duration := timedelta 0 2 0 in
  (* Generate points along the route *)
  let num_points := 20 in
  morning <- for_each (range num_points) (fun i =>
    t <- lift (truediv i (num_points - 1)) ;;
    n_lat <- uniform (lit (-0.001)) (lit 0.001) ;;
    let lat := Float.add (Float.add home_lat
                 (Float.mul (Fin t) (Float.sub work_lat home_lat))) n_lat in
    n_lon <- uniform (lit (-0.001)) (lit 0.001) ;;
    let lon := Float.add (Float.add home_lon
                 (Float.mul (Fin t) (Float.sub work_lon home_lon))) n_lon in
    let time_offset := timedelta_mul commute_duration t in
    let time_offset :=
      if Float.Qltb 0.3 t && Float.Qltb t 0.7
      then timedelta_mul time_offset 1.5
      else time_offset in
    let timestamp := morning_start + time_offset in
    ret (lat, lon, timestamp)) ;;
  (* Workday: Stay at work (9:00-17:00) *)
  let work_start := morning_start + commute_duration in
  workday <- for_each (range 8) (fun hour =>
    for_each (range_step 0 60 15) (fun minute =>
      n_lat <- uniform (lit (-0.005)) (lit 0.005) ;;
      let lat := Float.add work_lat n_lat in
      n_lon <- uniform (lit (-0.005)) (lit 0.005) ;;
      let lon := Float.add work_lon n_lon in
      let timestamp := work_start + timedelta 0 hour minute in
      ret (lat, lon, timestamp))) ;;
  (* Evening commute: Work -> Home (17:00-19:00) *)
  let evening_start := work_start + timedelta 0 8 0 in
  let evening_commute_duration := timedelta 0 2 0 in
  let num_evening_points := 20 in
  evening <- for_each (range num_evening_points) (fun i =>
    t <- lift (truediv i (num_evening_points - 1)) ;;
    n_lat <- uniform (lit (-0.001)) (lit 0.001) ;;
    let lat := Float.add (Float.add work_lat
                 (Float.mul (Fin t) (Float.sub home_lat work_lat))) n_lat in
    n_lon <- uniform (lit (-0.001)) (lit 0.001) ;;
    let lon := Float.add (Float.add work_lon
                 (Float.mul (Fin t) (Float.sub home_lon work_lon))) n_lon in
    let time_offset := timedelta_mul evening_commute_duration t in
    let time_offset :=
      if Float.Qltb 0.2 t && Float.Qltb t 0.8
      then timedelta_mul time_offset 1.3
      else time_offset in
    let timestamp := evening_start + time_offset in
    ret (lat, lon, timestamp)) ;;
  ret (morning ++ concat workday ++ evening).

(** A [pd.DataFrame] built from a list of records: its columns are the
    keys of the records, so an empty list gives no columns. *)
Record DataFrame : Type := mkDataFrame {
  columns : list string;
  records : list Row
}.

Definition make_DataFrame (all_data : list Row) : DataFrame :=
  {| columns := match all_data with
                | [] => []
                | _ => ["driver_id"; "latitude"; "longitude"; "timestamp"]%string
                end;
     records := all_data |}.

(** [df['driver_id']]. *)
Definition column_driver_id (df : DataFrame) : result (list Z) :=
  if existsb (String.eqb "driver_id") (columns df)
  then Ok (map driver_id (records df))
  else Raise (KeyError "driver_id").

(** Console output is not modelled; the final report is kept for the
    column lookup it makes. *)
Definition generate_traffic_data (num_drivers simulation_days : Z)
    : M DataFrame :=
  per_driver <- for_each (range num_drivers) (fun driver_id =>
    for_each (range simulation_days) (fun day =>
      let day_start := timestamp_2024_01_01 + timedelta day 0 0 in
      route_points <- simulate_driver_route driver_id day_start ;;
      ret (map (fun '(lat, lon, timestamp) =>
                  {| driver_id := driver_id; latitude := lat;
                     longitude := lon; timestamp := timestamp |})
               route_points))) ;;
  let all_data := concat (concat per_driver) in
  let df := make_DataFrame all_data in
  _ <- lift (column_driver_id df) ;;
  ret df.

End WithRandom.

(** *** [save_traffic_data] *)

(** The digit character of [d], for [0 <= d <= 9]. *)
Definition digit (d : Z) : Ascii.ascii := Ascii.ascii_of_nat (48 + Z.to_nat d).

(** [n] in two and in four decimal digits, zero-padded. *)
Definition pad2 (n : Z) : string :=
  String (digit (n / 10)) (String (digit (n mod 10)) EmptyString).

Definition pad4 (n : Z) : string :=
  String (digit (n / 1000)) (String (digit (n / 100 mod 10)) (pad2 (n mod 100))).

(** Year, month and day of the proleptic Gregorian calendar, from the
    number of days since 1970-01-01. *)
Definition civil_from_days (days : Z) : Z * Z * Z :=
  let z := days + 719468 in
  let era := z / 146097 in
  let doe := z - era * 146097 in
  let yoe := (doe - doe / 1460 + doe / 36524 - doe / 146096) / 365 in
  let doy := doe - (365 * yoe + yoe / 4 - yoe / 100) in
  let mp := (5 * doy + 2) / 153 in
  let d := doy - (153 * mp + 2) / 5 + 1 in
  let m := if mp <? 10 then mp + 3 else mp - 9 in
  let y := yoe + era * 400 + (if m <=? 2 then 1 else 0) in
  (y, m, d).

(** [ts.strftime('%Y-%m-%d %H:%M:%S')], for years of four digits: the part
    of the timestamp below the second is dropped. *)
Definition strftime (ts : Timestamp) : string :=
  let '(y, m, d) := civil_from_days (ts / ns_per_day) in
  let rem := ts mod ns_per_day in
  (pad4 y ++ "-" ++ pad2 m ++ "-" ++ pad2 d ++ " "
   ++ pad2 (rem / ns_per_hour) ++ ":"
   ++ pad2 (rem mod ns_per_hour / ns_per_minute) ++ ":"
   ++ pad2 (rem mod ns_per_minute / 1000000000))%string.

(** [df['timestamp']]. *)
Definition column_timestamp (df : DataFrame) : result (list Timestamp) :=
  if existsb (String.eqb "timestamp") (columns df)
  then Ok (map timestamp (records df))
  else Raise (KeyError "timestamp").

(** [Series.min()] and [Series.max()] of a timestamp column: [None] is NaT,
    the result on an empty column. *)
Definition series_min (a : list Timestamp) : option Timestamp :=
  match a with
  | [] => None
  | x :: r => Some (fold_left Z.min r x)
  end.

Definition series_max (a : list Timestamp) : option Timestamp :=
  match a with
  | [] => None
  | x :: r => Some (fold_left Z.max r x)
  end.

(** [.strftime(...)] on the result of [min()] or [max()]; NaT has no
    [strftime]. *)
Definition strftime_scalar (t : option Timestamp) : result string :=
  match t with
  | Some ts => Ok (strftime ts)
  | None => Raise (ValueError "NaTType does not support strftime")
  end.

(** [len(series.unique())]. *)
Definition count_unique (a : list Z) : nat := length (nodup Z.eq_dec a).

Record SavedRow : Type := mkSavedRow {
  saved_driver_id : Z;
  saved_latitude : float;
  saved_longitude : float;
  saved_timestamp : string
}.

Record Metadata : Type := mkMetadata {
  num_drivers : nat;
  total_points : nat;
  date_range_start : string;
  date_range_end : string
}.

Record DataDict : Type := mkDataDict {
  drivers : list SavedRow;
  metadata : Metadata
}.

(** [save_traffic_data]: the file name and the dictionary that
    [json.dump] writes to it.  The JSON text and the console output are not
    modelled. *)
Definition save_traffic_data (df : DataFrame) (filename : string)
    : result (string * DataDict) :=
  rbind (column_timestamp df) (fun stamps =>
  let saved_rows :=
    map (fun r => {| saved_driver_id := driver_id r;
                     saved_latitude := latitude r;
                     saved_longitude := longitude r;
                     saved_timestamp := strftime (timestamp r) |})
        (records df) in
  rbind (column_driver_id df) (fun ids =>
  rbind (strftime_scalar (series_min stamps)) (fun range_start =>
  rbind (strftime_scalar (series_max stamps)) (fun range_end =>
  Ok (filename,
      {| drivers := saved_rows;
         metadata := {| num_drivers := count_unique ids;
                        total_points := length (records df);
                        date_range_start := range_start;
                        date_range_end := range_end |} |}))))).

End Generate.

(** ** traffic_privacy_demo.py: [main] *)

Module Demo.

Import Generate.

(** The value [np.random.choice(["JAM", "FREE_FLOW"])] returns. *)
Inductive Scenario : Type := JAM | FREE_FLOW.

(** An entry of [drivers_data]. *)
Record GpsRecord : Type := mkGpsRecord {
  driver_id : Z;
  latitude : float;
  longitude : float;
  timestamp : string
}.

(** Rounding to the nearest integer, a tie to the even one. *)
Definition round_half_even (q : Q) : Z :=
  let f := Qfloor q in
  match (q - inject_Z f ?= 1 # 2)%Q with
  | Lt => f
  | Gt => f + 1
  | Eq => if Z.even f then f else f + 1
  end.

(** Python's [round(x, 6)] on a float: the nearest multiple of 1e-6;
    infinities and NaN are returned as they are. *)
Definition round6 (x : float) : float :=
  match x with
  | Fin q => Float.fin (inject_Z (round_half_even (q * 1000000)) / 1000000)
  | _ => x
  end.

(** An integer inside an f-string: its decimal digits. *)
Definition str_int (n : Z) : string :=
  DecimalString.NilZero.string_of_int (Z.to_int n).

(** [np.var(a)] with the default [ddof=0]: the mean of the squared
    deviations from the mean. *)
Definition var (a : list float) : float :=
  let arrmean := Np.mean a in
  Np.mean (map (fun x => let d := Float.sub x arrmean in Float.mul d d) a).

(** The test [np.std(a) < c] for a positive constant [c].  [np.std] is the
    square root of [np.var]; the root is not computed here: over the real
    numbers, for a variance [v >= 0], [sqrt v < c] holds exactly when
    [v < c * c], and both tests fail on an infinite or NaN variance.  In
    binary64 the two tests can differ when the deviation is within
    rounding of [c]; the statements about the level keep away from that
    limit. *)
Definition std_lt (a : list float) (c : Q) : bool :=
  Float.ltb (var a) (lit (c * c)).

(** What a run writes to [simple_demo_data.json] and prints as its final
    result. *)
Record Outcome : Type := mkOutcome {
  drivers_data : list GpsRecord;
  traffic_level : string;
  confidence : string
}.

Definition spread_factor (scenario : Scenario) : float :=
  match scenario with
  | JAM => lit 0.001
  | FREE_FLOW => lit 0.02
  end.

Section WithRandom.

(** [rnd k] is the value of the [k]-th call of [np.random.random()]. *)
Variable rnd : nat -> float.

Local Open Scope gen_scope.

Definition random : M float := fun s => Ok (rnd s, S s).

(** [main], given whether [import syft] succeeds and the scenario drawn.
    When the import fails the function reports it and returns: there is no
    outcome.  The Syft objects built in step 4 are not used afterwards and
    are left out, as are the console output and the failure of the file
    write. *)
Definition main (syft_found : bool) (scenario : Scenario)
    : M (option Outcome) :=
  if syft_found then
    per_driver <- for_each (range 5) (fun driver_id =>
      for_each (range 3) (fun point =>
        r_lat <- random ;;
        let lat := Float.add (lit 40.7128)
                     (Float.mul (Float.sub r_lat (lit 0.5))
                                (spread_factor scenario)) in
        r_lon <- random ;;
        let lon := Float.add (lit (-74.0060))
                     (Float.mul (Float.sub r_lon (lit 0.5))
                                (spread_factor scenario)) in
        ret (lat,
             {| driver_id := driver_id;
                latitude := round6 lat;
                longitude := round6 lon;
                timestamp := "2024-01-01 " ++ str_int (8 + point) ++ ":00:00" |}))) ;;
    let lat_values := map fst (concat per_driver) in
    let drivers_data := map snd (concat per_driver) in
    let lat_std_is_small := std_lt lat_values 0.005 in
    ret (Some {| drivers_data := drivers_data;
                 traffic_level :=
                   if lat_std_is_small then "HIGH (Congestion Detected)"
                   else "LOW (Free Flow)";
                 confidence :=
                   if lat_std_is_small then "98%" else "92%" |})
  else ret None.

End WithRandom.

End Demo.

(** * Definitions used in the statements *)

Import Generate.

(** The congestion test of a commute loop with [n] points, at index [i]:
    [lo < t < hi] for [t = i / (n - 1)]. *)
Definition in_window (lo hi : Q) (n i : Z) : bool :=
  match truediv i (n - 1) with
  | Ok t => Float.Qltb lo t && Float.Qltb t hi
  | Raise _ => false
  end.

(** The elapsed time the loop gives point [i]. *)
Definition commute_offset (duration : Timedelta) (lo hi factor : Q) (n i : Z)
    : Timedelta :=
  let t := Qred (inject_Z i / inject_Z (n - 1)) in
  let time_offset := timedelta_mul duration t in
  if Float.Qltb lo t && Float.Qltb t hi
  then timedelta_mul time_offset factor
  else time_offset.

(** Offsets, from the morning start, of the 72 samples of a day. *)
Definition day_offsets : list Timedelta :=
  map (commute_offset (timedelta 0 2 0) 0.3 0.7 1.5 20) (range 20)
  ++ concat (map (fun hour =>
       map (fun minute => timedelta 0 2 0 + timedelta 0 hour minute)
           (range_step 0 60 15)) (range 8))
  ++ map (fun i => timedelta 0 2 0 + timedelta 0 8 0
                   + commute_offset (timedelta 0 2 0) 0.2 0.8 1.3 20 i)
         (range 20).

(** Time between sample [base + k] and the next one. *)
Definition offset_delta (base k : nat) : Timedelta :=
  nth (base + k + 1) day_offsets 0 - nth (base + k) day_offsets 0.

(** Every in-window step of a commute is longer than every out-of-window
    step, checked over all pairs of steps. *)
Definition window_steps_longer (base : nat) (lo hi : Q) : bool :=
  forallb (fun i =>
    forallb (fun j =>
      implb (in_window lo hi 20 (Z.of_nat i)
             && in_window lo hi 20 (Z.of_nat i + 1)
             && negb (in_window lo hi 20 (Z.of_nat j))
             && negb (in_window lo hi 20 (Z.of_nat j + 1)))
            (offset_delta base j <? offset_delta base i))
      (seq 0 19))
    (seq 0 19).

(** A fixed random source for the examples: every draw is 0.5. *)
Definition rnd_half : nat -> float := fun _ => lit 0.5.

Import Analyze.

(** Consecutive elements of [q :: qs] are related by [R]. *)
Fixpoint chain (R : Q -> Q -> Prop) (q : Q) (qs : list Q) : Prop :=
  match qs with
  | [] => True
  | q' :: r => R q q' /\ chain R q' r
  end.

(** A grid whose cells hold the integers of [zg]. *)
Definition counts (zg : list (list Z)) : Grid := map (map Float.of_Z) zg.

Definition zsum (l : list Z) : Z := fold_right Z.add 0 l.

(** [zg] has the shape of the congestion grid and holds counts. *)
Record counts_ok (zg : list (list Z)) : Prop := {
  ok_rows : length zg = grid_size;
  ok_cols : Forall (fun row => length row = grid_size) zg;
  ok_nonneg : Forall (Forall (fun c => 0 <= c)) zg
}.

(** The largest element, as [np.max] folds it. *)
Definition zmax (l : list Z) : Z :=
  match l with
  | [] => 0
  | x :: r => fold_left Z.max r x
  end.

(** [np.sum] of the flattened grid. *)
Definition np_sum (a : list float) : float := fold_left Float.add a (Fin 0).

(** The counts of [np.zeros((grid_size, grid_size))]. *)
Definition zero_counts : list (list Z) := repeat (repeat 0 grid_size) grid_size.

(** A point is malformed when a coordinate is NaN or infinite. *)
Definition malformed (p : float * float) : Prop :=
  Float.isfinite (fst p) = false \/ Float.isfinite (snd p) = false.

(** Four points spread over a one-degree square. *)
Definition sample_coords : list (float * float) :=
  [(lit 40, lit (-74)); (lit 41, lit (-73));
   (lit 40.95, lit (-73.5)); (lit 40.9, lit (-73.5))].

(** Two points, the first with a NaN latitude. *)
Definition coords_with_nan : list (float * float) :=
  [(NaN, lit (-74)); (lit 40, lit (-73))].

(** The integer grid with [v] in cell (9, 9) and 0 elsewhere. *)
Definition last_cell_only (v : Z) : list (list Z) :=
  alter_nth (alter_nth (fun _ => v) 9) 9 zero_counts.

(** The binary64 value nearest to [n / d], for integers below 2^53. *)
Definition binary64 (n d : Z) : PrimFloat.float :=
  PrimFloat.div (PrimFloat.of_uint63 (Uint63.of_Z n))
                (PrimFloat.of_uint63 (Uint63.of_Z d)).

(** ** Definitions for the further properties *)

(** [arr] is in NumPy's sort order (NaN last) from left to right. *)
Definition np_sorted (arr : list float) : Prop :=
  forall i j, (i <= j)%nat -> (j < length arr)%nat ->
    Np.less_equal (nth i arr NaN) (nth j arr NaN) = true.

(** Sample [k] of [np.linspace(start, stop, num)] before the last one is
    overwritten, for [num >= 2]. *)
Definition linspace_sample (start stop : float) (num k : nat) : float :=
  let div := (num - 1)%nat in
  let delta := Float.sub stop start in
  let step := Float.div delta (Float.of_nat div) in
  Float.add
    (if Float.eqb step (Fin 0)
     then Float.mul (Float.div (Float.of_nat k) (Float.of_nat div)) delta
     else Float.mul (Float.of_nat k) step)
    start.

(** The rational value of edge [k] of the eleven edges from [a] to [b]. *)
Definition edge (a b : Q) (k : Z) : Q := a + inject_Z k * (b - a) / 10.

(** [x] lies in bin [k] of the ten bins that the eleven edges [bins]
    delimit: at or above edge [k] and below edge [k + 1].  The last bin has
    no upper limit: it takes the upper bound of the data too. *)
Definition in_edges_bin (bins : list float) (k : nat) (x : float) : bool :=
  Float.leb (nth k bins NaN) x
  && ((k =? grid_size - 1)%nat || Float.ltb x (nth (k + 1) bins NaN)).

(** A pair of coordinates in degrees: both lie between -180 and 180.  In
    this range the arithmetic of the source is far from overflow, which the
    numeric model does not have. *)
Definition in_degrees (p : Q * Q) : Prop :=
  (-180 <= fst p <= 180)%Q /\ (-180 <= snd p <= 180)%Q.

(** An input array whose coordinates are all finite. *)
Definition finite_coords (qpts : list (Q * Q)) : list (float * float) :=
  map (fun p => (Fin (fst p), Fin (snd p))) qpts.

(** The points of [coords] whose latitude lies in bin [i] of [lat_bins]
    and whose longitude lies in bin [j] of [lon_bins]. *)
Definition points_in_cell (lat_bins lon_bins : list float) (i j : nat)
    (coords : list (float * float)) : list (float * float) :=
  filter (fun p => in_edges_bin lat_bins i (fst p)
                   && in_edges_bin lon_bins j (snd p)) coords.

Definition qsum (l : list Q) : Q := fold_right Qplus 0%Q l.

(** The centre of bin [i] of the ten bins from [a] to [b]. *)
Definition cell_centre (a b : Q) (i : nat) : Q :=
  a + (2 * inject_Z (Z.of_nat i) + 1) * (b - a) / 20.

(** Four finite points spread over a one-degree square. *)
Definition sample_points : list (Q * Q) :=
  [(40, -74); (41, -73); (40.95, -73.5); (40.9, -73.5)]%Q.

(** ** The route generator *)

(** Every draw of the random source is a finite value in [0, 1), as
    [random.random()] gives. *)
Definition unit_draws (rnd : nat -> float) : Prop :=
  forall k, exists r, rnd k = Fin r /\ (0 <= r)%Q /\ (r < 1)%Q.

(** [x] is within [eps] of [c]. *)
Definition within (eps c x : Q) : Prop := (c - eps <= x <= c + eps)%Q.

(** The sample [p] has finite coordinates, within [eps] of [(lat, lon)]. *)
Definition sample_near (eps lat lon : Q) (p : float * float * Z) : Prop :=
  exists x y, fst (fst p) = Fin x /\ snd (fst p) = Fin y /\
              within eps lat x /\ within eps lon y.

(** The point at fraction [i / 19] of the way from [a] to [b]. *)
Definition along (a b : Q) (i : Z) : Q := a + (inject_Z i / 19) * (b - a).

(** The sample [p] has finite coordinates inside the box that holds every
    home, workplace and noise value the generator can produce. *)
Definition in_city (p : float * float * Z) : Prop :=
  exists x y, fst (fst p) = Fin x /\ snd (fst p) = Fin y /\
              (40.6618 <= x <= 40.7839)%Q /\ (-74.057 <= y <= -73.955)%Q.

(** The default sample for [nth]. *)
Definition no_sample : float * float * Z := (NaN, NaN, 0).

(** The timestamp goes down after sample [k] exactly when [k] is 13 or 67,
    checked on the offsets of the 72 samples. *)
Definition steps_back_only_at_window_exits : bool :=
  forallb (fun k =>
    Bool.eqb (nth (k + 1) day_offsets 0 <? nth k day_offsets 0)
             ((k =? 13)%nat || (k =? 67)%nat))
    (seq 0 71).

(** Every offset lies between the first one, 0, and that of sample 67. *)
Definition offsets_in_span : bool :=
  forallb (fun off => (0 <=? off) && (off <=? 43389473684209)) day_offsets.

(** The rows of one driver and one day: 72 rows with the driver's id,
    stamped at the day's morning start plus the 72 offsets. *)
Definition day_rows (driver day : Z) (rows : list Row) : Prop :=
  map Generate.driver_id rows = repeat driver 72 /\
  map Generate.timestamp rows =
    map (Z.add (replace_hour_minute (timestamp_2024_01_01 + timedelta day 0 0) 7 0))
        day_offsets.

(** The morning start of simulated day [day]: 07:00 on 2024-01-01 plus
    [day] days. *)
Definition morning_of (day : Z) : Timestamp :=
  timestamp_2024_01_01 + timedelta day 0 0 + timedelta 0 7 0.

(** The [driver_id] column of the generated frame: each driver's id, 72
    times per day, drivers in ascending order. *)
Definition expected_driver_ids (num_drivers simulation_days : Z) : list Z :=
  flat_map (fun driver => repeat driver (72 * Z.to_nat simulation_days))
           (range num_drivers).

(** The [timestamp] column of the generated frame. *)
Definition expected_timestamps (num_drivers simulation_days : Z) : list Timestamp :=
  flat_map (fun driver : Z =>
    flat_map (fun day => map (Z.add (morning_of day)) day_offsets)
             (range simulation_days))
    (range num_drivers).

(** ** The demo *)

(** Mean and population variance of a list of rationals. *)
Definition qmean (l : list Q) : Q := qsum l / inject_Z (Z.of_nat (length l)).

Definition qvar (l : list Q) : Q :=
  qmean (map (fun x => (x - qmean l) * (x - qmean l))%Q l).

(** The value of a draw; 0 stands for a draw that is not finite. *)
Definition draw_value (x : float) : Q :=
  match x with
  | Fin q => q
  | _ => 0%Q
  end.

(** The draws that give the 15 latitudes of a run started at draw [s]:
    every other draw, the first one included. *)
Definition lat_draws (q : nat -> Q) (s : nat) : list Q :=
  map (fun i => q (2 * i + s)%nat) (seq 0 15).

(** The variance of the latitude draws below which a run reports
    congestion: (0.005 / spread_factor) squared. *)
Definition level_bound (scenario : Demo.Scenario) : Q :=
  match scenario with
  | Demo.JAM => 25
  | Demo.FREE_FLOW => 1 # 16
  end.

(** Half the spread of a scenario, in degrees. *)
Definition half_spread (scenario : Demo.Scenario) : Q :=
  match scenario with
  | Demo.JAM => 0.0005
  | Demo.FREE_FLOW => 0.01
  end.

(** A coordinate of a run before rounding, from its draw [r]: the centre
    plus [(r - 0.5) * spread_factor]. *)
Definition demo_coord (centre : Q) (scenario : Demo.Scenario) (r : float)
    : float :=
  Float.add (lit centre)
    (Float.mul (Float.sub r (lit 0.5)) (Demo.spread_factor scenario)).

Definition demo_lat : Demo.Scenario -> float -> float := demo_coord 40.7128.

Definition demo_lon : Demo.Scenario -> float -> float := demo_coord (-74.0060).

(** [x] has at most six decimals. *)
Definition six_decimals (x : Q) : Prop :=
  exists n : Z, (x == inject_Z n / 1000000)%Q.

(** The record has finite coordinates of at most six decimals, within [h]
    degrees of the centre (40.7128, -74.0060). *)
Definition near_centre (h : Q) (r : Demo.GpsRecord) : Prop :=
  exists x y,
    Demo.latitude r = Fin x /\ Demo.longitude r = Fin y /\
    within h 40.7128 x /\ within h (-74.0060) y /\
    six_decimals x /\ six_decimals y.

(** A random source that alternates between 0 and 0.99 on the latitude
    draws. *)
Definition rnd_alternating : nat -> float :=
  fun k => if Nat.even (k / 2) then lit 0 else lit 0.99.

(** * Proofs *)

(** ** Facts about the idealised floats *)

Lemma Qred_inject_Z (z : Z) : Qred (inject_Z z) = inject_Z z.
Proof.
  unfold Qred, inject_Z.
  generalize (Z.ggcd_gcd z 1) (Z.ggcd_correct_divisors z 1).
  destruct (Z.ggcd z 1) as [g [aa bb]]; simpl.
  rewrite Z.gcd_1_r. intros -> [Ha Hb].
  rewrite Z.mul_1_l in Ha, Hb. subst. reflexivity.
Qed.

Lemma add_of_Z (a b : Z) :
  Float.add (Float.of_Z a) (Float.of_Z b) = Float.of_Z (a + b).
Proof.
  unfold Float.add, Float.of_Z, Float.fin.
  rewrite <- (Qred_inject_Z (a + b)), inject_Z_plus. reflexivity.
Qed.

Lemma Qltb_lt (a b : Q) : Float.Qltb a b = true <-> (a < b)%Q.
Proof.
  unfold Float.Qltb. rewrite negb_true_iff.
  split; intro H.
  - apply Qnot_le_lt. intro Hle. apply Qle_bool_iff in Hle. congruence.
  - destruct (Qle_bool b a) eqn:E; [|reflexivity].
    apply Qle_bool_iff in E. exfalso. apply (Qlt_not_le _ _ H E).
Qed.

Lemma Qltb_ge (a b : Q) : Float.Qltb a b = false <-> (b <= a)%Q.
Proof.
  unfold Float.Qltb. rewrite negb_false_iff. apply Qle_bool_iff.
Qed.

Lemma maximum_of_Z (a b : Z) :
  Np.maximum (Float.of_Z a) (Float.of_Z b) = Float.of_Z (Z.max a b).
Proof.
  unfold Np.maximum, Float.of_Z; simpl. rewrite orb_false_r.
  destruct (Float.Qltb (inject_Z b) (inject_Z a)) eqn:E.
  - apply Qltb_lt in E. rewrite <- Zlt_Qlt in E. f_equal. f_equal. lia.
  - apply Qltb_ge in E. rewrite <- Zle_Qle in E. f_equal. f_equal. lia.
Qed.

(** ** The bin edges pass [np.digitize]'s monotonicity check *)

Lemma never_decreases_chain (q : Q) (qs : list Q) :
  chain Qle q qs -> Np.never_decreases (Fin q) (map Fin qs) = true.
Proof.
  revert q. induction qs as [|q' r IH]; intros q H; simpl in *; [reflexivity|].
  destruct H as [Hle Hr].
  apply Qltb_ge in Hle. rewrite Hle. auto.
Qed.

Lemma never_increases_chain (q : Q) (qs : list Q) :
  chain (fun a b => b <= a)%Q q qs ->
  Np.never_increases (Fin q) (map Fin qs) = true.
Proof.
  revert q. induction qs as [|q' r IH]; intros q H; simpl in *; [reflexivity|].
  destruct H as [Hle Hr].
  apply Qltb_ge in Hle. rewrite Hle. auto.
Qed.

Lemma chain_le_head (q q' : Q) (qs : list Q) :
  (q == q')%Q -> chain Qle q' qs -> chain Qle q qs.
Proof.
  destruct qs as [|x r]; simpl; [trivial|].
  intros E [H1 H2]. split; [rewrite E; exact H1 | exact H2].
Qed.

Lemma chain_ge_head (q q' : Q) (qs : list Q) :
  (q == q')%Q -> chain (fun a b => b <= a)%Q q' qs ->
  chain (fun a b => b <= a)%Q q qs.
Proof.
  destruct qs as [|x r]; simpl; [trivial|].
  intros E [H1 H2]. split; [rewrite E; exact H1 | exact H2].
Qed.

Lemma monotonicity_nondecreasing (q : Q) (qs : list Q) :
  chain Qle q qs -> Np.monotonicity (map Fin (q :: qs)) = 1.
Proof.
  simpl. induction qs as [|q' r IH]; simpl; [reflexivity|].
  intros [Hle Hr].
  destruct (Qeq_bool q' q) eqn:E.
  - apply Qeq_bool_eq in E. apply IH. apply chain_le_head with q'; [|exact Hr].
    symmetry; exact E.
  - apply Qeq_bool_neq in E.
    assert (Hlt : (q < q')%Q).
    { apply Qle_lteq in Hle. destruct Hle as [Hlt|Heq]; [exact Hlt|].
      exfalso; apply E; symmetry; exact Heq. }
    apply Qltb_lt in Hlt. rewrite Hlt.
    rewrite (never_decreases_chain _ _ Hr). reflexivity.
Qed.

Lemma monotonicity_nonincreasing (q : Q) (qs : list Q) :
  chain (fun a b => b <= a)%Q q qs -> Np.monotonicity (map Fin (q :: qs)) <> 0.
Proof.
  simpl. induction qs as [|q' r IH]; simpl; [discriminate|].
  intros [Hle Hr].
  destruct (Qeq_bool q' q) eqn:E.
  - apply Qeq_bool_eq in E. apply IH. apply chain_ge_head with q'; [|exact Hr].
    symmetry; exact E.
  - apply Qltb_ge in Hle. rewrite Hle.
    rewrite (never_increases_chain _ _ Hr). discriminate.
Qed.

Ltac unfin l :=
  lazymatch l with
  | nil => constr:(@nil Q)
  | Fin ?q :: ?r => let r' := unfin r in constr:(q :: r')
  end.

Ltac as_map_Fin :=
  lazymatch goal with
  | |- context [Np.monotonicity ?l] =>
      let qs := unfin l in change l with (map Fin qs)
  end.

Ltac linspace_list :=
  cbv -[Qred Qplus Qmult Qdiv Qminus Qopp Np.monotonicity].

Ltac chain_goals :=
  cbn [chain]; rewrite ?Qred_correct; unfold Qdiv;
  change (/ 10)%Q with (1 # 10)%Q; repeat split; try lra.

Lemma linspace_monotonic_fin (a b : Q) :
  Np.monotonicity (Np.linspace (Fin a) (Fin b) 11) <> 0.
Proof.
  unfold Np.linspace.
  cbn [Nat.sub Nat.ltb Nat.leb Float.sub].
  change (Float.div (Float.fin (b - a)) (Float.of_nat 10))
    with (Fin (Qred (Qred (b - a) / 10))).
  cbn [Float.eqb].
  destruct (Qeq_bool (Qred (Qred (b - a) / 10)) 0) eqn:E.
  - apply Qeq_bool_eq in E. rewrite !Qred_correct in E.
    unfold Qdiv in E. change (/ 10)%Q with (1 # 10)%Q in E.
    linspace_list. as_map_Fin.
    rewrite monotonicity_nondecreasing; [discriminate|].
    chain_goals.
  - apply Qeq_bool_neq in E. rewrite !Qred_correct in E.
    unfold Qdiv in E. change (/ 10)%Q with (1 # 10)%Q in E.
    linspace_list. as_map_Fin.
    destruct (Qlt_le_dec a b) as [Hlt|Hge].
    + rewrite monotonicity_nondecreasing; [discriminate|].
      chain_goals.
    + apply monotonicity_nonincreasing.
      chain_goals.
Qed.

Lemma linspace_monotonic (start stop : float) :
  Np.monotonicity (Np.linspace start stop 11) <> 0.
Proof.
  destruct start as [a| | |], stop as [b| | |];
    try apply linspace_monotonic_fin; vm_compute; discriminate.
Qed.

Lemma digitize_total (x : float) (bins : list float) :
  Np.monotonicity bins <> 0 -> exists k, Np.digitize x bins = Ok k.
Proof.
  intro H. unfold Np.digitize.
  destruct (Np.monotonicity bins =? 0) eqn:E0.
  - apply Z.eqb_eq in E0. contradiction.
  - destruct (Np.monotonicity bins =? -1); eexists; reflexivity.
Qed.

(** The fuel of [Np.binsearch] is enough: more of it changes nothing. *)
Lemma binsearch_fuel (cmp : float -> float -> bool) (arr : list float)
    (key : float) (fuel extra min_idx max_idx : nat) :
  (max_idx - min_idx <= fuel)%nat ->
  Np.binsearch (fuel + extra) cmp arr key min_idx max_idx =
  Np.binsearch fuel cmp arr key min_idx max_idx.
Proof.
  revert min_idx max_idx.
  induction fuel as [|fuel IH]; intros min_idx max_idx Hfuel.
  - destruct extra as [|extra]; cbn [Nat.add Np.binsearch]; [reflexivity|].
    destruct (Nat.ltb_spec min_idx max_idx); [lia | reflexivity].
  - cbn [Nat.add Np.binsearch].
    destruct (Nat.ltb_spec min_idx max_idx) as [Hlt|Hge]; [|reflexivity].
    assert (Hhalf : ((max_idx - min_idx) / 2 < max_idx - min_idx)%nat)
      by (apply Nat.div_lt; lia).
    destruct (cmp _ key); apply IH; lia.
Qed.

(** ** The counting loop keeps a grid of counts *)

Section AlterNth.
Context {A : Type}.

Lemma length_alter_nth (f : A -> A) (n : nat) (l : list A) :
  length (alter_nth f n l) = length l.
Proof.
  revert n; induction l as [|x r IH]; intros [|n]; simpl; auto.
Qed.



Lemma Forall_alter_nth (P : A -> Prop) (f : A -> A) (n : nat) (l : list A) :
  (forall x, P x -> P (f x)) -> Forall P l -> Forall P (alter_nth f n l).
Proof.
  intros Hf. revert n; induction l as [|x r IH]; intros [|n] H; simpl;
    auto; inversion H; subst; constructor; auto.
Qed.

Lemma map_alter_nth {B : Type} (g : A -> B) (f : A -> A) (f' : B -> B)
    (n : nat) (l : list A) :
  (forall x, g (f x) = f' (g x)) ->
  map g (alter_nth f n l) = alter_nth f' n (map g l).
Proof.
  intros Hf. revert n; induction l as [|x r IH]; intros [|n]; simpl;
    auto; f_equal; auto.
Qed.
End AlterNth.

Lemma zsum_app (l1 l2 : list Z) : zsum (l1 ++ l2) = zsum l1 + zsum l2.
Proof. induction l1; simpl; lia. Qed.

Lemma zsum_alter_succ (n : nat) (l : list Z) :
  (n < length l)%nat -> zsum (alter_nth Z.succ n l) = zsum l + 1.
Proof.
  revert n; induction l as [|x r IH]; intros [|n] H; simpl in *; try lia.
  rewrite IH; lia.
Qed.

Lemma zsum_concat_alter (f : list Z -> list Z) (n : nat) (zg : list (list Z)) :
  (n < length zg)%nat ->
  zsum (f (nth n zg [])) = zsum (nth n zg []) + 1 ->
  zsum (concat (alter_nth f n zg)) = zsum (concat zg) + 1.
Proof.
  revert n; induction zg as [|row r IH]; intros [|n] H Hf; simpl in *;
    try lia; rewrite !zsum_app.
  - lia.
  - rewrite IH; auto; lia.
Qed.

Lemma clamp_index (k : Z) :
  let idx := Z.max 0 (Z.min k (Z.of_nat grid_size - 1)) in
  norm_index idx grid_size = Ok (Z.to_nat idx) /\ (Z.to_nat idx < grid_size)%nat.
Proof.
  unfold grid_size, norm_index. simpl Z.of_nat. cbv zeta.
  set (idx := Z.max 0 (Z.min k (10 - 1))).
  assert (H : 0 <= idx < 10) by (unfold idx; lia).
  destruct (Z.leb_spec 0 idx); try lia.
  destruct (Z.ltb_spec idx 10); try lia.
  simpl. split; [reflexivity | lia].
Qed.

Lemma incr_of_Z (c : Z) : Float.add (Float.of_Z c) (Fin 1) = Float.of_Z (Z.succ c).
Proof. apply (add_of_Z c 1). Qed.

Lemma nth_length_row (zg : list (list Z)) (i : nat) :
  counts_ok zg -> (i < grid_size)%nat -> length (nth i zg []) = grid_size.
Proof.
  intros [Hr Hc _] Hi. rewrite Forall_forall in Hc.
  apply Hc. apply nth_In. lia.
Qed.

Lemma counts_ok_alter (f : Z -> Z) (zg : list (list Z)) (i j : nat) :
  (forall c, 0 <= c -> 0 <= f c) ->
  counts_ok zg -> counts_ok (alter_nth (alter_nth f j) i zg).
Proof.
  intros Hf [Hr Hc Hn]. split.
  - rewrite length_alter_nth. exact Hr.
  - apply Forall_alter_nth; [|exact Hc].
    intros row Hrow. rewrite length_alter_nth. exact Hrow.
  - apply Forall_alter_nth; [|exact Hn].
    intros row Hrow. apply Forall_alter_nth; [|exact Hrow]. exact Hf.
Qed.


Lemma grid_incr_counts (zg : list (list Z)) (a b : Z) :
  counts_ok zg ->
  let i := Z.max 0 (Z.min a (Z.of_nat grid_size - 1)) in
  let j := Z.max 0 (Z.min b (Z.of_nat grid_size - 1)) in
  grid_incr (counts zg) i j =
    Ok (counts (alter_nth (alter_nth Z.succ (Z.to_nat j)) (Z.to_nat i) zg)).
Proof.
  intros Hok i j.
  destruct (clamp_index a) as [Hi Hi'], (clamp_index b) as [Hj Hj'].
  fold i in Hi, Hi'. fold j in Hj, Hj'.
  unfold grid_incr, counts at 1 2.
  rewrite length_map, (ok_rows _ Hok), Hi. cbn [rbind].
  change (@nil float) with (map Float.of_Z []). rewrite map_nth, length_map.
  rewrite (nth_length_row _ _ Hok Hi'), Hj. cbn [rbind].
  unfold counts. apply f_equal. symmetry. apply map_alter_nth.
  intros row. apply map_alter_nth. intros c. symmetry. apply incr_of_Z.
Qed.

Lemma zsum_incr (zg : list (list Z)) (i j : nat) :
  counts_ok zg -> (i < grid_size)%nat -> (j < grid_size)%nat ->
  zsum (concat (alter_nth (alter_nth Z.succ j) i zg)) = zsum (concat zg) + 1.
Proof.
  intros Hok Hi Hj. apply zsum_concat_alter.
  - rewrite (ok_rows _ Hok). exact Hi.
  - apply zsum_alter_succ. rewrite (nth_length_row _ _ Hok Hi). exact Hj.
Qed.

Lemma count_points_counts (lat_bins lon_bins : list float)
    (all_coords : list (float * float)) (zg : list (list Z)) :
  Np.monotonicity lat_bins <> 0 -> Np.monotonicity lon_bins <> 0 ->
  counts_ok zg ->
  exists zg',
    count_points lat_bins lon_bins (counts zg) all_coords = Ok (counts zg') /\
    counts_ok zg' /\
    zsum (concat zg') = zsum (concat zg) + Z.of_nat (length all_coords).
Proof.
  intros Hlat Hlon. revert zg.
  induction all_coords as [|p rest IH]; intros zg Hok.
  - exists zg. simpl. split; [reflexivity|]. split; [exact Hok | lia].
  - destruct (digitize_total (fst p) lat_bins Hlat) as [d_lat Ed_lat].
    destruct (digitize_total (snd p) lon_bins Hlon) as [d_lon Ed_lon].
    set (i := Z.max 0 (Z.min (d_lat - 1) (Z.of_nat grid_size - 1))).
    set (j := Z.max 0 (Z.min (d_lon - 1) (Z.of_nat grid_size - 1))).
    destruct (IH (alter_nth (alter_nth Z.succ (Z.to_nat j)) (Z.to_nat i) zg))
      as (zg' & Hrun & Hok' & Hsum).
    { apply counts_ok_alter; [intros; lia | exact Hok]. }
    exists zg'. split; [|split; [exact Hok'|]].
    + cbn [count_points]. unfold count_point.
      rewrite Ed_lat, Ed_lon. cbn [rbind].
      rewrite (grid_incr_counts zg (d_lat - 1) (d_lon - 1) Hok).
      cbn [rbind]. exact Hrun.
    + rewrite Hsum, zsum_incr; auto.
      * simpl length. lia.
      * apply (clamp_index (d_lat - 1)).
      * apply (clamp_index (d_lon - 1)).
Qed.

(** ** Maximum, threshold and sum of a grid of counts *)

Lemma fold_max_ge_init (r : list Z) (x : Z) : x <= fold_left Z.max r x.
Proof.
  revert x; induction r as [|y r IH]; intro x; simpl; [lia|].
  specialize (IH (Z.max x y)). lia.
Qed.

Lemma fold_max_ge (r : list Z) (x c : Z) : In c r -> c <= fold_left Z.max r x.
Proof.
  revert x; induction r as [|y r IH]; intros x H; simpl in *; [tauto|].
  destruct H as [->|H]; [|auto].
  pose proof (fold_max_ge_init r (Z.max x c)). lia.
Qed.

Lemma fold_max_in (r : list Z) (x : Z) : In (fold_left Z.max r x) (x :: r).
Proof.
  revert x; induction r as [|y r IH]; intro x; simpl; [auto|].
  destruct (IH (Z.max x y)) as [H|H]; [|right; right; exact H].
  rewrite <- H.
  destruct (Z.max_spec x y) as [[_ E]|[_ E]]; rewrite E; auto.
Qed.

Lemma zmax_ge (l : list Z) (c : Z) : In c l -> c <= zmax l.
Proof.
  destruct l as [|x r]; simpl; [tauto|].
  intros [->|H]; [apply fold_max_ge_init | apply fold_max_ge, H].
Qed.

Lemma zmax_in (l : list Z) : l <> [] -> In (zmax l) l.
Proof.
  destruct l as [|x r]; [congruence|]. intros _. apply fold_max_in.
Qed.

Lemma fold_maximum_of_Z (r : list Z) (x : Z) :
  fold_left Np.maximum (map Float.of_Z r) (Float.of_Z x) =
  Float.of_Z (fold_left Z.max r x).
Proof.
  revert x; induction r as [|y r IH]; intro x; cbn [fold_left map];
    [reflexivity|].
  rewrite maximum_of_Z. apply IH.
Qed.

Lemma concat_counts (zg : list (list Z)) :
  concat (counts zg) = map Float.of_Z (concat zg).
Proof. unfold counts. symmetry. apply concat_map. Qed.

Lemma concat_nonempty (zg : list (list Z)) : counts_ok zg -> concat zg <> [].
Proof.
  intros [Hr Hc _]. destruct zg as [|row r]; [discriminate|].
  inversion Hc; subst. destruct row; [discriminate|]. discriminate.
Qed.

Lemma max_counts (zg : list (list Z)) :
  counts_ok zg ->
  Np.max (concat (counts zg)) = Ok (Float.of_Z (zmax (concat zg))).
Proof.
  intro Hok. rewrite concat_counts.
  pose proof (concat_nonempty zg Hok) as Hne.
  destruct (concat zg) as [|x r]; [congruence|].
  simpl. rewrite fold_maximum_of_Z. reflexivity.
Qed.

Lemma fold_add_of_Z (l : list Z) (a : Z) :
  fold_left Float.add (map Float.of_Z l) (Float.of_Z a) = Float.of_Z (a + zsum l).
Proof.
  revert a; induction l as [|x r IH]; intro a;
    cbn [fold_left map zsum fold_right].
  - f_equal. lia.
  - rewrite add_of_Z, IH. f_equal. unfold zsum. lia.
Qed.

Lemma np_sum_counts (zg : list (list Z)) :
  np_sum (concat (counts zg)) = Float.of_Z (zsum (concat zg)).
Proof.
  unfold np_sum. rewrite concat_counts. apply (fold_add_of_Z _ 0).
Qed.

Lemma cell_counts (zg : list (list Z)) (i j : nat) :
  counts_ok zg -> (i < grid_size)%nat -> (j < grid_size)%nat ->
  cell (counts zg) i j = Float.of_Z (nth j (nth i zg []) 0).
Proof.
  intros Hok Hi Hj. unfold cell, counts.
  change (@nil float) with (map Float.of_Z []). rewrite map_nth.
  rewrite (nth_indep _ NaN (Float.of_Z 0)).
  - apply map_nth.
  - rewrite length_map, (nth_length_row _ _ Hok Hi). exact Hj.
Qed.

Lemma in_concat_nth (zg : list (list Z)) (c : Z) :
  In c (concat zg) ->
  exists i j, (i < length zg)%nat /\ (j < length (nth i zg []))%nat /\
              nth j (nth i zg []) 0 = c.
Proof.
  intro H. apply in_concat in H. destruct H as (row & Hrow & Hc).
  destruct (In_nth _ _ [] Hrow) as (i & Hi & Ei).
  destruct (In_nth _ _ 0 Hc) as (j & Hj & Ej).
  exists i, j. rewrite Ei. auto.
Qed.

Lemma nth_in_concat (zg : list (list Z)) (i j : nat) :
  (i < length zg)%nat -> (j < length (nth i zg []))%nat ->
  In (nth j (nth i zg []) 0) (concat zg).
Proof.
  intros Hi Hj. apply in_concat. exists (nth i zg []).
  split; apply nth_In; assumption.
Qed.

(** The test [grid[i, j] >= max * 0.7] on integer counts. *)
Lemma geb_threshold (c m : Z) :
  Float.geb (Float.of_Z c) (Float.mul (Float.of_Z m) (lit 0.7)) = true <->
  (0.7 * inject_Z m <= inject_Z c)%Q.
Proof.
  unfold Float.geb, Float.mul, Float.of_Z, lit, Float.fin, Float.leb.
  rewrite Qle_bool_iff, !Qred_correct. split; intro H; lra.
Qed.

(** ** The aggregator on a non-empty input *)

Lemma zero_counts_ok : counts_ok zero_counts.
Proof.
  split.
  - reflexivity.
  - unfold zero_counts. apply Forall_forall. intros row Hrow.
    apply repeat_spec in Hrow. subst. apply repeat_length.
  - unfold zero_counts. apply Forall_forall. intros row Hrow.
    apply repeat_spec in Hrow. subst. apply Forall_forall. intros c Hc.
    apply repeat_spec in Hc. lia.
Qed.

Lemma find_hotspots_in (grid : Grid) (lat_bins lon_bins : list float)
    (threshold : float) (h : Hotspot) :
  In h (find_hotspots grid lat_bins lon_bins threshold) <->
  exists i j, (i < grid_size)%nat /\ (j < grid_size)%nat /\
    Float.geb (cell grid i j) threshold = true /\
    h = {| latitude := bin_mid lat_bins i;
           longitude := bin_mid lon_bins j;
           congestion_level := cell grid i j |}.
Proof.
  unfold find_hotspots. rewrite in_flat_map. split.
  - intros (i & Hi & H). apply in_flat_map in H. destruct H as (j & Hj & H).
    apply in_seq in Hi, Hj.
    destruct (Float.geb (cell grid i j) threshold) eqn:E; [|destruct H].
    destruct H as [<-|[]]. exists i, j. repeat split; auto; lia.
  - intros (i & j & Hi & Hj & E & ->).
    exists i. split; [apply in_seq; lia|].
    apply in_flat_map. exists j. split; [apply in_seq; lia|].
    rewrite E. left. reflexivity.
Qed.

(** What the aggregator returns on a non-empty input: the counting loop
    ends with a grid of integer counts [zg] that add up to the number of
    points. *)
Lemma analyze_nonempty (all_coords : list (float * float)) (driver_ids : list Z) :
  all_coords <> [] ->
  exists b zg,
    Np.min (map fst all_coords) = Ok (lat_min b) /\
    Np.max (map fst all_coords) = Ok (lat_max b) /\
    Np.min (map snd all_coords) = Ok (lon_min b) /\
    Np.max (map snd all_coords) = Ok (lon_max b) /\
    counts_ok zg /\
    zsum (concat zg) = Z.of_nat (length all_coords) /\
    analyze_congestion_patterns all_coords driver_ids =
      Ok {| total_gps_points := length all_coords;
            average_location := (Np.mean (map fst all_coords),
                                 Np.mean (map snd all_coords));
            congestion_grid := counts zg;
            hotspots :=
              find_hotspots (counts zg)
                (Np.linspace (lat_min b) (lat_max b) (grid_size + 1))
                (Np.linspace (lon_min b) (lon_max b) (grid_size + 1))
                (Float.mul (Float.of_Z (zmax (concat zg))) (lit 0.7));
            grid_bounds := b |}.
Proof.
  intro Hne. destruct all_coords as [|p rest]; [congruence|].
  set (pts := p :: rest).
  set (b := {| lat_min := fold_left Np.minimum (map fst rest) (fst p);
               lat_max := fold_left Np.maximum (map fst rest) (fst p);
               lon_min := fold_left Np.minimum (map snd rest) (snd p);
               lon_max := fold_left Np.maximum (map snd rest) (snd p) |}).
  destruct (count_points_counts
              (Np.linspace (lat_min b) (lat_max b) (grid_size + 1))
              (Np.linspace (lon_min b) (lon_max b) (grid_size + 1))
              pts zero_counts) as (zg & Hrun & Hok & Hsum).
  { apply linspace_monotonic. }
  { apply linspace_monotonic. }
  { apply zero_counts_ok. }
  exists b, zg. repeat (split; [reflexivity|]).
  split; [exact Hok|]. split; [exact Hsum|].
  unfold analyze_congestion_patterns.
  change (Np.min (map fst pts)) with (Ok (lat_min b)).
  change (Np.max (map fst pts)) with (Ok (lat_max b)).
  change (Np.min (map snd pts)) with (Ok (lon_min b)).
  change (Np.max (map snd pts)) with (Ok (lon_max b)).
  cbn [rbind].
  change (zeros grid_size grid_size) with (counts zero_counts).
  rewrite Hrun. cbn [rbind].
  rewrite (max_counts zg Hok). cbn [rbind].
  destruct b; reflexivity.
Qed.

(** ** Claims about the aggregator *)

(** C5.  On a non-empty input the aggregator returns a 10 x 10 grid whose
    cells add up to the number of input points. *)
Theorem grid_counts_add_up (all_coords : list (float * float))
    (driver_ids : list Z) :
  all_coords <> [] ->
  exists r,
    analyze_congestion_patterns all_coords driver_ids = Ok r /\
    np_sum (concat (congestion_grid r)) = Float.of_nat (length all_coords) /\
    length (congestion_grid r) = grid_size /\
    Forall (fun row => length row = grid_size) (congestion_grid r).
Proof.
  intro Hne.
  destruct (analyze_nonempty all_coords driver_ids Hne)
    as (b & zg & _ & _ & _ & _ & Hok & Hsum & Hrun).
  eexists. split; [exact Hrun|]. cbn [congestion_grid].
  split; [|split].
  - rewrite np_sum_counts, Hsum. reflexivity.
  - unfold counts. rewrite length_map. apply (ok_rows _ Hok).
  - unfold counts. apply Forall_map.
    eapply Forall_impl; [|apply (ok_cols _ Hok)].
    intros row Hrow. rewrite length_map. exact Hrow.
Qed.

Lemma grid_counts_add_up_witness :
  sample_coords <> [] /\
  exists r,
    analyze_congestion_patterns sample_coords [0; 1; 2; 3] = Ok r /\
    np_sum (concat (congestion_grid r)) = Float.of_nat (length sample_coords) /\
    length (congestion_grid r) = grid_size /\
    Forall (fun row => length row = grid_size) (congestion_grid r).
Proof.
  split; [discriminate|].
  apply (grid_counts_add_up sample_coords [0; 1; 2; 3]). discriminate.
Defined.

(** C4.  On a non-empty input the returned grid holds integer counts
    [count i j], and the hotspot list holds exactly one entry for each cell
    whose count is at least 0.7 times the largest count: its level is the
    count of the cell and its coordinates are the midpoints of the cell's
    latitude and longitude bin edges, [(bins[i] + bins[i+1]) / 2] for the
    edges [bins] that [np.linspace] gives between the reported bounds. *)
Theorem hotspots_are_cells_at_threshold (all_coords : list (float * float))
    (driver_ids : list Z) :
  all_coords <> [] ->
  exists r zg,
    analyze_congestion_patterns all_coords driver_ids = Ok r /\
    congestion_grid r = counts zg /\
    let b := grid_bounds r in
    let lat_bins := Np.linspace (lat_min b) (lat_max b) (grid_size + 1) in
    let lon_bins := Np.linspace (lon_min b) (lon_max b) (grid_size + 1) in
    let count := fun i j => nth j (nth i zg []) 0 in
    let max_count := zmax (concat zg) in
    let midpoint := fun (bins : list float) (i : nat) =>
      Float.div (Float.add (nth i bins NaN) (nth (i + 1) bins NaN)) (Fin 2) in
    (forall i j, (i < grid_size)%nat -> (j < grid_size)%nat ->
       count i j <= max_count) /\
    (exists i j, (i < grid_size)%nat /\ (j < grid_size)%nat /\
       count i j = max_count) /\
    forall h, In h (hotspots r) <->
      exists i j, (i < grid_size)%nat /\ (j < grid_size)%nat /\
        (0.7 * inject_Z max_count <= inject_Z (count i j))%Q /\
        h = {| latitude := midpoint lat_bins i;
               longitude := midpoint lon_bins j;
               congestion_level := Float.of_Z (count i j) |}.
Proof.
  intro Hne.
  destruct (analyze_nonempty all_coords driver_ids Hne)
    as (b & zg & _ & _ & _ & _ & Hok & Hsum & Hrun).
  eexists. exists zg. split; [exact Hrun|].
  cbn [congestion_grid grid_bounds hotspots]. split; [reflexivity|].
  cbv zeta. split; [|split].
  - intros i j Hi Hj. apply zmax_ge, nth_in_concat.
    + rewrite (ok_rows _ Hok). exact Hi.
    + rewrite (nth_length_row _ _ Hok Hi). exact Hj.
  - destruct (in_concat_nth zg _ (zmax_in _ (concat_nonempty zg Hok)))
      as (i & j & Hi & Hj & E).
    assert (Hi' : (i < grid_size)%nat) by (rewrite <- (ok_rows _ Hok); exact Hi).
    exists i, j. rewrite (nth_length_row _ _ Hok Hi') in Hj. auto.
  - intro h. rewrite find_hotspots_in. split.
    + intros (i & j & Hi & Hj & E & ->).
      rewrite (cell_counts zg i j Hok Hi Hj) in *.
      apply geb_threshold in E. exists i, j. auto.
    + intros (i & j & Hi & Hj & E & ->).
      exists i, j. rewrite (cell_counts zg i j Hok Hi Hj).
      apply geb_threshold in E. auto.
Qed.

Lemma hotspots_are_cells_at_threshold_witness :
  sample_coords <> [] /\
  exists r zg,
    analyze_congestion_patterns sample_coords [0; 1; 2; 3] = Ok r /\
    congestion_grid r = counts zg /\
    let b := grid_bounds r in
    let lat_bins := Np.linspace (lat_min b) (lat_max b) (grid_size + 1) in
    let lon_bins := Np.linspace (lon_min b) (lon_max b) (grid_size + 1) in
    let count := fun i j => nth j (nth i zg []) 0 in
    let max_count := zmax (concat zg) in
    let midpoint := fun (bins : list float) (i : nat) =>
      Float.div (Float.add (nth i bins NaN) (nth (i + 1) bins NaN)) (Fin 2) in
    (forall i j, (i < grid_size)%nat -> (j < grid_size)%nat ->
       count i j <= max_count) /\
    (exists i j, (i < grid_size)%nat /\ (j < grid_size)%nat /\
       count i j = max_count) /\
    forall h, In h (hotspots r) <->
      exists i j, (i < grid_size)%nat /\ (j < grid_size)%nat /\
        (0.7 * inject_Z max_count <= inject_Z (count i j))%Q /\
        h = {| latitude := midpoint lat_bins i;
               longitude := midpoint lon_bins j;
               congestion_level := Float.of_Z (count i j) |}.
Proof.
  split; [discriminate|].
  apply (hotspots_are_cells_at_threshold sample_coords [0; 1; 2; 3]).
  discriminate.
Defined.


Lemma zmax_nonneg (zg : list (list Z)) : counts_ok zg -> 0 <= zmax (concat zg).
Proof.
  intro Hok.
  pose proof (zmax_in _ (concat_nonempty zg Hok)) as Hin.
  apply in_concat in Hin. destruct Hin as (row & Hrow & Hc).
  pose proof (ok_nonneg _ Hok) as Hn. rewrite Forall_forall in Hn.
  specialize (Hn row Hrow). rewrite Forall_forall in Hn. apply Hn, Hc.
Qed.

(** C10.  On a non-empty input the hotspot list is not empty: a cell that
    holds the largest count passes the threshold test. *)
Theorem hotspots_nonempty (all_coords : list (float * float))
    (driver_ids : list Z) :
  all_coords <> [] ->
  exists r,
    analyze_congestion_patterns all_coords driver_ids = Ok r /\
    hotspots r <> [].
Proof.
  intro Hne.
  destruct (analyze_nonempty all_coords driver_ids Hne)
    as (b & zg & _ & _ & _ & _ & Hok & Hsum & Hrun).
  eexists. split; [exact Hrun|]. cbn [hotspots].
  destruct (in_concat_nth zg _ (zmax_in _ (concat_nonempty zg Hok)))
    as (i & j & Hi & Hj & E).
  assert (Hi' : (i < grid_size)%nat) by (rewrite <- (ok_rows _ Hok); exact Hi).
  rewrite (nth_length_row _ _ Hok Hi') in Hj.
  pose proof (zmax_nonneg zg Hok) as Hpos.
  match goal with
  | |- ?l <> [] =>
      assert (Hin : In {| latitude :=
                        bin_mid (Np.linspace (lat_min b) (lat_max b)
                                   (grid_size + 1)) i;
                      longitude :=
                        bin_mid (Np.linspace (lon_min b) (lon_max b)
                                   (grid_size + 1)) j;
                      congestion_level := cell (counts zg) i j |} l)
  end.
  { apply find_hotspots_in. exists i, j. repeat (split; [assumption|]).
    split; [|reflexivity].
    rewrite (cell_counts zg i j Hok Hi' Hj), E. apply geb_threshold.
    rewrite Zle_Qle in Hpos. change (inject_Z 0) with 0%Q in Hpos. lra. }
  intro Hnil. rewrite Hnil in Hin. destruct Hin.
Qed.

Lemma hotspots_nonempty_witness :
  sample_coords <> [] /\
  exists r,
    analyze_congestion_patterns sample_coords [0; 1; 2; 3] = Ok r /\
    hotspots r <> [].
Proof.
  split; [discriminate|].
  apply (hotspots_nonempty sample_coords [0; 1; 2; 3]). discriminate.
Defined.

(** C7, as the code has it.  There is no check of the coordinates: an
    input with a NaN or infinite coordinate is analysed like any other, and
    every point, the malformed ones included, is counted in the grid. *)
Theorem malformed_points_are_binned (all_coords : list (float * float))
    (driver_ids : list Z) :
  (exists p, In p all_coords /\ malformed p) ->
  exists r,
    analyze_congestion_patterns all_coords driver_ids = Ok r /\
    total_gps_points r = length all_coords /\
    np_sum (concat (congestion_grid r)) = Float.of_nat (length all_coords).
Proof.
  intros (p & Hp & _).
  assert (Hne : all_coords <> []) by (intros ->; destruct Hp).
  destruct (analyze_nonempty all_coords driver_ids Hne)
    as (b & zg & _ & _ & _ & _ & Hok & Hsum & Hrun).
  eexists. split; [exact Hrun|]. cbn [congestion_grid total_gps_points].
  split; [reflexivity|]. rewrite np_sum_counts, Hsum. reflexivity.
Qed.

Lemma malformed_points_are_binned_witness :
  (exists p, In p coords_with_nan /\ malformed p) /\
  exists r,
    analyze_congestion_patterns coords_with_nan [0; 1] = Ok r /\
    total_gps_points r = length coords_with_nan /\
    np_sum (concat (congestion_grid r)) = Float.of_nat (length coords_with_nan).
Proof.
  assert (H : exists p, In p coords_with_nan /\ malformed p).
  { exists (NaN, lit (-74)). split; [left; reflexivity | left; reflexivity]. }
  split; [exact H|].
  apply (malformed_points_are_binned coords_with_nan [0; 1] H).
Defined.

(** C7, as stated, fails: the input with a NaN latitude is not rejected.
    The NaN point is counted in cell (0, 0) and the other in cell (9, 9). *)
Lemma nan_input_not_rejected :
  (exists r,
     analyze_congestion_patterns coords_with_nan [0; 1] = Ok r /\
     cell (congestion_grid r) 0 0 = Fin 1 /\
     cell (congestion_grid r) 9 9 = Fin 1) /\
  ~ (exists e, analyze_congestion_patterns coords_with_nan [0; 1] = Raise e).
Proof.
  split.
  - eexists. split; [vm_compute; reflexivity|]. split; reflexivity.
  - intros (e & H). vm_compute in H. discriminate.
Qed.

(** C1, as the code has it.  On the empty input [np.min] is applied to a
    zero-size array and raises [ValueError]: the aggregator returns neither
    a grid nor a hotspot list. *)
Theorem analyze_empty_raises (driver_ids : list Z) :
  analyze_congestion_patterns [] driver_ids =
    Raise (ValueError
      "zero-size array to reduction operation minimum which has no identity").
Proof. reflexivity. Qed.

(** C1, as stated, fails: the empty input gives no result at all. *)
Lemma empty_input_no_result :
  ~ (exists r,
       analyze_congestion_patterns [] [] = Ok r /\
       Forall (Forall (fun c => c = Fin 0)) (congestion_grid r) /\
       hotspots r = []).
Proof.
  intros (r & H & _). vm_compute in H. discriminate.
Qed.

(** ** Identical points: a bounding box of zero extent *)

Lemma minimum_same (a : Q) : Np.minimum (Fin a) (Fin a) = Fin a.
Proof. unfold Np.minimum. destruct (_ || _); reflexivity. Qed.

Lemma maximum_same (a : Q) : Np.maximum (Fin a) (Fin a) = Fin a.
Proof. unfold Np.maximum. destruct (_ || _); reflexivity. Qed.

Lemma fold_minimum_repeat (a : Q) (k : nat) :
  fold_left Np.minimum (repeat (Fin a) k) (Fin a) = Fin a.
Proof. induction k; cbn [repeat fold_left]; [|rewrite minimum_same]; auto. Qed.

Lemma fold_maximum_repeat (a : Q) (k : nat) :
  fold_left Np.maximum (repeat (Fin a) k) (Fin a) = Fin a.
Proof. induction k; cbn [repeat fold_left]; [|rewrite maximum_same]; auto. Qed.

Lemma Qred_zero (q : Q) : (q == 0)%Q -> Qred q = 0%Q.
Proof. intro H. apply (Qred_complete q 0 H). Qed.

(** The eleven edges over a zero-width range all equal the bound. *)
Lemma linspace_degenerate (a : Q) :
  Np.linspace (Fin a) (Fin a) (grid_size + 1) =
  repeat (Fin (Qred a)) 10 ++ [Fin a].
Proof.
  unfold Np.linspace, grid_size.
  cbn [Nat.add Nat.sub Nat.ltb Nat.leb Float.sub].
  unfold Float.fin at 1 2. rewrite (Qred_zero (a - a)) by lra.
  change (Float.div (Fin 0) (Float.of_nat 10)) with (Fin 0).
  cbn [Float.eqb]. change (Qeq_bool 0 0) with true. cbv iota.
  assert (E : forall v : float,
            Float.isfinite v = true ->
            Float.add (Float.mul (Float.div v (Float.of_nat 10)) (Fin 0)) (Fin a)
            = Fin (Qred a)).
  { intros [q| | |] Hv; try discriminate.
    change (Float.div (Fin q) (Float.of_nat 10)) with (Float.fin (q / 10)).
    unfold Float.mul, Float.add, Float.fin.
    rewrite (Qred_zero (Qred (q / 10) * 0)) by (rewrite Qred_correct; lra).
    f_equal. apply Qred_complete. lra. }
  rewrite map_map. unfold Np.arange. rewrite map_map.
  cbn [seq map]. rewrite !E by reflexivity. reflexivity.
Qed.

Lemma monotonicity_degenerate (a : Q) :
  Np.monotonicity (Np.linspace (Fin a) (Fin a) (grid_size + 1)) = 1.
Proof.
  rewrite linspace_degenerate.
  apply (monotonicity_nondecreasing (Qred a)
           (repeat (Qred a) 9 ++ [a])).
  cbn [repeat app chain]. rewrite ?Qred_correct. repeat split; lra.
Qed.

(** When every probed element passes the comparison the search ends at the
    upper index. *)
Lemma binsearch_all_pass (cmp : float -> float -> bool) (arr : list float)
    (key : float) (fuel min_idx max_idx : nat) :
  (forall k, (k < max_idx)%nat -> cmp (nth k arr NaN) key = true) ->
  (min_idx <= max_idx)%nat -> (max_idx - min_idx <= fuel)%nat ->
  Np.binsearch fuel cmp arr key min_idx max_idx = max_idx.
Proof.
  intro Hcmp. revert min_idx.
  induction fuel as [|fuel IH]; intros min_idx Hle Hfuel; cbn [Np.binsearch].
  - lia.
  - destruct (Nat.ltb_spec min_idx max_idx) as [Hlt|Hge]; [|lia].
    assert (Hhalf : ((max_idx - min_idx) / 2 < max_idx - min_idx)%nat)
      by (apply Nat.div_lt; lia).
    rewrite Hcmp by lia.
    apply IH; lia.
Qed.

Lemma digitize_degenerate (a : Q) :
  Np.digitize (Fin a) (Np.linspace (Fin a) (Fin a) (grid_size + 1)) = Ok 11.
Proof.
  unfold Np.digitize. rewrite monotonicity_degenerate.
  cbn [Z.eqb Pos.eqb]. unfold Np.searchsorted_right.
  rewrite linspace_degenerate at 1 3.
  change (length (repeat (Fin (Qred a)) 10 ++ [Fin a])) with 11%nat.
  rewrite binsearch_all_pass; [reflexivity| |lia|lia].
  intros k Hk. rewrite linspace_degenerate.
  assert (Hsame : forall q, (q == a)%Q ->
            Np.less_equal (Fin q) (Fin a) = true).
  { intros q Hq. unfold Np.less_equal, Np.less. cbn [Float.ltb Float.isnan].
    rewrite andb_false_l, orb_false_r, negb_true_iff.
    apply Qltb_ge. rewrite Hq. apply Qle_refl. }
  do 11 (destruct k as [|k];
         [cbn [nth repeat app]; apply Hsame;
          rewrite ?Qred_correct; reflexivity|]).
  lia.
Qed.


Lemma last_cell_only_ok (v : Z) : 0 <= v -> counts_ok (last_cell_only v).
Proof.
  intro Hv. apply counts_ok_alter; [intros; exact Hv | apply zero_counts_ok].
Qed.

Lemma count_points_identical (a b : Q) (n : nat) (v : Z) :
  0 <= v ->
  count_points (Np.linspace (Fin a) (Fin a) (grid_size + 1))
               (Np.linspace (Fin b) (Fin b) (grid_size + 1))
               (counts (last_cell_only v)) (repeat (Fin a, Fin b) n)
  = Ok (counts (last_cell_only (v + Z.of_nat n))).
Proof.
  revert v. induction n as [|n IH]; intros v Hv.
  - cbn [repeat count_points]. do 3 f_equal. simpl. lia.
  - cbn [repeat count_points]. unfold count_point. cbn [fst snd].
    rewrite !digitize_degenerate. cbn [rbind].
    rewrite (grid_incr_counts (last_cell_only v) (11 - 1) (11 - 1)
               (last_cell_only_ok v Hv)).
    cbn [rbind].
    change (alter_nth (alter_nth Z.succ _) _ (last_cell_only v))
      with (last_cell_only (v + 1)).
    rewrite IH by lia. do 3 f_equal. lia.
Qed.

Lemma in_last_cell_only (v c : Z) :
  In c (concat (last_cell_only v)) -> c = 0 \/ c = v.
Proof.
  cbv [last_cell_only zero_counts grid_size repeat alter_nth concat app].
  intro H. repeat (destruct H as [H|H]; [auto|]). destruct H.
Qed.

Lemma zmax_last_cell_only (v : Z) : 0 <= v -> zmax (concat (last_cell_only v)) = v.
Proof.
  intro Hv.
  pose proof (last_cell_only_ok v Hv) as Hok.
  pose proof (zmax_in _ (concat_nonempty _ Hok)) as Hin.
  apply in_last_cell_only in Hin.
  assert (Hge : v <= zmax (concat (last_cell_only v))).
  { apply zmax_ge. apply (nth_in_concat (last_cell_only v) 9 9).
    - rewrite (ok_rows _ Hok). unfold grid_size. lia.
    - rewrite (nth_length_row _ _ Hok); unfold grid_size; lia. }
  lia.
Qed.

Lemma geb_zero_threshold (m : Z) :
  1 <= m -> Float.geb (Float.of_Z 0) (Float.mul (Float.of_Z m) (lit 0.7)) = false.
Proof.
  intro Hm.
  destruct (Float.geb _ _) eqn:E; [|reflexivity].
  apply geb_threshold in E. rewrite Zle_Qle in Hm.
  change (inject_Z 0) with 0%Q in E. change (inject_Z 1) with 1%Q in Hm. lra.
Qed.

Lemma geb_max_threshold (m : Z) :
  0 <= m -> Float.geb (Float.of_Z m) (Float.mul (Float.of_Z m) (lit 0.7)) = true.
Proof.
  intro Hm. apply geb_threshold. rewrite Zle_Qle in Hm.
  change (inject_Z 0) with 0%Q in Hm. lra.
Qed.

Lemma bin_mid_degenerate (a : Q) :
  bin_mid (Np.linspace (Fin a) (Fin a) (grid_size + 1)) 9 = Fin (Qred a).
Proof.
  rewrite linspace_degenerate. unfold bin_mid. cbn [Nat.add nth repeat app].
  change (Float.div (Float.add (Fin (Qred a)) (Fin a)) (Fin 2))
    with (Fin (Qred (Qred (Qred a + a) / 2))).
  f_equal. apply Qred_complete. rewrite !Qred_correct.
  unfold Qdiv. change (/ 2)%Q with (1 # 2)%Q. lra.
Qed.

Lemma find_hotspots_last_cell (m : Z) (lat_bins lon_bins : list float) :
  1 <= m ->
  find_hotspots (counts (last_cell_only m)) lat_bins lon_bins
                (Float.mul (Float.of_Z m) (lit 0.7))
  = [ {| latitude := bin_mid lat_bins 9;
         longitude := bin_mid lon_bins 9;
         congestion_level := Float.of_Z m |} ].
Proof.
  intro Hm.
  cbv [find_hotspots grid_size seq flat_map cell counts last_cell_only
       zero_counts alter_nth repeat map nth app].
  rewrite geb_zero_threshold by exact Hm.
  rewrite geb_max_threshold by lia.
  reflexivity.
Qed.

(** C3, as the code has it.  When all [n >= 1] input points are the same
    finite point, [np.digitize] puts the coordinate past the last of the
    eleven equal edges (index 11), and the index 10 is clamped to 9: all
    points are counted in cell (9, 9).  The largest count is [n] and the
    only hotspot is that cell, reported at the point itself. *)
Theorem identical_points_in_last_cell (a b : Q) (n : nat)
    (driver_ids : list Z) :
  (0 < n)%nat ->
  exists r,
    analyze_congestion_patterns (repeat (Fin a, Fin b) n) driver_ids = Ok r /\
    congestion_grid r = counts (last_cell_only (Z.of_nat n)) /\
    Np.max (concat (congestion_grid r)) = Ok (Float.of_nat n) /\
    hotspots r = [ {| latitude := Fin (Qred a);
                      longitude := Fin (Qred b);
                      congestion_level := Float.of_nat n |} ].
Proof.
  intro Hn. destruct n as [|k]; [lia|].
  set (n := S k). set (pts := repeat (Fin a, Fin b) n).
  assert (Hlat : map fst pts = Fin a :: repeat (Fin a) k)
    by (unfold pts, n; cbn [repeat map fst]; rewrite map_repeat; reflexivity).
  assert (Hlon : map snd pts = Fin b :: repeat (Fin b) k)
    by (unfold pts, n; cbn [repeat map snd]; rewrite map_repeat; reflexivity).
  assert (Hmax : Np.max (concat (counts (last_cell_only (Z.of_nat n))))
                 = Ok (Float.of_nat n)).
  { rewrite max_counts by (apply last_cell_only_ok; lia).
    rewrite zmax_last_cell_only by lia. reflexivity. }
  eexists. split; [|split; [|split]].
  - unfold analyze_congestion_patterns. rewrite Hlat, Hlon.
    cbn [Np.min Np.max].
    rewrite !fold_minimum_repeat, !fold_maximum_repeat. cbn [rbind].
    change (zeros grid_size grid_size) with (counts (last_cell_only 0)).
    pose proof (count_points_identical a b n 0 (Z.le_refl 0)) as Hrun.
    fold pts in Hrun. rewrite Z.add_0_l in Hrun.
    rewrite Hrun. cbn [rbind]. rewrite Hmax. cbn [rbind]. reflexivity.
  - reflexivity.
  - cbn [congestion_grid]. exact Hmax.
  - cbn [hotspots]. unfold Float.of_nat.
    rewrite find_hotspots_last_cell by lia.
    rewrite !bin_mid_degenerate. reflexivity.
Qed.

(** The scenario of the claim: three points at (40.0, -74.0). *)
Lemma identical_points_in_last_cell_witness :
  (0 < 3)%nat /\
  exists r,
    analyze_congestion_patterns (repeat (Fin 40, Fin (-74)) 3) [] = Ok r /\
    congestion_grid r = counts (last_cell_only (Z.of_nat 3)) /\
    Np.max (concat (congestion_grid r)) = Ok (Float.of_nat 3) /\
    hotspots r = [ {| latitude := Fin (Qred 40);
                      longitude := Fin (Qred (-74));
                      congestion_level := Float.of_nat 3 |} ].
Proof.
  split; [lia|].
  apply (identical_points_in_last_cell 40 (-74) 3 []). lia.
Defined.

(** C3, as stated, fails: of the three points at (40.0, -74.0) none is
    counted in cell (0, 0); cell (9, 9) holds all three.  The threshold
    3 * 0.7 is 2.1 and the hotspot list is the one the claim gives. *)
Lemma three_identical_points_not_in_first_cell :
  exists r,
    analyze_congestion_patterns (repeat (Fin 40, Fin (-74)) 3) [] = Ok r /\
    cell (congestion_grid r) 0 0 = Fin 0 /\
    cell (congestion_grid r) 0 0 <> Fin 3 /\
    cell (congestion_grid r) 9 9 = Fin 3 /\
    Float.mul (Fin 3) (lit 0.7) = Fin 2.1 /\
    hotspots r = [ {| latitude := Fin 40; longitude := Fin (-74);
                      congestion_level := Fin 3 |} ].
Proof.
  eexists. split; [vm_compute; reflexivity|].
  repeat split; try reflexivity. discriminate.
Qed.

(** ** The route generator: timestamps *)

Section ForEach.
Context {A B C : Type}.

Lemma for_each_proj (proj : B -> C) (h : A -> C) (xs : list A)
    (body : A -> M B) :
  (forall x s, In x xs -> exists b s', body x s = Ok (b, s') /\ proj b = h x) ->
  forall s, exists bs s',
    for_each xs body s = Ok (bs, s') /\ map proj bs = map h xs.
Proof.
  induction xs as [|x r IH]; intros Hbody s.
  - exists [], s. split; reflexivity.
  - destruct (Hbody x s (or_introl eq_refl)) as (b & s1 & Eb & Hb).
    destruct (IH (fun y t Hy => Hbody y t (or_intror Hy)) s1)
      as (bs & s2 & Ebs & Hbs).
    exists (b :: bs), s2. split.
    + cbn [for_each]. unfold bind. rewrite Eb, Ebs. reflexivity.
    + simpl. rewrite Hb, Hbs. reflexivity.
Qed.
End ForEach.


Lemma simulate_driver_route_timestamps (rnd : nat -> float)
    (driver_id : Z) (start_time : Timestamp) (s : nat) :
  exists route s',
    simulate_driver_route rnd driver_id start_time s = Ok (route, s') /\
    map snd route =
      map (Z.add (replace_hour_minute start_time 7 0)) day_offsets.
Proof.
  unfold simulate_driver_route.
  set (ms := replace_hour_minute start_time 7 0).
  unfold bind at 1 2 3 4. unfold uniform at 1 2 3 4.
  set (home_lat := Float.add (lit 40.7128) _).
  set (home_lon := Float.add (lit (-74.0060)) _).
  set (work_lat := Float.add (lit 40.7589) _).
  set (work_lon := Float.add (lit (-73.9851)) _).
  unfold bind at 1.
  match goal with
  | |- context [for_each (range 20) ?body (S (S (S (S s))))] =>
      destruct (for_each_proj snd
        (fun i => ms + commute_offset (timedelta 0 2 0) 0.3 0.7 1.5 20 i)
        (range 20) body) with (s := S (S (S (S s))))
        as (morning & s1 & Em & Hm)
  end.
  { intros i t Hi. unfold bind, lift, truediv, uniform, ret.
    change (20 - 1 =? 0) with false. cbv iota.
    eexists. eexists. split; [reflexivity|]. reflexivity. }
  rewrite Em. unfold bind at 1.
  match goal with
  | |- context [for_each (range 8) ?body s1] =>
      destruct (for_each_proj (map snd)
        (fun hour => map (fun minute =>
           ms + (timedelta 0 2 0 + timedelta 0 hour minute))
           (range_step 0 60 15))
        (range 8) body) with (s := s1)
        as (workday & s2 & Ew & Hw)
  end.
  { intros hour t Hh.
    match goal with
    | |- context [for_each (range_step 0 60 15) ?body t] =>
        destruct (for_each_proj snd
          (fun minute => ms + (timedelta 0 2 0 + timedelta 0 hour minute))
          (range_step 0 60 15) body) with (s := t)
          as (pts & t' & Ep & Hp)
    end.
    { intros minute u Hmin. unfold bind, uniform, ret.
      eexists. eexists. split; [reflexivity|]. cbn [snd]. lia. }
    exists pts, t'. split; assumption. }
  rewrite Ew. unfold bind at 1.
  match goal with
  | |- context [for_each (range 20) ?body s2] =>
      destruct (for_each_proj snd
        (fun i => ms + (timedelta 0 2 0 + timedelta 0 8 0
                        + commute_offset (timedelta 0 2 0) 0.2 0.8 1.3 20 i))
        (range 20) body) with (s := s2)
        as (evening & s3 & Ee & He)
  end.
  { intros i t Hi. unfold bind, lift, truediv, uniform, ret.
    change (20 - 1 =? 0) with false. cbv iota.
    eexists. eexists. split; [reflexivity|]. cbn [snd].
    unfold commute_offset. change (20 - 1) with 19.
    destruct (Float.Qltb 0.2 _ && Float.Qltb _ 0.8); lia. }
  rewrite Ee. unfold ret.
  exists (morning ++ concat workday ++ evening), s3.
  split; [reflexivity|].
  rewrite !map_app, Hm, He, concat_map, Hw.
  unfold day_offsets. rewrite !map_app, !map_map.
  reflexivity.
Qed.

Lemma length_day_offsets : length day_offsets = 72%nat.
Proof. reflexivity. Qed.

Lemma nth_shifted_offsets (ms : Timestamp) (k : nat) :
  (k < 72)%nat ->
  nth k (map (Z.add ms) day_offsets) 0 = ms + nth k day_offsets 0.
Proof.
  intro Hk. rewrite (nth_indep _ 0 (ms + 0)).
  - apply (map_nth (Z.add ms)).
  - rewrite length_map, length_day_offsets. exact Hk.
Qed.

Lemma window_steps_longer_morning : window_steps_longer 0 0.3 0.7 = true.
Proof. vm_compute. reflexivity. Qed.

Lemma window_steps_longer_evening : window_steps_longer 52 0.2 0.8 = true.
Proof. vm_compute. reflexivity. Qed.

Lemma window_steps_longer_spec (base : nat) (lo hi : Q) (i j : nat) :
  window_steps_longer base lo hi = true ->
  (i < 19)%nat -> (j < 19)%nat ->
  in_window lo hi 20 (Z.of_nat i) = true ->
  in_window lo hi 20 (Z.of_nat i + 1) = true ->
  in_window lo hi 20 (Z.of_nat j) = false ->
  in_window lo hi 20 (Z.of_nat j + 1) = false ->
  offset_delta base j < offset_delta base i.
Proof.
  intros H Hi Hj Hi0 Hi1 Hj0 Hj1. unfold window_steps_longer in H.
  rewrite forallb_forall in H.
  specialize (H i). rewrite forallb_forall in H.
  assert (Hin : forall k, (k < 19)%nat -> In k (seq 0 19)).
  { intros k Hk. apply in_seq. lia. }
  specialize (H (Hin i Hi) j (Hin j Hj)).
  rewrite Hi0, Hi1, Hj0, Hj1 in H. simpl in H.
  apply Z.ltb_lt. exact H.
Qed.

(** ** Claims about the route generator *)

(** C2 (the code departs from it).  The claim is that the timestamps of a
    route never decrease.  In the code the stretched offset of the last
    in-window sample exceeds the plain offset of the sample after it: for
    every random source, driver and day, sample 13 of the morning commute
    is stamped 7389473684209 ns after the morning start and sample 14 only
    5305263157894 ns after it, and likewise samples 67 and 68 in the
    evening commute. *)
Theorem route_timestamps_step_back (rnd : nat -> float) (driver_id : Z)
    (start_time : Timestamp) (s : nat) :
  exists route s',
    simulate_driver_route rnd driver_id start_time s = Ok (route, s') /\
    let ts := fun k => nth k (map snd route) 0 in
    let morning_start := replace_hour_minute start_time 7 0 in
    ts 13%nat = morning_start + 7389473684209 /\
    ts 14%nat = morning_start + 5305263157894 /\
    ts 14%nat < ts 13%nat /\
    ts 68%nat < ts 67%nat.
Proof.
  destruct (simulate_driver_route_timestamps rnd driver_id start_time s)
    as (route & s' & Hrun & Hts).
  exists route, s'. split; [exact Hrun|]. cbv zeta. rewrite Hts.
  rewrite !nth_shifted_offsets by lia.
  change (nth 13 day_offsets 0) with 7389473684209.
  change (nth 14 day_offsets 0) with 5305263157894.
  change (nth 67 day_offsets 0) with 43389473684209.
  change (nth 68 day_offsets 0) with 42063157894736.
  lia.
Qed.

(** C9.  In each commute loop, a step between two consecutive samples that
    both pass the congestion test takes longer than a step between two
    consecutive samples that both fail it.  Morning samples are entries
    0..19 of the route, evening samples entries 52..71. *)
Theorem congestion_steps_take_longer (rnd : nat -> float) (driver_id : Z)
    (start_time : Timestamp) (s : nat) (i j : nat) :
  (i < 19)%nat -> (j < 19)%nat ->
  exists route s',
    simulate_driver_route rnd driver_id start_time s = Ok (route, s') /\
    let ts := fun k => nth k (map snd route) 0 in
    (in_window 0.3 0.7 20 (Z.of_nat i) = true ->
     in_window 0.3 0.7 20 (Z.of_nat i + 1) = true ->
     in_window 0.3 0.7 20 (Z.of_nat j) = false ->
     in_window 0.3 0.7 20 (Z.of_nat j + 1) = false ->
     ts (j + 1)%nat - ts j < ts (i + 1)%nat - ts i) /\
    (in_window 0.2 0.8 20 (Z.of_nat i) = true ->
     in_window 0.2 0.8 20 (Z.of_nat i + 1) = true ->
     in_window 0.2 0.8 20 (Z.of_nat j) = false ->
     in_window 0.2 0.8 20 (Z.of_nat j + 1) = false ->
     ts (52 + j + 1)%nat - ts (52 + j)%nat
       < ts (52 + i + 1)%nat - ts (52 + i)%nat).
Proof.
  intros Hi Hj.
  destruct (simulate_driver_route_timestamps rnd driver_id start_time s)
    as (route & s' & Hrun & Hts).
  exists route, s'. split; [exact Hrun|]. cbv zeta. rewrite Hts.
  rewrite !nth_shifted_offsets by lia. split; intros Hi0 Hi1 Hj0 Hj1.
  - pose proof (window_steps_longer_spec 0 0.3 0.7 i j
      window_steps_longer_morning Hi Hj Hi0 Hi1 Hj0 Hj1) as H.
    unfold offset_delta in H. simpl Nat.add in H. lia.
  - pose proof (window_steps_longer_spec 52 0.2 0.8 i j
      window_steps_longer_evening Hi Hj Hi0 Hi1 Hj0 Hj1) as H.
    unfold offset_delta in H. lia.
Qed.

Lemma congestion_steps_take_longer_witness :
  (6 < 19)%nat /\ (0 < 19)%nat /\
  exists route s',
    simulate_driver_route rnd_half 0 timestamp_2024_01_01 0%nat = Ok (route, s') /\
    let ts := fun k => nth k (map snd route) 0 in
    (in_window 0.3 0.7 20 (Z.of_nat 6) = true ->
     in_window 0.3 0.7 20 (Z.of_nat 6 + 1) = true ->
     in_window 0.3 0.7 20 (Z.of_nat 0) = false ->
     in_window 0.3 0.7 20 (Z.of_nat 0 + 1) = false ->
     ts (0 + 1)%nat - ts 0%nat < ts (6 + 1)%nat - ts 6%nat) /\
    (in_window 0.2 0.8 20 (Z.of_nat 6) = true ->
     in_window 0.2 0.8 20 (Z.of_nat 6 + 1) = true ->
     in_window 0.2 0.8 20 (Z.of_nat 0) = false ->
     in_window 0.2 0.8 20 (Z.of_nat 0 + 1) = false ->
     ts (52 + 0 + 1)%nat - ts (52 + 0)%nat
       < ts (52 + 6 + 1)%nat - ts (52 + 6)%nat).
Proof.
  split; [lia|]. split; [lia|].
  apply (congestion_steps_take_longer rnd_half 0 timestamp_2024_01_01 0%nat 6 0);
    lia.
Defined.

(** The two point counts are the constants 20, so the divisor of the
    interpolation parameter is 19: every call returns a route, of
    20 + 32 + 20 = 72 samples. *)
Lemma simulate_driver_route_returns (rnd : nat -> float) (driver_id : Z)
    (start_time : Timestamp) (s : nat) :
  exists route s',
    simulate_driver_route rnd driver_id start_time s = Ok (route, s') /\
    length route = 72%nat.
Proof.
  destruct (simulate_driver_route_timestamps rnd driver_id start_time s)
    as (route & s' & Hrun & Hts).
  exists route, s'. split; [exact Hrun|].
  rewrite <- (length_map snd route), Hts, length_map. reflexivity.
Qed.

(** *** [generate_traffic_data] on empty ranges *)

Lemma range_nonpos (n : Z) : n <= 0 -> range n = [].
Proof.
  intro H. unfold range. replace (Z.to_nat n) with 0%nat by lia. reflexivity.
Qed.

Lemma for_each_no_rows {A : Type} (xs : list A) (body : A -> M (list (list Row)))
    (s : nat) :
  (forall x t, body x t = Ok ([], t)) ->
  exists per_driver,
    for_each xs body s = Ok (per_driver, s) /\
    concat (concat per_driver) = [].
Proof.
  intro Hbody. induction xs as [|x r IH].
  - exists []. split; reflexivity.
  - destruct IH as (pd & E & Hc). exists ([] :: pd). split.
    + cbn [for_each]. unfold bind. rewrite Hbody, E. reflexivity.
    + simpl. exact Hc.
Qed.

(** C6, as the code has it.  There is no check of the arguments.  With a
    driver count or a day count of zero or less the loops produce no row,
    the frame built from the empty list has no column, and the report's
    lookup of its [driver_id] column raises [KeyError]: no frame is
    returned. *)
Theorem generate_traffic_data_nonpositive (rnd : nat -> float)
    (num_drivers simulation_days : Z) (s : nat) :
  num_drivers <= 0 \/ simulation_days <= 0 ->
  generate_traffic_data rnd num_drivers simulation_days s
    = Raise (KeyError "driver_id").
Proof.
  intro H. unfold generate_traffic_data.
  match goal with
  | |- bind (for_each _ ?body) _ _ = _ =>
      assert (Hrows : exists per_driver,
                for_each (range num_drivers) body s = Ok (per_driver, s) /\
                concat (concat per_driver) = [])
  end.
  { destruct (Z_le_gt_dec num_drivers 0) as [Hd|Hd].
    - rewrite (range_nonpos _ Hd). exists []. split; reflexivity.
    - assert (Hs : simulation_days <= 0) by lia.
      apply for_each_no_rows. intros x t.
      rewrite (range_nonpos _ Hs). reflexivity. }
  destruct Hrows as (per_driver & E & Hc).
  unfold bind at 1. rewrite E, Hc. reflexivity.
Qed.

Lemma generate_traffic_data_nonpositive_witness :
  (0 <= 0 \/ 1 <= 0) /\
  generate_traffic_data rnd_half 0 1 0%nat = Raise (KeyError "driver_id").
Proof.
  split; [left; lia|].
  apply (generate_traffic_data_nonpositive rnd_half 0 1 0%nat). left; lia.
Defined.

(** C6, as stated, fails: the exception for a driver count of 0 is the
    [KeyError] of a column lookup, not an input-validation error. *)
Lemma zero_drivers_not_validated :
  ~ (exists msg,
       generate_traffic_data rnd_half 0 1 0%nat = Raise (ValueError msg)).
Proof.
  intros (msg & H). vm_compute in H. discriminate.
Qed.

(** ** Rounding

    The model computes the hotspot threshold 3 * 0.7 as the rational 2.1.
    In binary64 the product rounds to the value just below the float 2.1;
    it stays below the count 3, so the hotspot test gives the same answer. *)

Lemma binary64_threshold_of_three :
  let threshold := PrimFloat.mul (binary64 3 1) (binary64 7 10) in
  PrimFloat.ltb threshold (binary64 21 10) = true /\
  PrimFloat.leb threshold (binary64 3 1) = true /\
  PrimFloat.ltb (binary64 2 1) threshold = true.
Proof. vm_compute. repeat split. Qed.

(** * Further properties *)

(** ** Binary search *)

Lemma less_equal_trans (a b c : float) :
  Np.less_equal a b = true -> Np.less_equal b c = true ->
  Np.less_equal a c = true.
Proof.
  unfold Np.less_equal, Np.less.
  destruct a as [qa| | |], b as [qb| | |], c as [qc| | |];
    cbn [Float.ltb Float.isnan negb andb orb]; try congruence;
    rewrite ?orb_false_r, ?negb_true_iff, ?Qltb_ge; intros; try reflexivity.
  eapply Qle_trans; eassumption.
Qed.

(** The loop of [Np.binsearch] on a test that holds on a prefix of the
    array and fails after it. *)
Lemma binsearch_partition (cmp : float -> float -> bool) (arr : list float)
    (key : float) (fuel min_idx max_idx : nat) :
  (forall i j, (i <= j)%nat -> (j < length arr)%nat ->
     cmp (nth j arr NaN) key = true -> cmp (nth i arr NaN) key = true) ->
  (min_idx <= max_idx)%nat -> (max_idx <= length arr)%nat ->
  (max_idx - min_idx <= fuel)%nat ->
  (forall k, (k < min_idx)%nat -> cmp (nth k arr NaN) key = true) ->
  (forall k, (max_idx <= k)%nat -> (k < length arr)%nat ->
     cmp (nth k arr NaN) key = false) ->
  let r := Np.binsearch fuel cmp arr key min_idx max_idx in
  (r <= length arr)%nat /\
  (forall k, (k < r)%nat -> cmp (nth k arr NaN) key = true) /\
  (forall k, (r <= k)%nat -> (k < length arr)%nat ->
     cmp (nth k arr NaN) key = false).
Proof.
  intros Hdown. revert min_idx max_idx.
  induction fuel as [|fuel IH]; intros min_idx max_idx Hle Hlen Hfuel Hlo Hhi;
    cbn [Np.binsearch].
  - assert (min_idx = max_idx) by lia. subst. cbv zeta. repeat split; auto; lia.
  - destruct (Nat.ltb_spec min_idx max_idx) as [Hlt|Hge].
    + assert (Hhalf : ((max_idx - min_idx) / 2 < max_idx - min_idx)%nat)
        by (apply Nat.div_lt; lia).
      set (mid := (min_idx + (max_idx - min_idx) / 2)%nat) in *.
      destruct (cmp (nth mid arr NaN) key) eqn:E.
      * apply IH; try lia; [|exact Hhi].
        intros k Hk. apply (Hdown k mid); [lia | lia | exact E].
      * apply IH; try lia; [exact Hlo|].
        intros k Hk Hk'.
        destruct (cmp (nth k arr NaN) key) eqn:E'; [|reflexivity].
        rewrite (Hdown mid k) in E; [discriminate | lia | lia | exact E'].
    + assert (min_idx = max_idx) by lia. subst. cbv zeta.
      repeat split; auto; lia.
Qed.

(** On a sorted array the search splits the array at the returned index. *)
Lemma searchsorted_right_split (arr : list float) (key : float) (r : nat) :
  np_sorted arr -> r = Np.searchsorted_right arr key ->
  (r <= length arr)%nat /\
  (forall k, (k < r)%nat -> Np.less_equal (nth k arr NaN) key = true) /\
  (forall k, (r <= k)%nat -> (k < length arr)%nat ->
     Np.less_equal (nth k arr NaN) key = false).
Proof.
  intros Hsorted ->. unfold Np.searchsorted_right.
  apply binsearch_partition; try lia.
  intros i j Hij Hj E.
  apply (less_equal_trans _ (nth j arr NaN)); [apply Hsorted; assumption | exact E].
Qed.

(** ** The bin edges *)

Lemma length_set_last (y : list float) (stop : float) :
  length (Np.set_last y stop) = length y.
Proof.
  induction y as [|x [|x' r] IH]; cbn [Np.set_last length] in *; auto.
Qed.

Lemma nth_set_last (y : list float) (stop : float) (k : nat) :
  (k < length y)%nat ->
  nth k (Np.set_last y stop) NaN =
    if (k =? length y - 1)%nat then stop else nth k y NaN.
Proof.
  revert k. induction y as [|x [|x' r] IH]; intros k Hk.
  - simpl in Hk. lia.
  - simpl in Hk. assert (k = 0)%nat by lia. subst. reflexivity.
  - destruct k as [|k].
    + reflexivity.
    + change (Np.set_last (x :: x' :: r) stop)
        with (x :: Np.set_last (x' :: r) stop).
      cbn [nth]. rewrite IH by (simpl in *; lia).
      cbn [length]. replace (S (S (length r)) - 1)%nat with (S (length r)) by lia.
      replace (S (length r) - 1)%nat with (length r) by lia.
      reflexivity.
Qed.

Lemma nth_map_seq {A : Type} (f : nat -> A) (n k : nat) (d : A) :
  (k < n)%nat -> nth k (map f (seq 0 n)) d = f k.
Proof.
  intro Hk. rewrite (nth_indep _ d (f 0%nat)) by (rewrite length_map, length_seq; exact Hk).
  rewrite map_nth, seq_nth by exact Hk. reflexivity.
Qed.

Lemma length_linspace (start stop : float) (num : nat) :
  length (Np.linspace start stop num) = num.
Proof.
  unfold Np.linspace.
  assert (Hy : forall f : float -> float,
            length (map f (Np.arange num)) = num).
  { intro f. unfold Np.arange. rewrite !length_map, length_seq. reflexivity. }
  destruct (1 <? num)%nat; rewrite ?length_set_last, length_map;
    destruct (0 <? num - 1)%nat; try apply Hy;
    destruct (Float.eqb _ _); apply Hy.
Qed.

Lemma linspace_last (start stop : float) (num : nat) :
  (2 <= num)%nat -> nth (num - 1) (Np.linspace start stop num) NaN = stop.
Proof.
  intro Hnum. unfold Np.linspace.
  destruct (Nat.ltb_spec 1 num) as [_|]; [|lia].
  match goal with
  | |- nth _ (Np.set_last ?y _) _ = _ =>
      assert (Hlen : length y = num)
  end.
  { rewrite length_map. unfold Np.arange.
    destruct (0 <? num - 1)%nat; [destruct (Float.eqb _ _)|];
      rewrite !length_map, length_seq; reflexivity. }
  rewrite nth_set_last by lia. rewrite Hlen, Nat.eqb_refl. reflexivity.
Qed.

Lemma inject_Z_nonzero (n : nat) :
  (0 < n)%nat -> Qeq_bool (inject_Z (Z.of_nat n)) 0 = false.
Proof.
  intro Hn. destruct (Qeq_bool (inject_Z (Z.of_nat n)) 0) eqn:E; [|reflexivity].
  apply Qeq_bool_eq in E. unfold Qeq, inject_Z in E. simpl in E. lia.
Qed.

(** [np.linspace] for two samples or more, sample by sample. *)
Lemma linspace_samples (start stop : float) (num : nat) :
  (2 <= num)%nat ->
  Np.linspace start stop num =
    Np.set_last (map (linspace_sample start stop num) (seq 0 num)) stop.
Proof.
  intro Hnum. unfold Np.linspace, linspace_sample.
  destruct (Nat.ltb_spec 1 num) as [_|]; [|lia].
  destruct (Nat.ltb_spec 0 (num - 1)) as [_|]; [|lia].
  cbv zeta. f_equal. unfold Np.arange.
  destruct (Float.eqb _ _); rewrite !map_map; reflexivity.
Qed.

(** The rational value of edge [k] of [num] edges from [a] to [b]. *)
Lemma linspace_inner (a b : Q) (num k : nat) :
  (2 <= num)%nat -> (k < num - 1)%nat ->
  exists q,
    nth k (Np.linspace (Fin a) (Fin b) num) NaN = Fin q /\
    (q == a + inject_Z (Z.of_nat k) * (b - a) / inject_Z (Z.of_nat (num - 1)))%Q.
Proof.
  intros Hnum Hk. rewrite linspace_samples by exact Hnum.
  rewrite nth_set_last by (rewrite length_map, length_seq; lia).
  rewrite length_map, length_seq.
  destruct (Nat.eqb_spec k (num - 1)) as [|_]; [lia|].
  rewrite nth_map_seq by lia. unfold linspace_sample.
  set (d := inject_Z (Z.of_nat (num - 1))).
  assert (Hd : Qeq_bool d 0 = false) by (apply inject_Z_nonzero; lia).
  assert (Hd' : ~ (d == 0)%Q) by (apply Qeq_bool_neq; exact Hd).
  unfold Float.of_nat, Float.of_Z. fold d.
  cbn [Float.sub Float.div Float.fin]. rewrite Hd.
  unfold Float.fin. cbn [Float.eqb].
  destruct (Qeq_bool (Qred (Qred (b - a) / d)) 0) eqn:E;
    cbn [Float.div Float.mul Float.add]; rewrite ?Hd; unfold Float.fin;
    eexists; (split; [reflexivity|]).
  - apply Qeq_bool_eq in E. rewrite !Qred_correct in E.
    assert (Hba : (b - a == 0)%Q).
    { assert (H : ((b - a) / d * d == 0 * d)%Q) by (rewrite E; reflexivity).
      rewrite Qmult_0_l in H. rewrite <- H. field. exact Hd'. }
    rewrite !Qred_correct. rewrite Hba. field. exact Hd'.
  - rewrite !Qred_correct. field. exact Hd'.
Qed.

Lemma linspace_value (a b : Q) (num k : nat) :
  (2 <= num)%nat -> (k < num)%nat ->
  exists q,
    nth k (Np.linspace (Fin a) (Fin b) num) NaN = Fin q /\
    (q == a + inject_Z (Z.of_nat k) * (b - a) / inject_Z (Z.of_nat (num - 1)))%Q.
Proof.
  intros Hnum Hk. destruct (Nat.eq_dec k (num - 1)) as [->|Hne].
  - exists b. split; [apply linspace_last; exact Hnum|].
    assert (Hd' : ~ (inject_Z (Z.of_nat (num - 1)) == 0)%Q)
      by (apply Qeq_bool_neq, inject_Z_nonzero; lia).
    field. exact Hd'.
  - apply linspace_inner; lia.
Qed.

(** ** Binning: each coordinate goes to the bin that holds it *)

Lemma linspace_monotonicity_le (a b : Q) :
  (a <= b)%Q -> Np.monotonicity (Np.linspace (Fin a) (Fin b) 11) = 1.
Proof.
  intro Hab. unfold Np.linspace.
  cbn [Nat.sub Nat.ltb Nat.leb Float.sub].
  change (Float.div (Float.fin (b - a)) (Float.of_nat 10))
    with (Fin (Qred (Qred (b - a) / 10))).
  cbn [Float.eqb].
  destruct (Qeq_bool (Qred (Qred (b - a) / 10)) 0) eqn:E.
  - apply Qeq_bool_eq in E. rewrite !Qred_correct in E.
    unfold Qdiv in E. change (/ 10)%Q with (1 # 10)%Q in E.
    linspace_list. as_map_Fin.
    apply monotonicity_nondecreasing. chain_goals.
  - linspace_list. as_map_Fin.
    apply monotonicity_nondecreasing. chain_goals.
Qed.

Lemma less_equal_fin (p q : Q) :
  Np.less_equal (Fin p) (Fin q) = true <-> (p <= q)%Q.
Proof.
  unfold Np.less_equal, Np.less. cbn [Float.ltb Float.isnan andb].
  rewrite orb_false_r, negb_true_iff. apply Qltb_ge.
Qed.

Lemma less_equal_fin_false (p q : Q) :
  Np.less_equal (Fin p) (Fin q) = false <-> (q < p)%Q.
Proof.
  unfold Np.less_equal, Np.less. cbn [Float.ltb Float.isnan andb].
  rewrite orb_false_r, negb_false_iff. apply Qltb_lt.
Qed.

(** Edge [k] of the eleven bin edges, as a rational. *)
Lemma bin_edge (a b : Q) (k : nat) :
  (k < 11)%nat ->
  exists q, nth k (Np.linspace (Fin a) (Fin b) 11) NaN = Fin q /\
            (q == edge a b (Z.of_nat k))%Q.
Proof.
  intro Hk.
  destruct (linspace_value a b 11 k ltac:(lia) Hk) as (q & E & Hq).
  exists q. split; [exact E|].
  rewrite Hq. unfold edge. reflexivity.
Qed.

Lemma edge_le (a b : Q) (i j : Z) :
  (a <= b)%Q -> i <= j -> (edge a b i <= edge a b j)%Q.
Proof.
  intros Hab Hij. rewrite Zle_Qle in Hij. unfold edge, Qdiv.
  change (/ 10)%Q with (1 # 10)%Q. nra.
Qed.

Lemma bin_edges_sorted (a b : Q) :
  (a <= b)%Q -> np_sorted (Np.linspace (Fin a) (Fin b) 11).
Proof.
  intros Hab i j Hij Hj. rewrite length_linspace in Hj.
  destruct (bin_edge a b i ltac:(lia)) as (qi & -> & Hi).
  destruct (bin_edge a b j Hj) as (qj & -> & Hjq).
  apply less_equal_fin. rewrite Hi, Hjq. apply edge_le; [exact Hab | lia].
Qed.

Lemma leb_fin (p q : Q) :
  Float.leb (Fin p) (Fin q) = Np.less_equal (Fin p) (Fin q).
Proof.
  unfold Np.less_equal, Np.less. cbn [Float.leb Float.ltb Float.isnan andb].
  unfold Float.Qltb. destruct (Qle_bool p q); reflexivity.
Qed.

Lemma ltb_fin (p q : Q) :
  Float.ltb (Fin p) (Fin q) = negb (Float.leb (Fin q) (Fin p)).
Proof. reflexivity. Qed.

(** [np.digitize] on the eleven edges, for a coordinate between the
    bounds: the index it gives, less one and clamped to 0..9, is the one
    bin that holds the coordinate. *)
Lemma digitize_bin (a b x : Q) :
  (a <= b)%Q -> (a <= x)%Q -> (x <= b)%Q ->
  exists d,
    Np.digitize (Fin x) (Np.linspace (Fin a) (Fin b) (grid_size + 1)) = Ok d /\
    forall i, (i < grid_size)%nat ->
      in_edges_bin (Np.linspace (Fin a) (Fin b) (grid_size + 1)) i (Fin x)
      = (i =? Z.to_nat (Z.max 0 (Z.min (d - 1) (Z.of_nat grid_size - 1))))%nat.
Proof.
  intros Hab Hax Hxb. change (grid_size + 1)%nat with 11%nat.
  change (Z.of_nat grid_size - 1) with 9.
  unfold Np.digitize. rewrite (linspace_monotonicity_le a b Hab).
  cbn [Z.eqb Pos.eqb]. eexists. split; [reflexivity|].
  destruct (searchsorted_right_split _ (Fin x) _ (bin_edges_sorted a b Hab) eq_refl)
    as (Hr & Hbelow & Habove).
  set (bins := Np.linspace (Fin a) (Fin b) 11) in *.
  set (r := Np.searchsorted_right bins (Fin x)) in *.
  unfold bins in Hr, Habove. rewrite length_linspace in Hr, Habove. fold bins in Habove.
  assert (Hr1 : (1 <= r)%nat).
  { destruct r as [|r']; [|lia]. exfalso.
    specialize (Habove 0%nat ltac:(lia) ltac:(lia)).
    destruct (bin_edge a b 0 ltac:(lia)) as (q0 & E0 & Hq0). fold bins in E0.
    rewrite E0 in Habove. apply less_equal_fin_false in Habove.
    rewrite Hq0 in Habove. unfold edge, Qdiv in Habove.
    change (/ 10)%Q with (1 # 10)%Q in Habove.
    change (inject_Z (Z.of_nat 0)) with 0%Q in Habove. lra. }
  assert (Hle : forall k, (k < 11)%nat ->
            Float.leb (nth k bins NaN) (Fin x) = (k <? r)%nat).
  { intros k Hk. destruct (bin_edge a b k Hk) as (q & E & _). fold bins in E.
    rewrite E, leb_fin, <- E.
    destruct (Nat.ltb_spec k r); [apply Hbelow | apply Habove]; lia. }
  assert (Hlt : forall k, (k < 11)%nat ->
            Float.ltb (Fin x) (nth k bins NaN) = negb (k <? r)%nat).
  { intros k Hk. destruct (bin_edge a b k Hk) as (q & E & _). fold bins in E.
    rewrite E, ltb_fin, <- E, (Hle k Hk). reflexivity. }
  intros i Hi. unfold grid_size in Hi. unfold in_edges_bin.
  change (grid_size - 1)%nat with 9%nat.
  rewrite (Hle i), (Hlt (i + 1)%nat) by lia.
  destruct (Nat.ltb_spec i r), (Nat.eqb_spec i 9), (Nat.ltb_spec (i + 1) r),
    (Nat.eqb_spec i (Z.to_nat (Z.max 0 (Z.min (Z.of_nat r - 1) 9))));
    cbn [andb orb negb]; try reflexivity; exfalso; lia.
Qed.

(** X2.  For bounds [a <= b] and a coordinate [x] between them, all in
    degrees, [np.digitize] on the eleven bin edges succeeds, and the index
    it gives, less one and clamped to 0..9, names the one bin that holds
    [x]: [x] is at or above the lower edge of that bin and below its upper
    edge (the last bin takes the upper bound too), and no other bin holds
    [x].  The edges are those [np.linspace] computes. *)
Theorem digitize_finds_bin (a b x : Q) :
  (-180 <= a)%Q -> (a <= b)%Q -> (b <= 180)%Q -> (a <= x)%Q -> (x <= b)%Q ->
  let bins := Np.linspace (Fin a) (Fin b) (grid_size + 1) in
  exists d,
    Np.digitize (Fin x) bins = Ok d /\
    let k := Z.to_nat (Z.max 0 (Z.min (d - 1) (Z.of_nat grid_size - 1))) in
    (k < grid_size)%nat /\
    in_edges_bin bins k (Fin x) = true /\
    forall i, (i < grid_size)%nat -> i <> k -> in_edges_bin bins i (Fin x) = false.
Proof.
  intros _ Hab _ Hax Hxb. cbv zeta.
  destruct (digitize_bin a b x Hab Hax Hxb) as (d & Ed & Hbin).
  exists d. split; [exact Ed|].
  assert (Hk : (Z.to_nat (Z.max 0 (Z.min (d - 1) (Z.of_nat grid_size - 1)))
                < grid_size)%nat) by (apply (clamp_index (d - 1))).
  split; [exact Hk|]. split.
  - rewrite (Hbin _ Hk). apply Nat.eqb_refl.
  - intros i Hi Hne. rewrite (Hbin i Hi). apply Nat.eqb_neq. exact Hne.
Qed.

(** A point inside bin 2 of the box 40..41. *)
Lemma digitize_finds_bin_witness :
  ((-180 <= 40)%Q /\ (40 <= 41)%Q /\ (41 <= 180)%Q /\
   (40 <= 40.25)%Q /\ (40.25 <= 41)%Q) /\
  let bins := Np.linspace (Fin 40) (Fin 41) (grid_size + 1) in
  exists d,
    Np.digitize (Fin 40.25) bins = Ok d /\
    let k := Z.to_nat (Z.max 0 (Z.min (d - 1) (Z.of_nat grid_size - 1))) in
    (k < grid_size)%nat /\
    in_edges_bin bins k (Fin 40.25) = true /\
    forall i, (i < grid_size)%nat -> i <> k -> in_edges_bin bins i (Fin 40.25) = false.
Proof.
  assert (H1 : (-180 <= 40)%Q) by (vm_compute; discriminate).
  assert (H2 : (40 <= 41)%Q) by (vm_compute; discriminate).
  assert (H3 : (41 <= 180)%Q) by (vm_compute; discriminate).
  assert (H4 : (40 <= 40.25)%Q) by (vm_compute; discriminate).
  assert (H5 : (40.25 <= 41)%Q) by (vm_compute; discriminate).
  split; [repeat split; assumption|].
  apply (digitize_finds_bin 40 41 40.25 H1 H2 H3 H4 H5).
Defined.

(** ** The grid is the histogram of the points *)

Lemma nth_alter_nth_same {A : Type} (f : A -> A) (n : nat) (l : list A) (d : A) :
  (n < length l)%nat -> nth n (alter_nth f n l) d = f (nth n l d).
Proof.
  revert n; induction l as [|x r IH]; intros [|n] H; simpl in *;
    try lia; auto. apply IH; lia.
Qed.

Lemma nth_alter_nth_other {A : Type} (f : A -> A) (n m : nat) (l : list A) (d : A) :
  n <> m -> nth m (alter_nth f n l) d = nth m l d.
Proof.
  revert n m; induction l as [|x r IH]; intros [|n] [|m] H; simpl;
    try congruence; auto.
Qed.

Lemma cell_after_incr (zg : list (list Z)) (i j i' j' : nat) :
  counts_ok zg -> (i' < grid_size)%nat -> (j' < grid_size)%nat ->
  nth j (nth i (alter_nth (alter_nth Z.succ j') i' zg) []) 0 =
  nth j (nth i zg []) 0 + (if (i =? i')%nat && (j =? j')%nat then 1 else 0).
Proof.
  intros Hok Hi' Hj'.
  destruct (Nat.eqb_spec i i') as [->|Hi].
  - rewrite nth_alter_nth_same by (rewrite (ok_rows _ Hok); exact Hi').
    destruct (Nat.eqb_spec j j') as [->|Hj]; cbn [andb].
    + rewrite nth_alter_nth_same
        by (rewrite (nth_length_row _ _ Hok Hi'); exact Hj').
      lia.
    + rewrite nth_alter_nth_other by congruence. lia.
  - rewrite nth_alter_nth_other by congruence. cbn [andb]. lia.
Qed.

Lemma count_points_histogram (la lb oa ob : Q) (qpts : list (Q * Q))
    (zg : list (list Z)) :
  (la <= lb)%Q -> (oa <= ob)%Q ->
  Forall (fun p => (la <= fst p <= lb)%Q /\ (oa <= snd p <= ob)%Q) qpts ->
  counts_ok zg ->
  let lat_bins := Np.linspace (Fin la) (Fin lb) (grid_size + 1) in
  let lon_bins := Np.linspace (Fin oa) (Fin ob) (grid_size + 1) in
  exists zg',
    count_points lat_bins lon_bins (counts zg) (finite_coords qpts)
      = Ok (counts zg') /\
    counts_ok zg' /\
    forall i j, (i < grid_size)%nat -> (j < grid_size)%nat ->
      nth j (nth i zg' []) 0 =
      nth j (nth i zg []) 0
      + Z.of_nat (length (points_in_cell lat_bins lon_bins i j
                            (finite_coords qpts))).
Proof.
  intros Hla Hoa Hin. cbv zeta. revert zg.
  induction Hin as [|p rest [[Hx1 Hx2] [Hy1 Hy2]] Hrest IH]; intros zg Hok.
  - exists zg. split; [reflexivity|]. split; [exact Hok|].
    intros i j _ _. simpl. lia.
  - destruct (digitize_bin la lb (fst p) Hla Hx1 Hx2) as (dx & Edx & Hbx).
    destruct (digitize_bin oa ob (snd p) Hoa Hy1 Hy2) as (dy & Edy & Hby).
    set (kx := Z.max 0 (Z.min (dx - 1) (Z.of_nat grid_size - 1))) in *.
    set (ky := Z.max 0 (Z.min (dy - 1) (Z.of_nat grid_size - 1))) in *.
    assert (Hkx : (Z.to_nat kx < grid_size)%nat)
      by (apply (clamp_index (dx - 1))).
    assert (Hky : (Z.to_nat ky < grid_size)%nat)
      by (apply (clamp_index (dy - 1))).
    destruct (IH (alter_nth (alter_nth Z.succ (Z.to_nat ky)) (Z.to_nat kx) zg))
      as (zg' & Hrun & Hok' & Hcells).
    { apply counts_ok_alter; [intros; lia | exact Hok]. }
    exists zg'. split; [|split; [exact Hok'|]].
    + cbn [finite_coords map count_points]. unfold count_point. cbn [fst snd].
      rewrite Edx, Edy. cbn [rbind].
      rewrite (grid_incr_counts zg (dx - 1) (dy - 1) Hok). cbn [rbind].
      exact Hrun.
    + intros i j Hi Hj. rewrite (Hcells i j Hi Hj).
      rewrite (cell_after_incr zg i j _ _ Hok Hkx Hky).
      unfold points_in_cell.
      change (finite_coords (p :: rest))
        with ((Fin (fst p), Fin (snd p)) :: finite_coords rest).
      cbn [filter fst snd]. rewrite (Hbx i Hi), (Hby j Hj).
      destruct ((i =? Z.to_nat kx)%nat && (j =? Z.to_nat ky)%nat);
        cbn [length]; lia.
Qed.

Lemma fold_minimum_fin (r : list Q) (x : Q) :
  exists m, fold_left Np.minimum (map Fin r) (Fin x) = Fin m /\
            In m (x :: r) /\ forall y, In y (x :: r) -> (m <= y)%Q.
Proof.
  revert x. induction r as [|z r IH]; intro x.
  - exists x. split; [reflexivity|]. split; [left; reflexivity|].
    intros y [<-|[]]. apply Qle_refl.
  - cbn [map fold_left]. unfold Np.minimum at 2.
    cbn [Float.ltb Float.isnan]. rewrite orb_false_r.
    destruct (Float.Qltb x z) eqn:E.
    + apply Qltb_lt in E. destruct (IH x) as (m & Em & Hin & Hle).
      exists m. split; [exact Em|]. split.
      * destruct Hin as [<-|Hin]; [left; reflexivity | right; right; exact Hin].
      * intros y [<-|[<-|Hy]].
        -- apply Hle. left; reflexivity.
        -- apply Qle_trans with x; [apply Hle; left; reflexivity | lra].
        -- apply Hle. right; exact Hy.
    + apply Qltb_ge in E. destruct (IH z) as (m & Em & Hin & Hle).
      exists m. split; [exact Em|]. split.
      * right. exact Hin.
      * intros y [<-|Hy].
        -- apply Qle_trans with z; [apply Hle; left; reflexivity | exact E].
        -- apply Hle. exact Hy.
Qed.

Lemma fold_maximum_fin (r : list Q) (x : Q) :
  exists m, fold_left Np.maximum (map Fin r) (Fin x) = Fin m /\
            In m (x :: r) /\ forall y, In y (x :: r) -> (y <= m)%Q.
Proof.
  revert x. induction r as [|z r IH]; intro x.
  - exists x. split; [reflexivity|]. split; [left; reflexivity|].
    intros y [<-|[]]. apply Qle_refl.
  - cbn [map fold_left]. unfold Np.maximum at 2.
    cbn [Float.ltb Float.isnan]. rewrite orb_false_r.
    destruct (Float.Qltb z x) eqn:E.
    + apply Qltb_lt in E. destruct (IH x) as (m & Em & Hin & Hle).
      exists m. split; [exact Em|]. split.
      * destruct Hin as [<-|Hin]; [left; reflexivity | right; right; exact Hin].
      * intros y [<-|[<-|Hy]].
        -- apply Hle. left; reflexivity.
        -- apply Qle_trans with x; [lra | apply Hle; left; reflexivity].
        -- apply Hle. right; exact Hy.
    + apply Qltb_ge in E. destruct (IH z) as (m & Em & Hin & Hle).
      exists m. split; [exact Em|]. split.
      * right. exact Hin.
      * intros y [<-|Hy].
        -- apply Qle_trans with z; [exact E | apply Hle; left; reflexivity].
        -- apply Hle. exact Hy.
Qed.

Lemma map_fst_finite (qpts : list (Q * Q)) :
  map fst (finite_coords qpts) = map Fin (map fst qpts).
Proof. unfold finite_coords. rewrite !map_map. reflexivity. Qed.

Lemma map_snd_finite (qpts : list (Q * Q)) :
  map snd (finite_coords qpts) = map Fin (map snd qpts).
Proof. unfold finite_coords. rewrite !map_map. reflexivity. Qed.

Lemma zero_counts_cell (i j : nat) : nth j (nth i zero_counts []) 0 = 0.
Proof.
  unfold zero_counts.
  destruct (Nat.lt_ge_cases i grid_size) as [Hi|Hi].
  - rewrite (nth_indep _ [] (repeat 0 grid_size)) by (rewrite repeat_length; exact Hi).
    rewrite nth_repeat. apply nth_repeat.
  - rewrite (nth_overflow _ []) by (rewrite repeat_length; exact Hi).
    destruct j; reflexivity.
Qed.

(** What the aggregator returns on a non-empty input of finite points. *)
Lemma analyze_finite (qpts : list (Q * Q)) (driver_ids : list Z) :
  qpts <> [] ->
  exists la lb oa ob zg,
    (In la (map fst qpts) /\ forall x, In x (map fst qpts) -> (la <= x)%Q) /\
    (In lb (map fst qpts) /\ forall x, In x (map fst qpts) -> (x <= lb)%Q) /\
    (In oa (map snd qpts) /\ forall y, In y (map snd qpts) -> (oa <= y)%Q) /\
    (In ob (map snd qpts) /\ forall y, In y (map snd qpts) -> (y <= ob)%Q) /\
    counts_ok zg /\
    (forall i j, (i < grid_size)%nat -> (j < grid_size)%nat ->
       nth j (nth i zg []) 0 =
       Z.of_nat (length (points_in_cell
                           (Np.linspace (Fin la) (Fin lb) (grid_size + 1))
                           (Np.linspace (Fin oa) (Fin ob) (grid_size + 1))
                           i j (finite_coords qpts)))) /\
    analyze_congestion_patterns (finite_coords qpts) driver_ids =
      Ok {| total_gps_points := length (finite_coords qpts);
            average_location := (Np.mean (map fst (finite_coords qpts)),
                                 Np.mean (map snd (finite_coords qpts)));
            congestion_grid := counts zg;
            hotspots :=
              find_hotspots (counts zg)
                (Np.linspace (Fin la) (Fin lb) (grid_size + 1))
                (Np.linspace (Fin oa) (Fin ob) (grid_size + 1))
                (Float.mul (Float.of_Z (zmax (concat zg))) (lit 0.7));
            grid_bounds := {| lat_min := Fin la; lat_max := Fin lb;
                              lon_min := Fin oa; lon_max := Fin ob |} |}.
Proof.
  intro Hne. destruct qpts as [|p rest]; [congruence|].
  set (qpts := p :: rest).
  destruct (fold_minimum_fin (map fst rest) (fst p)) as (la & Ela & Hla).
  destruct (fold_maximum_fin (map fst rest) (fst p)) as (lb & Elb & Hlb).
  destruct (fold_minimum_fin (map snd rest) (snd p)) as (oa & Eoa & Hoa).
  destruct (fold_maximum_fin (map snd rest) (snd p)) as (ob & Eob & Hob).
  change (fst p :: map fst rest) with (map fst qpts) in Hla, Hlb.
  change (snd p :: map snd rest) with (map snd qpts) in Hoa, Hob.
  assert (Hbox : Forall (fun q => (la <= fst q <= lb)%Q /\ (oa <= snd q <= ob)%Q)
                        qpts).
  { apply Forall_forall. intros q Hq.
    pose proof (in_map fst _ _ Hq) as Hx. pose proof (in_map snd _ _ Hq) as Hy.
    repeat split;
      [apply Hla | apply Hlb | apply Hoa | apply Hob]; assumption. }
  assert (Hlalb : (la <= lb)%Q).
  { apply Qle_trans with (fst p);
      [apply Hla | apply Hlb]; left; reflexivity. }
  assert (Hoaob : (oa <= ob)%Q).
  { apply Qle_trans with (snd p);
      [apply Hoa | apply Hob]; left; reflexivity. }
  destruct (count_points_histogram la lb oa ob qpts zero_counts
              Hlalb Hoaob Hbox zero_counts_ok) as (zg & Hrun & Hok & Hcells).
  exists la, lb, oa, ob, zg.
  split; [exact Hla|]. split; [exact Hlb|]. split; [exact Hoa|].
  split; [exact Hob|]. split; [exact Hok|]. split.
  { intros i j Hi Hj. rewrite (Hcells i j Hi Hj), zero_counts_cell. lia. }
  unfold analyze_congestion_patterns.
  rewrite map_fst_finite, map_snd_finite.
  change (map fst qpts) with (fst p :: map fst rest).
  change (map snd qpts) with (snd p :: map snd rest).
  cbn [map Np.min Np.max]. rewrite Ela, Elb, Eoa, Eob. cbn [rbind].
  change (zeros grid_size grid_size) with (counts zero_counts).
  rewrite Hrun. cbn [rbind]. rewrite (max_counts zg Hok). cbn [rbind].
  reflexivity.
Qed.

(** X3.  On a non-empty input of finite points the reported grid bounds are
    the smallest and largest latitude and longitude of the input: each is
    the coordinate of some point, and every point lies inside the box. *)
Theorem grid_bounds_are_extremes (qpts : list (Q * Q)) (driver_ids : list Z) :
  qpts <> [] ->
  exists r la lb oa ob,
    analyze_congestion_patterns (finite_coords qpts) driver_ids = Ok r /\
    grid_bounds r = {| lat_min := Fin la; lat_max := Fin lb;
                       lon_min := Fin oa; lon_max := Fin ob |} /\
    In la (map fst qpts) /\ In lb (map fst qpts) /\
    In oa (map snd qpts) /\ In ob (map snd qpts) /\
    forall p, In p qpts ->
      (la <= fst p <= lb)%Q /\ (oa <= snd p <= ob)%Q.
Proof.
  intro Hne.
  destruct (analyze_finite qpts driver_ids Hne)
    as (la & lb & oa & ob & zg & Hla & Hlb & Hoa & Hob & _ & _ & Hrun).
  eexists. exists la, lb, oa, ob. split; [exact Hrun|].
  split; [reflexivity|].
  split; [apply Hla|]. split; [apply Hlb|].
  split; [apply Hoa|]. split; [apply Hob|].
  intros p Hp.
  pose proof (in_map fst _ _ Hp) as Hx. pose proof (in_map snd _ _ Hp) as Hy.
  repeat split; [apply Hla | apply Hlb | apply Hoa | apply Hob]; assumption.
Qed.

Lemma grid_bounds_are_extremes_witness :
  sample_points <> [] /\
  exists r la lb oa ob,
    analyze_congestion_patterns (finite_coords sample_points) [0; 1; 2; 3] = Ok r /\
    grid_bounds r = {| lat_min := Fin la; lat_max := Fin lb;
                       lon_min := Fin oa; lon_max := Fin ob |} /\
    In la (map fst sample_points) /\ In lb (map fst sample_points) /\
    In oa (map snd sample_points) /\ In ob (map snd sample_points) /\
    forall p, In p sample_points ->
      (la <= fst p <= lb)%Q /\ (oa <= snd p <= ob)%Q.
Proof.
  split; [discriminate|].
  apply (grid_bounds_are_extremes sample_points [0; 1; 2; 3]). discriminate.
Defined.

(** X4.  On a non-empty input of finite points in degrees the congestion
    grid is the two-dimensional histogram of the points over the bins of
    the computed edges: cell [(i, j)] holds the number of points whose
    latitude is at or above latitude edge [i] and below edge [i + 1], and
    whose longitude is at or above longitude edge [j] and below edge
    [j + 1]; the last bin of each axis takes the upper bound too. *)
Theorem grid_is_histogram (qpts : list (Q * Q)) (driver_ids : list Z) :
  qpts <> [] -> Forall in_degrees qpts ->
  exists r,
    analyze_congestion_patterns (finite_coords qpts) driver_ids = Ok r /\
    let b := grid_bounds r in
    let lat_bins := Np.linspace (lat_min b) (lat_max b) (grid_size + 1) in
    let lon_bins := Np.linspace (lon_min b) (lon_max b) (grid_size + 1) in
    forall i j, (i < grid_size)%nat -> (j < grid_size)%nat ->
      cell (congestion_grid r) i j =
      Float.of_nat (length (points_in_cell lat_bins lon_bins i j
                              (finite_coords qpts))).
Proof.
  intros Hne _.
  destruct (analyze_finite qpts driver_ids Hne)
    as (la & lb & oa & ob & zg & _ & _ & _ & _ & Hok & Hcells & Hrun).
  eexists. split; [exact Hrun|].
  cbn [grid_bounds lat_min lat_max lon_min lon_max congestion_grid].
  intros i j Hi Hj.
  rewrite (cell_counts zg i j Hok Hi Hj), (Hcells i j Hi Hj). reflexivity.
Qed.

Lemma grid_is_histogram_witness :
  (sample_points <> [] /\ Forall in_degrees sample_points) /\
  exists r,
    analyze_congestion_patterns (finite_coords sample_points) [0; 1; 2; 3] = Ok r /\
    let b := grid_bounds r in
    let lat_bins := Np.linspace (lat_min b) (lat_max b) (grid_size + 1) in
    let lon_bins := Np.linspace (lon_min b) (lon_max b) (grid_size + 1) in
    forall i j, (i < grid_size)%nat -> (j < grid_size)%nat ->
      cell (congestion_grid r) i j =
      Float.of_nat (length (points_in_cell lat_bins lon_bins i j
                              (finite_coords sample_points))).
Proof.
  assert (H : Forall in_degrees sample_points).
  { repeat constructor; vm_compute; discriminate. }
  split; [split; [discriminate | exact H]|].
  apply (grid_is_histogram sample_points [0; 1; 2; 3]); [discriminate | exact H].
Defined.

(** ** Sums and means of finite values *)

Lemma fold_add_fin (l : list Q) (a : Q) :
  exists s, fold_left Float.add (map Fin l) (Fin a) = Fin s /\
            (s == a + qsum l)%Q.
Proof.
  revert a. induction l as [|x r IH]; intro a; cbn [map fold_left qsum fold_right].
  - exists a. split; [reflexivity | lra].
  - cbn [Float.add]. unfold Float.fin.
    destruct (IH (Qred (a + x))) as (s & Es & Hs).
    exists s. split; [exact Es|]. rewrite Hs, Qred_correct.
    unfold qsum. lra.
Qed.

Lemma qsum_bounds (l : list Q) (lo hi : Q) :
  (forall x, In x l -> (lo <= x <= hi)%Q) ->
  (inject_Z (Z.of_nat (length l)) * lo <= qsum l
   <= inject_Z (Z.of_nat (length l)) * hi)%Q.
Proof.
  induction l as [|x r IH]; intro H.
  - simpl. change (inject_Z 0) with 0%Q. lra.
  - cbn [length qsum fold_right]. rewrite Nat2Z.inj_succ.
    unfold Z.succ. rewrite inject_Z_plus. change (inject_Z 1) with 1%Q.
    destruct (H x (or_introl eq_refl)) as [H1 H2].
    destruct (IH (fun y Hy => H y (or_intror Hy))) as [H3 H4].
    unfold qsum in *. split; lra.
Qed.

Lemma mean_fin (l : list Q) :
  l <> [] ->
  exists q, Np.mean (map Fin l) = Fin q /\
            (q == qsum l / inject_Z (Z.of_nat (length l)))%Q.
Proof.
  intro Hne. unfold Np.mean.
  destruct (fold_add_fin l 0) as (s & Es & Hs). rewrite Es, length_map.
  unfold Float.of_nat, Float.of_Z. cbn [Float.div].
  rewrite inject_Z_nonzero by (destruct l; [congruence | simpl; lia]).
  unfold Float.fin. eexists. split; [reflexivity|].
  rewrite Qred_correct, Hs. unfold Qdiv. lra.
Qed.

Lemma mean_between (l : list Q) (lo hi q : Q) :
  l <> [] ->
  (forall x, In x l -> (lo <= x <= hi)%Q) ->
  (q == qsum l / inject_Z (Z.of_nat (length l)))%Q ->
  (lo <= q <= hi)%Q.
Proof.
  intros Hne Hl Hq.
  set (n := inject_Z (Z.of_nat (length l))) in *.
  assert (Hn : (0 < n)%Q).
  { unfold n. change 0%Q with (inject_Z 0). rewrite <- Zlt_Qlt.
    destruct l; [congruence | simpl; lia]. }
  assert (Hqn : (q * n == qsum l)%Q) by (rewrite Hq; field; lra).
  destruct (qsum_bounds l lo hi Hl) as [H1 H2]. fold n in H1, H2.
  split; apply Qnot_lt_le; intro Hc; nra.
Qed.

(** ** Hotspot levels *)

Lemma zsum_le_max (l : list Z) (m : Z) :
  (forall c, In c l -> c <= m) -> zsum l <= m * Z.of_nat (length l).
Proof.
  induction l as [|x r IH]; intro H; cbn [zsum fold_right length].
  - lia.
  - pose proof (H x (or_introl eq_refl)).
    pose proof (IH (fun c Hc => H c (or_intror Hc))). unfold zsum in *. lia.
Qed.

Lemma zsum_ge_element (l : list Z) (c : Z) :
  Forall (fun x => 0 <= x) l -> In c l -> c <= zsum l.
Proof.
  induction 1 as [|x r Hx Hr IH]; intros Hin; [destruct Hin|].
  cbn [zsum fold_right]. destruct Hin as [->|Hin].
  - assert (0 <= zsum r) by (clear IH; induction Hr; simpl; lia).
    unfold zsum in *. lia.
  - specialize (IH Hin). unfold zsum in *. lia.
Qed.

Lemma concat_nonneg (zg : list (list Z)) :
  counts_ok zg -> Forall (fun x => 0 <= x) (concat zg).
Proof.
  intro Hok. apply Forall_concat. exact (ok_nonneg _ Hok).
Qed.

(** X6.  On a non-empty input every reported hotspot holds at least one
    point and at most all of them: its level is an integer between 1 and
    the number of input points, so an empty cell is never a hotspot. *)
Theorem hotspot_levels_in_range (all_coords : list (float * float))
    (driver_ids : list Z) :
  all_coords <> [] ->
  exists r,
    analyze_congestion_patterns all_coords driver_ids = Ok r /\
    forall h, In h (hotspots r) ->
      exists c, congestion_level h = Float.of_Z c /\
                1 <= c <= Z.of_nat (length all_coords).
Proof.
  intro Hne.
  destruct (analyze_nonempty all_coords driver_ids Hne)
    as (b & zg & _ & _ & _ & _ & Hok & Hsum & Hrun).
  eexists. split; [exact Hrun|]. cbn [hotspots]. intros h Hh.
  apply find_hotspots_in in Hh. destruct Hh as (i & j & Hi & Hj & E & ->).
  rewrite (cell_counts zg i j Hok Hi Hj) in *. cbn [congestion_level].
  set (c := nth j (nth i zg []) 0) in *.
  exists c. split; [reflexivity|].
  apply geb_threshold in E.
  assert (Hin : In c (concat zg)).
  { apply nth_in_concat.
    - rewrite (ok_rows _ Hok). exact Hi.
    - rewrite (nth_length_row _ _ Hok Hi). exact Hj. }
  pose proof (zsum_ge_element _ c (concat_nonneg zg Hok) Hin) as Hcs.
  assert (Hmax : 1 <= zmax (concat zg)).
  { pose proof (zsum_le_max (concat zg) (zmax (concat zg))
                  (fun x Hx => zmax_ge _ x Hx)) as H.
    assert (0 < Z.of_nat (length all_coords))
      by (destruct all_coords; [congruence | simpl; lia]).
    assert (Hnn : 0 <= Z.of_nat (length (concat zg))) by lia.
    nia. }
  split; [|lia].
  rewrite Zle_Qle in Hmax. change (inject_Z 1) with 1%Q in Hmax.
  assert (Hc : (0 < inject_Z c)%Q) by lra.
  change 0%Q with (inject_Z 0) in Hc. rewrite <- Zlt_Qlt in Hc. lia.
Qed.

Lemma hotspot_levels_in_range_witness :
  sample_coords <> [] /\
  exists r,
    analyze_congestion_patterns sample_coords [0; 1; 2; 3] = Ok r /\
    forall h, In h (hotspots r) ->
      exists c, congestion_level h = Float.of_Z c /\
                1 <= c <= Z.of_nat (length sample_coords).
Proof.
  split; [discriminate|].
  apply (hotspot_levels_in_range sample_coords [0; 1; 2; 3]). discriminate.
Defined.

(** ** Hotspot coordinates *)

Lemma bin_mid_value (a b : Q) (i : nat) :
  (i < grid_size)%nat ->
  exists m,
    bin_mid (Np.linspace (Fin a) (Fin b) (grid_size + 1)) i = Fin m /\
    (m == cell_centre a b i)%Q.
Proof.
  intro Hi. unfold grid_size in Hi. change (grid_size + 1)%nat with 11%nat.
  destruct (bin_edge a b i ltac:(lia)) as (q1 & E1 & H1).
  destruct (bin_edge a b (i + 1) ltac:(lia)) as (q2 & E2 & H2).
  unfold bin_mid. rewrite E1, E2. cbn [Float.add Float.div].
  change (Qeq_bool 2 0) with false. cbv iota. unfold Float.fin.
  eexists. split; [reflexivity|].
  rewrite !Qred_correct, H1, H2. unfold edge, cell_centre.
  rewrite Nat2Z.inj_add, inject_Z_plus. change (inject_Z (Z.of_nat 1)) with 1%Q.
  field.
Qed.

Lemma cell_centre_between (a b : Q) (i : nat) :
  (a <= b)%Q -> (i < grid_size)%nat -> (a <= cell_centre a b i <= b)%Q.
Proof.
  intros Hab Hi. unfold grid_size in Hi. unfold cell_centre, Qdiv.
  change (/ 20)%Q with (1 # 20)%Q.
  assert (H0 : (0 <= inject_Z (Z.of_nat i))%Q)
    by (change 0%Q with (inject_Z 0); rewrite <- Zle_Qle; lia).
  assert (H9 : (inject_Z (Z.of_nat i) <= 9)%Q)
    by (change 9%Q with (inject_Z 9); rewrite <- Zle_Qle; lia).
  revert H0 H9. generalize (inject_Z (Z.of_nat i)). intros t H0 H9.
  split; nra.
Qed.

(** X7.  On a non-empty input of finite points in degrees every reported
    hotspot lies inside the reported grid bounds: its latitude is a finite
    value between [lat_min] and [lat_max], and its longitude a finite value
    between [lon_min] and [lon_max]. *)
Theorem hotspots_inside_bounds (qpts : list (Q * Q)) (driver_ids : list Z) :
  qpts <> [] -> Forall in_degrees qpts ->
  exists r la lb oa ob,
    analyze_congestion_patterns (finite_coords qpts) driver_ids = Ok r /\
    grid_bounds r = {| lat_min := Fin la; lat_max := Fin lb;
                       lon_min := Fin oa; lon_max := Fin ob |} /\
    forall h, In h (hotspots r) ->
      exists x y,
        latitude h = Fin x /\ longitude h = Fin y /\
        (la <= x <= lb)%Q /\ (oa <= y <= ob)%Q.
Proof.
  intros Hne _.
  destruct (analyze_finite qpts driver_ids Hne)
    as (la & lb & oa & ob & zg & Hla & Hlb & Hoa & Hob & Hok & _ & Hrun).
  assert (Hlat : (la <= lb)%Q) by (apply Hlb, Hla).
  assert (Hlon : (oa <= ob)%Q) by (apply Hob, Hoa).
  eexists. exists la, lb, oa, ob. split; [exact Hrun|].
  split; [reflexivity|]. cbn [hotspots]. intros h Hh.
  apply find_hotspots_in in Hh. destruct Hh as (i & j & Hi & Hj & _ & ->).
  destruct (bin_mid_value la lb i Hi) as (x & Ex & Hx).
  destruct (bin_mid_value oa ob j Hj) as (y & Ey & Hy).
  exists x, y. cbn [latitude longitude].
  split; [exact Ex|]. split; [exact Ey|].
  split; [rewrite Hx | rewrite Hy]; apply cell_centre_between; assumption.
Qed.

Lemma hotspots_inside_bounds_witness :
  (sample_points <> [] /\ Forall in_degrees sample_points) /\
  exists r la lb oa ob,
    analyze_congestion_patterns (finite_coords sample_points) [0; 1; 2; 3] = Ok r /\
    grid_bounds r = {| lat_min := Fin la; lat_max := Fin lb;
                       lon_min := Fin oa; lon_max := Fin ob |} /\
    forall h, In h (hotspots r) ->
      exists x y,
        latitude h = Fin x /\ longitude h = Fin y /\
        (la <= x <= lb)%Q /\ (oa <= y <= ob)%Q.
Proof.
  assert (H : Forall in_degrees sample_points).
  { repeat constructor; vm_compute; discriminate. }
  split; [split; [discriminate | exact H]|].
  apply (hotspots_inside_bounds sample_points [0; 1; 2; 3]);
    [discriminate | exact H].
Defined.

(** ** A NaN latitude *)

Lemma fold_minimum_nan (r : list float) : fold_left Np.minimum r NaN = NaN.
Proof. induction r; cbn [fold_left]; auto. Qed.

Lemma fold_maximum_nan (r : list float) : fold_left Np.maximum r NaN = NaN.
Proof.
  induction r as [|a r IH]; cbn [fold_left]; [reflexivity|].
  replace (Np.maximum NaN a) with NaN by (destruct a; reflexivity). exact IH.
Qed.

Lemma fold_minimum_has_nan (r : list float) (x : float) :
  In NaN (x :: r) -> fold_left Np.minimum r x = NaN.
Proof.
  revert x. induction r as [|z r IH]; intros x Hin.
  - destruct Hin as [->|[]]. reflexivity.
  - cbn [fold_left]. apply IH.
    destruct Hin as [->|[->|Hin]].
    + left. reflexivity.
    + left. unfold Np.minimum. destruct x; reflexivity.
    + right. exact Hin.
Qed.

Lemma fold_maximum_has_nan (r : list float) (x : float) :
  In NaN (x :: r) -> fold_left Np.maximum r x = NaN.
Proof.
  revert x. induction r as [|z r IH]; intros x Hin.
  - destruct Hin as [->|[]]. reflexivity.
  - cbn [fold_left]. apply IH.
    destruct Hin as [->|[->|Hin]].
    + left. destruct z; reflexivity.
    + left. unfold Np.maximum. destruct x; reflexivity.
    + right. exact Hin.
Qed.

Lemma fold_add_nan (r : list float) : fold_left Float.add r NaN = NaN.
Proof. induction r; cbn [fold_left]; auto. Qed.

Lemma fold_add_has_nan (r : list float) (x : float) :
  In NaN (x :: r) -> fold_left Float.add r x = NaN.
Proof.
  revert x. induction r as [|z r IH]; intros x Hin.
  - destruct Hin as [->|[]]. reflexivity.
  - cbn [fold_left]. apply IH.
    destruct Hin as [->|[->|Hin]].
    + left. reflexivity.
    + left. destruct x; reflexivity.
    + right. exact Hin.
Qed.

Lemma mean_has_nan (l : list float) : In NaN l -> Np.mean l = NaN.
Proof.
  intro Hin. unfold Np.mean.
  rewrite fold_add_has_nan by (right; exact Hin). reflexivity.
Qed.

(** When every probed element fails the comparison the search ends at the
    lower index. *)
Lemma binsearch_all_fail (cmp : float -> float -> bool) (arr : list float)
    (key : float) (fuel min_idx max_idx : nat) :
  (forall k, (k < max_idx)%nat -> cmp (nth k arr NaN) key = false) ->
  Np.binsearch fuel cmp arr key min_idx max_idx = min_idx.
Proof.
  intro Hcmp. revert max_idx Hcmp.
  induction fuel as [|fuel IH]; intros max_idx Hcmp; cbn [Np.binsearch].
  - reflexivity.
  - destruct (Nat.ltb_spec min_idx max_idx) as [Hlt|Hge]; [|reflexivity].
    assert (Hhalf : ((max_idx - min_idx) / 2 < max_idx - min_idx)%nat)
      by (apply Nat.div_lt; lia).
    rewrite Hcmp by lia. apply IH. intros k Hk. apply Hcmp. lia.
Qed.

(** On eleven NaN edges a NaN coordinate gets index 0 and any other
    coordinate index 11. *)
Lemma digitize_nan_bins (x : float) :
  Np.digitize x (repeat NaN 11) = Ok (if Float.isnan x then 0 else 11).
Proof.
  unfold Np.digitize.
  change (Np.monotonicity (repeat NaN 11)) with (-1).
  cbn [Z.eqb]. change (rev (repeat NaN 11)) with (repeat NaN 11).
  unfold Np.searchsorted_right. change (length (repeat NaN 11)) with 11%nat.
  assert (Hnth : forall k, nth k (repeat NaN 11) NaN = NaN)
    by (intro k; apply nth_repeat).
  destruct (Float.isnan x) eqn:E.
  - rewrite binsearch_all_pass; [reflexivity| |lia|lia].
    intros k _. rewrite Hnth. destruct x; try discriminate. reflexivity.
  - rewrite binsearch_all_fail; [reflexivity|].
    intros k _. rewrite Hnth. destruct x; try discriminate; reflexivity.
Qed.

Lemma count_points_nan_rows (lon_bins : list float)
    (all_coords : list (float * float)) (zg : list (list Z)) :
  Np.monotonicity lon_bins <> 0 -> counts_ok zg ->
  exists zg',
    count_points (repeat NaN 11) lon_bins (counts zg) all_coords
      = Ok (counts zg') /\
    counts_ok zg' /\
    forall i j, (1 <= i <= 8)%nat ->
      nth j (nth i zg' []) 0 = nth j (nth i zg []) 0.
Proof.
  intros Hlon. revert zg.
  induction all_coords as [|p rest IH]; intros zg Hok.
  - exists zg. split; [reflexivity|]. split; [exact Hok | reflexivity].
  - destruct (digitize_total (snd p) lon_bins Hlon) as [d_lon Ed_lon].
    set (d_lat := if Float.isnan (fst p) then 0 else 11).
    set (i := Z.max 0 (Z.min (d_lat - 1) (Z.of_nat grid_size - 1))).
    set (j := Z.max 0 (Z.min (d_lon - 1) (Z.of_nat grid_size - 1))).
    assert (Hi : (Z.to_nat i < grid_size)%nat) by (apply (clamp_index (d_lat - 1))).
    assert (Hj : (Z.to_nat j < grid_size)%nat) by (apply (clamp_index (d_lon - 1))).
    assert (Hrow : Z.to_nat i = 0%nat \/ Z.to_nat i = 9%nat).
    { unfold i, d_lat. destruct (Float.isnan (fst p)); [left | right]; reflexivity. }
    destruct (IH (alter_nth (alter_nth Z.succ (Z.to_nat j)) (Z.to_nat i) zg))
      as (zg' & Hrun & Hok' & Hrows).
    { apply counts_ok_alter; [intros; lia | exact Hok]. }
    exists zg'. split; [|split; [exact Hok'|]].
    + cbn [count_points]. unfold count_point.
      rewrite digitize_nan_bins, Ed_lon. cbn [rbind]. fold d_lat.
      rewrite (grid_incr_counts zg (d_lat - 1) (d_lon - 1) Hok).
      cbn [rbind]. exact Hrun.
    + intros i' j' Hi'. rewrite (Hrows i' j' Hi').
      rewrite (cell_after_incr zg i' j' _ _ Hok Hi Hj).
      destruct (Nat.eqb_spec i' (Z.to_nat i)) as [E|_]; [lia|].
      cbn [andb]. lia.
Qed.

Lemma bin_mid_nan (i : nat) : bin_mid (repeat NaN 11) i = NaN.
Proof. unfold bin_mid. rewrite !nth_repeat. reflexivity. Qed.

(** X8.  When some input latitude is NaN the aggregator still returns a
    result, but the latitude axis is lost: both latitude bounds and the
    average latitude are NaN, every hotspot is reported at latitude NaN,
    and rows 1 to 8 of the grid stay empty. *)
Theorem nan_latitude_collapses_rows (all_coords : list (float * float))
    (driver_ids : list Z) :
  In NaN (map fst all_coords) ->
  exists r,
    analyze_congestion_patterns all_coords driver_ids = Ok r /\
    lat_min (grid_bounds r) = NaN /\ lat_max (grid_bounds r) = NaN /\
    fst (average_location r) = NaN /\
    (forall h, In h (hotspots r) -> latitude h = NaN) /\
    (forall i j, (1 <= i <= 8)%nat -> (j < grid_size)%nat ->
       cell (congestion_grid r) i j = Fin 0).
Proof.
  intro Hnan.
  destruct all_coords as [|p rest]; [destruct Hnan|].
  set (pts := p :: rest) in *.
  set (lon_bins :=
         Np.linspace (fold_left Np.minimum (map snd rest) (snd p))
                     (fold_left Np.maximum (map snd rest) (snd p))
                     (grid_size + 1)).
  destruct (count_points_nan_rows lon_bins pts zero_counts
              (linspace_monotonic _ _) zero_counts_ok)
    as (zg & Hrun & Hok & Hrows).
  eexists. split.
  - unfold analyze_congestion_patterns.
    change (map fst pts) with (fst p :: map fst rest) in *.
    change (map snd pts) with (snd p :: map snd rest).
    cbn [Np.min Np.max].
    rewrite (fold_minimum_has_nan _ _ Hnan), (fold_maximum_has_nan _ _ Hnan).
    cbn [rbind].
    change (Np.linspace NaN NaN (grid_size + 1)) with (repeat NaN 11).
    fold lon_bins.
    change (zeros grid_size grid_size) with (counts zero_counts).
    rewrite Hrun. cbn [rbind]. rewrite (max_counts zg Hok). cbn [rbind].
    reflexivity.
  - cbn [grid_bounds lat_min lat_max average_location fst hotspots
         congestion_grid].
    split; [reflexivity|]. split; [reflexivity|].
    split; [apply mean_has_nan; exact Hnan|]. split.
    + intros h Hh. apply find_hotspots_in in Hh.
      destruct Hh as (i & j & _ & _ & _ & ->). apply bin_mid_nan.
    + intros i j Hi Hj.
      rewrite (cell_counts zg i j Hok) by (unfold grid_size in *; lia).
      rewrite (Hrows i j Hi), zero_counts_cell. reflexivity.
Qed.

Lemma nan_latitude_collapses_rows_witness :
  In NaN (map fst coords_with_nan) /\
  exists r,
    analyze_congestion_patterns coords_with_nan [0; 1] = Ok r /\
    lat_min (grid_bounds r) = NaN /\ lat_max (grid_bounds r) = NaN /\
    fst (average_location r) = NaN /\
    (forall h, In h (hotspots r) -> latitude h = NaN) /\
    (forall i j, (1 <= i <= 8)%nat -> (j < grid_size)%nat ->
       cell (congestion_grid r) i j = Fin 0).
Proof.
  assert (H : In NaN (map fst coords_with_nan)) by (left; reflexivity).
  split; [exact H|].
  apply (nan_latitude_collapses_rows coords_with_nan [0; 1] H).
Defined.

(** * Further properties of the route generator *)

Section ForEachCount.
Context {A B : Type}.

(** A loop whose body always makes [c] draws. *)
Lemma for_each_count (P : A -> B -> Prop) (c : nat) (xs : list A)
    (body : A -> M B) :
  (forall x s, In x xs -> exists b, body x s = Ok (b, (c + s)%nat) /\ P x b) ->
  forall s, exists bs,
    for_each xs body s = Ok (bs, (c * length xs + s)%nat) /\ Forall2 P xs bs.
Proof.
  induction xs as [|x r IH]; intros Hbody s.
  - exists []. split; [|constructor]. cbn [for_each length]. unfold ret.
    rewrite Nat.mul_0_r. reflexivity.
  - destruct (Hbody x s (or_introl eq_refl)) as (b & Eb & Hb).
    destruct (IH (fun y t Hy => Hbody y t (or_intror Hy)) (c + s)%nat)
      as (bs & Ebs & Hbs).
    exists (b :: bs). split; [|constructor; assumption].
    cbn [for_each]. unfold bind. rewrite Eb, Ebs. unfold ret.
    do 2 f_equal. cbn [length]. lia.
Qed.
End ForEachCount.

(** [random.uniform(a, b)] with a draw in [0, 1) lies between [a] and [b]. *)
Lemma uniform_between (rnd : nat -> float) (a b : Q) (s : nat) :
  unit_draws rnd -> (a <= b)%Q ->
  exists v, uniform rnd (lit a) (lit b) s = Ok (Fin v, S s) /\
            (a <= v <= b)%Q.
Proof.
  intros Hrnd Hab. destruct (Hrnd s) as (r & Er & Hr0 & Hr1).
  unfold uniform. rewrite Er. unfold lit, Float.fin.
  cbn [Float.sub Float.mul Float.add]. unfold Float.fin.
  eexists. split; [reflexivity|]. rewrite !Qred_correct. split; nra.
Qed.

(** The arithmetic of one sample coordinate: a base value plus noise. *)
Lemma noisy_coordinate (rnd : nat -> float) (eps c : Q) (base : float) (k : nat) :
  unit_draws rnd -> (0 <= eps)%Q -> base = Fin c ->
  exists x,
    Float.add base
      (Float.add (lit (- eps)) (Float.mul (Float.sub (lit eps) (lit (- eps))) (rnd k)))
    = Fin x /\ within eps c x.
Proof.
  intros Hrnd Heps ->. destruct (Hrnd k) as (r & Er & Hr0 & Hr1).
  rewrite Er. unfold lit, Float.fin.
  cbn [Float.sub Float.mul Float.add]. unfold Float.fin.
  eexists. split; [reflexivity|]. unfold within.
  rewrite !Qred_correct. split; nra.
Qed.

Lemma noisy_literal (rnd : nat -> float) (eps c : Q) (k : nat) :
  unit_draws rnd -> (0 <= eps)%Q ->
  exists x,
    Float.add (lit c)
      (Float.add (lit (- eps)) (Float.mul (Float.sub (lit eps) (lit (- eps))) (rnd k)))
    = Fin x /\ within eps c x.
Proof.
  intros Hrnd Heps.
  destruct (noisy_coordinate rnd eps (Qred c) (lit c) k Hrnd Heps eq_refl)
    as (x & Ex & Hx).
  exists x. split; [exact Ex|]. unfold within in *.
  rewrite Qred_correct in Hx. exact Hx.
Qed.

Lemma interpolated (a b : Q) (i : Z) :
  Float.add (Fin a)
    (Float.mul (Fin (Qred (inject_Z i / inject_Z (20 - 1))))
               (Float.sub (Fin b) (Fin a)))
  = Fin (Qred (a + Qred (Qred (inject_Z i / inject_Z (20 - 1)) * Qred (b - a)))).
Proof. reflexivity. Qed.

Lemma interpolated_value (a b : Q) (i : Z) :
  (Qred (a + Qred (Qred (inject_Z i / inject_Z (20 - 1)) * Qred (b - a)))
   == along a b i)%Q.
Proof.
  unfold along. rewrite !Qred_correct. change (inject_Z (20 - 1)) with 19%Q.
  reflexivity.
Qed.

(** The three segments of a route: the draws made, and where the samples
    lie when the draws are in [0, 1). *)
Lemma simulate_driver_route_segments (rnd : nat -> float) (driver_id : Z)
    (start_time : Timestamp) (s : nat) :
  exists morning workday evening,
    simulate_driver_route rnd driver_id start_time s
      = Ok (morning ++ concat workday ++ evening, (148 + s)%nat) /\
    (unit_draws rnd ->
     exists hlat hlon wlat wlon,
       within 0.05 40.7128 hlat /\ within 0.05 (-74.0060) hlon /\
       within 0.02 40.7589 wlat /\ within 0.02 (-73.9851) wlon /\
       Forall2 (fun i p =>
                  sample_near 0.001 (along hlat wlat i) (along hlon wlon i) p)
               (range 20) morning /\
       Forall2 (fun (hour : Z) pts =>
                  Forall2 (fun (minute : Z) p => sample_near 0.005 wlat wlon p)
                          (range_step 0 60 15) pts)
               (range 8) workday /\
       Forall2 (fun i p =>
                  sample_near 0.001 (along wlat hlat i) (along wlon hlon i) p)
               (range 20) evening).
Proof.
  unfold simulate_driver_route.
  set (ms := replace_hour_minute start_time 7 0).
  unfold bind at 1 2 3 4. unfold uniform at 1 2 3 4.
  set (home_lat := Float.add (lit 40.7128) _).
  set (home_lon := Float.add (lit (-74.0060)) _).
  set (work_lat := Float.add (lit 40.7589) _).
  set (work_lon := Float.add (lit (-73.9851)) _).
  set (located := fun hlat hlon wlat wlon : Q =>
         home_lat = Fin hlat /\ home_lon = Fin hlon /\
         work_lat = Fin wlat /\ work_lon = Fin wlon).
  unfold bind at 1.
  match goal with
  | |- context [for_each (range 20) ?body (S (S (S (S s))))] =>
      destruct (for_each_count
        (fun i p => unit_draws rnd -> forall hlat hlon wlat wlon,
           located hlat hlon wlat wlon ->
           sample_near 0.001 (along hlat wlat i) (along hlon wlon i) p)
        2 (range 20) body) with (s := S (S (S (S s))))
        as (morning & Em & Hm)
  end.
  { intros i t Hi. unfold bind, lift, truediv, uniform, ret.
    change (20 - 1 =? 0) with false. cbv iota.
    eexists. split; [reflexivity|].
    intros Hrnd hlat hlon wlat wlon (E1 & E2 & E3 & E4).
    unfold sample_near. cbn [fst snd]. rewrite E1, E2, E3, E4.
    rewrite !interpolated.
    match goal with
    | |- exists x y, Float.add (Fin ?c1) _ = Fin x /\
                     Float.add (Fin ?c2) _ = Fin y /\ _ =>
        destruct (noisy_coordinate rnd 0.001 c1 (Fin c1) t Hrnd
                    ltac:(lra) eq_refl) as (x & Ex & Hx);
        destruct (noisy_coordinate rnd 0.001 c2 (Fin c2) (S t) Hrnd
                    ltac:(lra) eq_refl) as (y & Ey & Hy)
    end.
    exists x, y. split; [exact Ex|]. split; [exact Ey|].
    unfold within in *. rewrite interpolated_value in Hx, Hy.
    split; assumption. }
  rewrite Em. unfold bind at 1.
  match goal with
  | |- context [for_each (range 8) ?body ?st] =>
      destruct (for_each_count
        (fun (hour : Z) pts => unit_draws rnd -> forall hlat hlon wlat wlon,
           located hlat hlon wlat wlon ->
           Forall2 (fun (minute : Z) p => sample_near 0.005 wlat wlon p)
                   (range_step 0 60 15) pts)
        8 (range 8) body) with (s := st)
        as (workday & Ew & Hw)
  end.
  { intros hour t Hh.
    match goal with
    | |- context [for_each (range_step 0 60 15) ?body t] =>
        destruct (for_each_count
          (fun (minute : Z) p => unit_draws rnd -> forall hlat hlon wlat wlon,
             located hlat hlon wlat wlon -> sample_near 0.005 wlat wlon p)
          2 (range_step 0 60 15) body) with (s := t)
          as (pts & Ep & Hp)
    end.
    { intros minute u Hmin. unfold bind, uniform, ret.
      eexists. split; [reflexivity|].
      intros Hrnd hlat hlon wlat wlon (E1 & E2 & E3 & E4).
      unfold sample_near. cbn [fst snd]. rewrite E3, E4.
      destruct (noisy_coordinate rnd 0.005 wlat (Fin wlat) u Hrnd
                  ltac:(lra) eq_refl) as (x & Ex & Hx).
      destruct (noisy_coordinate rnd 0.005 wlon (Fin wlon) (S u) Hrnd
                  ltac:(lra) eq_refl) as (y & Ey & Hy).
      exists x, y. auto. }
    exists pts. split; [exact Ep|].
    intros Hrnd hlat hlon wlat wlon Hloc.
    eapply Forall2_impl; [|exact Hp]. cbv beta. intros minute p H.
    exact (H Hrnd hlat hlon wlat wlon Hloc). }
  rewrite Ew. unfold bind at 1.
  match goal with
  | |- context [for_each (range 20) ?body ?st] =>
      destruct (for_each_count
        (fun i p => unit_draws rnd -> forall hlat hlon wlat wlon,
           located hlat hlon wlat wlon ->
           sample_near 0.001 (along wlat hlat i) (along wlon hlon i) p)
        2 (range 20) body) with (s := st)
        as (evening & Ee & He)
  end.
  { intros i t Hi. unfold bind, lift, truediv, uniform, ret.
    change (20 - 1 =? 0) with false. cbv iota.
    eexists. split; [reflexivity|].
    intros Hrnd hlat hlon wlat wlon (E1 & E2 & E3 & E4).
    unfold sample_near. cbn [fst snd]. rewrite E1, E2, E3, E4.
    rewrite !interpolated.
    match goal with
    | |- exists x y, Float.add (Fin ?c1) _ = Fin x /\
                     Float.add (Fin ?c2) _ = Fin y /\ _ =>
        destruct (noisy_coordinate rnd 0.001 c1 (Fin c1) t Hrnd
                    ltac:(lra) eq_refl) as (x & Ex & Hx);
        destruct (noisy_coordinate rnd 0.001 c2 (Fin c2) (S t) Hrnd
                    ltac:(lra) eq_refl) as (y & Ey & Hy)
    end.
    exists x, y. split; [exact Ex|]. split; [exact Ey|].
    unfold within in *. rewrite interpolated_value in Hx, Hy.
    split; assumption. }
  rewrite Ee. unfold ret.
  exists morning, workday, evening. split; [reflexivity|].
  intro Hrnd.
  destruct (noisy_literal rnd 0.05 40.7128 s Hrnd ltac:(lra))
    as (hlat & Ehlat & Hhlat).
  destruct (noisy_literal rnd 0.05 (-74.0060) (S s) Hrnd ltac:(lra))
    as (hlon & Ehlon & Hhlon).
  destruct (noisy_literal rnd 0.02 40.7589 (S (S s)) Hrnd ltac:(lra))
    as (wlat & Ewlat & Hwlat).
  destruct (noisy_literal rnd 0.02 (-73.9851) (S (S (S s))) Hrnd ltac:(lra))
    as (wlon & Ewlon & Hwlon).
  assert (Hloc : located hlat hlon wlat wlon).
  { unfold located. repeat split; assumption. }
  exists hlat, hlon, wlat, wlon.
  repeat (split; [assumption|]).
  split; [|split]; (eapply Forall2_impl; [|eassumption]); cbv beta;
    intros x p H; exact (H Hrnd hlat hlon wlat wlon Hloc).
Qed.

Lemma Forall2_nth_pair {A B : Type} (P : A -> B -> Prop) (xs : list A)
    (ys : list B) (k : nat) (dx : A) (dy : B) :
  Forall2 P xs ys -> (k < length xs)%nat -> P (nth k xs dx) (nth k ys dy).
Proof.
  intro H. revert k. induction H as [|x y xs ys Hxy H IH]; intros [|k] Hk;
    simpl in *; try lia; auto. apply IH. lia.
Qed.

Lemma Forall2_length_eq {A B : Type} (P : A -> B -> Prop) (xs : list A)
    (ys : list B) :
  Forall2 P xs ys -> length ys = length xs.
Proof. induction 1; simpl; congruence. Qed.

Lemma nth_range (n : Z) (k : nat) :
  (k < Z.to_nat n)%nat -> nth k (range n) 0 = Z.of_nat k.
Proof.
  intro Hk. unfold range. change 0 with (Z.of_nat 0). rewrite map_nth.
  rewrite seq_nth by exact Hk. reflexivity.
Qed.

(** The workday samples, flattened: 32 of them, all near the workplace. *)
Lemma workday_flat (wlat wlon : Q) (workday : list (list (float * float * Z))) :
  Forall2 (fun (hour : Z) pts =>
             Forall2 (fun (minute : Z) p => sample_near 0.005 wlat wlon p)
                     (range_step 0 60 15) pts)
          (range 8) workday ->
  length (concat workday) = 32%nat /\
  Forall (sample_near 0.005 wlat wlon) (concat workday).
Proof.
  intro H.
  assert (Hrows : Forall (fun pts => length pts = 4%nat /\
                            Forall (sample_near 0.005 wlat wlon) pts) workday).
  { clear - H. induction H as [|hour pts hs ws Hp H IH]; constructor; auto.
    split.
    - apply (Forall2_length_eq _ _ _ Hp).
    - clear - Hp. induction Hp; constructor; auto. }
  pose proof (Forall2_length_eq _ _ _ H) as Hlen.
  change (length (range 8)) with 8%nat in Hlen.
  split.
  - assert (E : (length (concat workday) = 4 * length workday)%nat).
    { clear - Hrows. induction Hrows as [|pts ws [Hp _] _ IH]; simpl.
      - reflexivity.
      - rewrite length_app, Hp, IH. lia. }
    rewrite E, Hlen. reflexivity.
  - apply Forall_concat. eapply Forall_impl; [|exact Hrows].
    intros pts [_ Hp]. exact Hp.
Qed.

Lemma along_between (a b lo hi : Q) (i : Z) :
  0 <= i <= 19 -> (lo <= a <= hi)%Q -> (lo <= b <= hi)%Q ->
  (lo <= along a b i <= hi)%Q.
Proof.
  intros [Hi0 Hi1] Ha Hb. unfold along.
  rewrite Zle_Qle in Hi0, Hi1.
  change (inject_Z 0) with 0%Q in Hi0. change (inject_Z 19) with 19%Q in Hi1.
  set (t := (inject_Z i / 19)%Q).
  assert (Ht : (0 <= t <= 1)%Q).
  { unfold t, Qdiv. change (/ 19)%Q with (1 # 19)%Q. split; lra. }
  split; nra.
Qed.

Lemma in_range_bounds (n i : Z) : In i (range n) -> 0 <= i < n.
Proof.
  unfold range. rewrite in_map_iff. intros (k & <- & Hk).
  apply in_seq in Hk. lia.
Qed.

Lemma Forall2_Forall_r {A B : Type} (P : A -> B -> Prop) (R : B -> Prop)
    (xs : list A) (ys : list B) :
  Forall2 P xs ys -> (forall x y, In x xs -> P x y -> R y) -> Forall R ys.
Proof.
  induction 1 as [|x y xs ys Hxy H IH]; intro HR; constructor.
  - apply (HR x y); [left; reflexivity | exact Hxy].
  - apply IH. intros x' y' Hx'. apply HR. right. exact Hx'.
Qed.

(** X9.  With draws in [0, 1), every sample of a route has finite
    coordinates inside the box 40.6618..40.7839 by -74.057..-73.955, and
    the call makes exactly 148 draws. *)
Theorem route_stays_in_city (rnd : nat -> float) (driver_id : Z)
    (start_time : Timestamp) (s : nat) :
  unit_draws rnd ->
  exists route,
    simulate_driver_route rnd driver_id start_time s
      = Ok (route, (148 + s)%nat) /\
    Forall in_city route.
Proof.
  intro Hrnd.
  destruct (simulate_driver_route_segments rnd driver_id start_time s)
    as (morning & workday & evening & Hrun & Hshape).
  destruct (Hshape Hrnd)
    as (hlat & hlon & wlat & wlon & Hhlat & Hhlon & Hwlat & Hwlon
        & Hm & Hw & He).
  eexists. split; [exact Hrun|].
  unfold within in Hhlat, Hhlon, Hwlat, Hwlon.
  assert (Hleg : forall a1 a2 b1 b2 i p,
            ((40.6628 <= a1 <= 40.7789)%Q /\ (40.6628 <= b1 <= 40.7789)%Q) ->
            ((-74.056 <= a2 <= -73.956)%Q /\ (-74.056 <= b2 <= -73.956)%Q) ->
            In i (range 20) ->
            sample_near 0.001 (along a1 b1 i) (along a2 b2 i) p -> in_city p).
  { intros a1 a2 b1 b2 i p [Ha1 Hb1] [Ha2 Hb2] Hi (x & y & Ex & Ey & Hx & Hy).
    apply in_range_bounds in Hi.
    pose proof (along_between a1 b1 _ _ i ltac:(lia) Ha1 Hb1) as H1.
    pose proof (along_between a2 b2 _ _ i ltac:(lia) Ha2 Hb2) as H2.
    exists x, y. unfold within in Hx, Hy.
    split; [exact Ex|]. split; [exact Ey|]. split; split; lra. }
  rewrite !Forall_app. split; [|split].
  - apply (Forall2_Forall_r _ _ _ _ Hm). intros i p Hi Hp.
    apply (Hleg hlat hlon wlat wlon i p); auto; split; split; lra.
  - destruct (workday_flat wlat wlon workday Hw) as [_ Hflat].
    eapply Forall_impl; [|exact Hflat].
    intros p (x & y & Ex & Ey & Hx & Hy). exists x, y.
    unfold within in Hx, Hy.
    split; [exact Ex|]. split; [exact Ey|]. split; split; lra.
  - apply (Forall2_Forall_r _ _ _ _ He). intros i p Hi Hp.
    apply (Hleg wlat wlon hlat hlon i p); auto; split; split; lra.
Qed.

Lemma route_stays_in_city_witness :
  unit_draws rnd_half /\
  exists route,
    simulate_driver_route rnd_half 0 timestamp_2024_01_01 0%nat
      = Ok (route, (148 + 0)%nat) /\
    Forall in_city route.
Proof.
  assert (H : unit_draws rnd_half).
  { intro k. exists (Qred 0.5). split; [reflexivity|].
    split; vm_compute; [discriminate | reflexivity]. }
  split; [exact H|].
  apply (route_stays_in_city rnd_half 0 timestamp_2024_01_01 0%nat H).
Defined.

(** X10.  With draws in [0, 1), a route has the shape home, workplace,
    home: for a home within 0.05 degrees of (40.7128, -74.0060) and a
    workplace within 0.02 degrees of (40.7589, -73.9851), morning sample
    [i] lies within 0.001 degrees of the point at fraction i/19 of the way
    from home to the workplace, the 32 workday samples lie within 0.005
    degrees of the workplace, and evening sample [i] lies within 0.001
    degrees of the point at fraction i/19 of the way back. *)
Theorem route_shape (rnd : nat -> float) (driver_id : Z)
    (start_time : Timestamp) (s : nat) :
  unit_draws rnd ->
  exists route hlat hlon wlat wlon,
    simulate_driver_route rnd driver_id start_time s
      = Ok (route, (148 + s)%nat) /\
    within 0.05 40.7128 hlat /\ within 0.05 (-74.0060) hlon /\
    within 0.02 40.7589 wlat /\ within 0.02 (-73.9851) wlon /\
    (forall i, (i < 20)%nat ->
       sample_near 0.001 (along hlat wlat (Z.of_nat i))
                         (along hlon wlon (Z.of_nat i))
                   (nth i route no_sample)) /\
    (forall k, (20 <= k < 52)%nat ->
       sample_near 0.005 wlat wlon (nth k route no_sample)) /\
    (forall i, (i < 20)%nat ->
       sample_near 0.001 (along wlat hlat (Z.of_nat i))
                         (along wlon hlon (Z.of_nat i))
                   (nth (52 + i) route no_sample)).
Proof.
  intro Hrnd.
  destruct (simulate_driver_route_segments rnd driver_id start_time s)
    as (morning & workday & evening & Hrun & Hshape).
  destruct (Hshape Hrnd)
    as (hlat & hlon & wlat & wlon & Hhlat & Hhlon & Hwlat & Hwlon
        & Hm & Hw & He).
  pose proof (Forall2_length_eq _ _ _ Hm) as Lm.
  pose proof (Forall2_length_eq _ _ _ He) as Le.
  change (length (range 20)) with 20%nat in Lm, Le.
  destruct (workday_flat wlat wlon workday Hw) as [Lw Hflat].
  eexists. exists hlat, hlon, wlat, wlon. split; [exact Hrun|].
  repeat (split; [assumption|]). split; [|split].
  - intros i Hi. rewrite app_nth1 by lia.
    rewrite <- (nth_range 20 i) by (simpl; lia).
    apply (Forall2_nth_pair _ _ _ i 0 no_sample Hm). simpl. lia.
  - intros k Hk. rewrite app_nth2 by lia. rewrite app_nth1 by lia.
    rewrite Forall_forall in Hflat. apply Hflat. apply nth_In. lia.
  - intros i Hi. rewrite app_nth2 by lia. rewrite app_nth2 by lia.
    replace (52 + i - length morning - length (concat workday))%nat with i by lia.
    rewrite <- (nth_range 20 i) by (simpl; lia).
    apply (Forall2_nth_pair _ _ _ i 0 no_sample He). simpl. lia.
Qed.

Lemma route_shape_witness :
  unit_draws rnd_half /\
  exists route hlat hlon wlat wlon,
    simulate_driver_route rnd_half 0 timestamp_2024_01_01 0%nat
      = Ok (route, (148 + 0)%nat) /\
    within 0.05 40.7128 hlat /\ within 0.05 (-74.0060) hlon /\
    within 0.02 40.7589 wlat /\ within 0.02 (-73.9851) wlon /\
    (forall i, (i < 20)%nat ->
       sample_near 0.001 (along hlat wlat (Z.of_nat i))
                         (along hlon wlon (Z.of_nat i))
                   (nth i route no_sample)) /\
    (forall k, (20 <= k < 52)%nat ->
       sample_near 0.005 wlat wlon (nth k route no_sample)) /\
    (forall i, (i < 20)%nat ->
       sample_near 0.001 (along wlat hlat (Z.of_nat i))
                         (along wlon hlon (Z.of_nat i))
                   (nth (52 + i) route no_sample)).
Proof.
  assert (H : unit_draws rnd_half).
  { intro k. exists (Qred 0.5). split; [reflexivity|].
    split; vm_compute; [discriminate | reflexivity]. }
  split; [exact H|].
  apply (route_shape rnd_half 0 timestamp_2024_01_01 0%nat H).
Defined.

(** ** The timestamps of a route *)

(** X11.  The timestamps of a route go down at two places only: after
    sample 13, the last in-window sample of the morning commute, and after
    sample 67, the last in-window sample of the evening commute.  At every
    other step the timestamp stays or goes up. *)
Theorem timestamps_step_back_twice (rnd : nat -> float) (driver_id : Z)
    (start_time : Timestamp) (s : nat) :
  exists route s',
    simulate_driver_route rnd driver_id start_time s = Ok (route, s') /\
    forall k, (k < 71)%nat ->
      (nth (k + 1) (map snd route) 0 < nth k (map snd route) 0
       <-> k = 13%nat \/ k = 67%nat).
Proof.
  destruct (simulate_driver_route_timestamps rnd driver_id start_time s)
    as (route & s' & Hrun & Hts).
  exists route, s'. split; [exact Hrun|]. intros k Hk. rewrite Hts.
  rewrite !nth_shifted_offsets by lia.
  assert (Hall : steps_back_only_at_window_exits = true)
    by (vm_compute; reflexivity).
  unfold steps_back_only_at_window_exits in Hall.
  rewrite forallb_forall in Hall.
  specialize (Hall k ltac:(apply in_seq; lia)).
  apply Bool.eqb_prop in Hall.
  split.
  - intro H.
    assert (E : (nth (k + 1) day_offsets 0 <? nth k day_offsets 0) = true)
      by (apply Z.ltb_lt; lia).
    rewrite E in Hall. symmetry in Hall. apply orb_true_iff in Hall.
    destruct Hall as [H1|H1]; apply Nat.eqb_eq in H1; auto.
  - intro H.
    assert (E : ((k =? 13)%nat || (k =? 67)%nat) = true).
    { destruct H as [->| ->]; reflexivity. }
    rewrite E in Hall. apply Z.ltb_lt in Hall. lia.
Qed.

(** X12.  A route starts at the morning start (07:00 of the day) and its
    last sample is stamped exactly 12 hours later, but the latest
    timestamp of the route is that of sample 67, 43389473684209 ns
    (12 h 3 min 9.47 s) after the start: every timestamp lies between the
    first one and that one. *)
Theorem route_time_span (rnd : nat -> float) (driver_id : Z)
    (start_time : Timestamp) (s : nat) :
  exists route s',
    simulate_driver_route rnd driver_id start_time s = Ok (route, s') /\
    let ts := fun k => nth k (map snd route) 0 in
    let morning_start := replace_hour_minute start_time 7 0 in
    ts 0%nat = morning_start /\
    ts 71%nat = morning_start + timedelta 0 12 0 /\
    ts 67%nat = morning_start + 43389473684209 /\
    forall k, (k < 72)%nat ->
      morning_start <= ts k <= morning_start + 43389473684209.
Proof.
  destruct (simulate_driver_route_timestamps rnd driver_id start_time s)
    as (route & s' & Hrun & Hts).
  exists route, s'. split; [exact Hrun|]. cbv zeta. rewrite Hts.
  rewrite !nth_shifted_offsets by lia.
  change (nth 0 day_offsets 0) with 0.
  change (nth 71 day_offsets 0) with (timedelta 0 12 0).
  change (nth 67 day_offsets 0) with 43389473684209.
  split; [lia|]. split; [reflexivity|]. split; [reflexivity|].
  intros k Hk. rewrite nth_shifted_offsets by exact Hk.
  assert (Hall : offsets_in_span = true) by (vm_compute; reflexivity).
  unfold offsets_in_span in Hall. rewrite forallb_forall in Hall.
  specialize (Hall (nth k day_offsets 0)
                   ltac:(apply nth_In; rewrite length_day_offsets; exact Hk)).
  apply andb_true_iff in Hall. destruct Hall as [H1 H2].
  apply Z.leb_le in H1, H2. lia.
Qed.

Lemma workday_offsets (k : nat) :
  (k < 32)%nat ->
  nth (20 + k) day_offsets 0 = timedelta 0 2 (15 * Z.of_nat k).
Proof.
  intro Hk. do 32 (destruct k as [|k]; [reflexivity|]). lia.
Qed.

(** X13.  The 32 workday samples of a route are stamped every 15 minutes,
    from 2 hours after the morning start (09:00) on. *)
Theorem workday_every_15_minutes (rnd : nat -> float) (driver_id : Z)
    (start_time : Timestamp) (s : nat) (k : nat) :
  (k < 32)%nat ->
  exists route s',
    simulate_driver_route rnd driver_id start_time s = Ok (route, s') /\
    nth (20 + k) (map snd route) 0 =
      replace_hour_minute start_time 7 0 + timedelta 0 2 (15 * Z.of_nat k).
Proof.
  intro Hk.
  destruct (simulate_driver_route_timestamps rnd driver_id start_time s)
    as (route & s' & Hrun & Hts).
  exists route, s'. split; [exact Hrun|]. rewrite Hts.
  rewrite nth_shifted_offsets by lia. rewrite workday_offsets by exact Hk.
  reflexivity.
Qed.

Lemma workday_every_15_minutes_witness :
  (5 < 32)%nat /\
  exists route s',
    simulate_driver_route rnd_half 0 timestamp_2024_01_01 0%nat
      = Ok (route, s') /\
    nth (20 + 5) (map snd route) 0 =
      replace_hour_minute timestamp_2024_01_01 7 0
      + timedelta 0 2 (15 * Z.of_nat 5).
Proof.
  split; [lia|].
  apply (workday_every_15_minutes rnd_half 0 timestamp_2024_01_01 0%nat 5). lia.
Defined.

(** X14.  The timestamps of a route depend on the day only: two calls for
    the same start time give the same timestamps, whatever the random
    sources, their states and the drivers. *)
Theorem timestamps_ignore_randomness (rnd1 rnd2 : nat -> float)
    (driver1 driver2 : Z) (start_time : Timestamp) (s1 s2 : nat) :
  exists route1 route2 s1' s2',
    simulate_driver_route rnd1 driver1 start_time s1 = Ok (route1, s1') /\
    simulate_driver_route rnd2 driver2 start_time s2 = Ok (route2, s2') /\
    map snd route1 = map snd route2.
Proof.
  destruct (simulate_driver_route_timestamps rnd1 driver1 start_time s1)
    as (route1 & s1' & Hrun1 & Hts1).
  destruct (simulate_driver_route_timestamps rnd2 driver2 start_time s2)
    as (route2 & s2' & Hrun2 & Hts2).
  exists route1, route2, s1', s2'. repeat split; try assumption.
  rewrite Hts1, Hts2. reflexivity.
Qed.

(** * Further properties of [generate_traffic_data] *)

Lemma route_draws_and_times (rnd : nat -> float) (driver : Z)
    (start_time : Timestamp) (s : nat) :
  exists route,
    simulate_driver_route rnd driver start_time s = Ok (route, (148 + s)%nat) /\
    map snd route = map (Z.add (replace_hour_minute start_time 7 0)) day_offsets.
Proof.
  destruct (simulate_driver_route_segments rnd driver start_time s)
    as (morning & workday & evening & Hrun & _).
  destruct (simulate_driver_route_timestamps rnd driver start_time s)
    as (route & s' & Hrun' & Hts).
  rewrite Hrun in Hrun'. injection Hrun' as <- _.
  eexists. split; [exact Hrun | exact Hts].
Qed.

Lemma map_const_repeat {A B : Type} (b : B) (l : list A) :
  map (fun _ => b) l = repeat b (length l).
Proof. induction l; simpl; congruence. Qed.

(** What the loops of [generate_traffic_data] collect. *)
Lemma generate_loops (rnd : nat -> float) (num_drivers simulation_days : Z)
    (s : nat) :
  exists per_driver,
    for_each (range num_drivers) (fun driver_id =>
      for_each (range simulation_days) (fun day =>
        bind (simulate_driver_route rnd driver_id
                (timestamp_2024_01_01 + timedelta day 0 0))
             (fun route_points =>
                ret (map (fun '(lat, lon, timestamp) =>
                            {| Generate.driver_id := driver_id;
                               Generate.latitude := lat;
                               Generate.longitude := lon;
                               Generate.timestamp := timestamp |})
                         route_points)))) s
    = Ok (per_driver,
          (148 * length (range simulation_days) * length (range num_drivers)
           + s)%nat) /\
    Forall2 (fun driver per_day =>
               Forall2 (day_rows driver) (range simulation_days) per_day)
            (range num_drivers) per_driver.
Proof.
  apply for_each_count. intros driver t _.
  apply for_each_count. intros day u _.
  destruct (route_draws_and_times rnd driver
              (timestamp_2024_01_01 + timedelta day 0 0) u)
    as (route & Hrun & Hts).
  unfold bind. rewrite Hrun. unfold ret. eexists. split; [reflexivity|].
  split.
  - rewrite map_map.
    rewrite (map_ext _ (fun _ => driver)) by (intros [[lat lon] ts]; reflexivity).
    rewrite map_const_repeat.
    rewrite <- (length_map snd route), Hts, length_map, length_day_offsets.
    reflexivity.
  - rewrite map_map.
    rewrite (map_ext _ snd) by (intros [[lat lon] ts]; reflexivity).
    exact Hts.
Qed.

Lemma length_range (n : Z) : length (range n) = Z.to_nat n.
Proof. unfold range. rewrite length_map, length_seq. reflexivity. Qed.

(** On a midnight start the morning start is 07:00 of that day. *)
Lemma morning_start_of_day (day : Z) :
  replace_hour_minute (timestamp_2024_01_01 + timedelta day 0 0) 7 0
  = morning_of day.
Proof.
  unfold replace_hour_minute, morning_of, timestamp_2024_01_01, timedelta.
  replace (19723 * ns_per_day + (day * ns_per_day + 0 * ns_per_hour + 0 * ns_per_minute))
    with ((19723 + day) * ns_per_day) by lia.
  rewrite Z.div_mul by (unfold ns_per_day, ns_per_hour, ns_per_minute; lia).
  replace ((19723 + day) * ns_per_day)
    with ((19723 + day) * 1440 * ns_per_minute) at 2
    by (unfold ns_per_day, ns_per_hour; lia).
  rewrite Z.mod_mul by (unfold ns_per_minute; lia).
  lia.
Qed.

Lemma day_rows_columns (driver : Z) (days : list Z) (per_day : list (list Row)) :
  Forall2 (day_rows driver) days per_day ->
  map Generate.driver_id (concat per_day) = repeat driver (72 * length days) /\
  map Generate.timestamp (concat per_day) =
    flat_map (fun day => map (Z.add (morning_of day)) day_offsets) days.
Proof.
  induction 1 as [|day rows days per_day [Hid Hts] _ [IH1 IH2]].
  - split; reflexivity.
  - cbn [concat flat_map length]. rewrite !map_app, Hid, Hts, IH1, IH2.
    rewrite morning_start_of_day. split; [|reflexivity].
    rewrite <- repeat_app. f_equal. lia.
Qed.

Lemma driver_rows_columns (m : Z) (drivers : list Z)
    (per_driver : list (list (list Row))) :
  Forall2 (fun driver per_day => Forall2 (day_rows driver) (range m) per_day)
          drivers per_driver ->
  map Generate.driver_id (concat (concat per_driver)) =
    flat_map (fun driver => repeat driver (72 * Z.to_nat m)) drivers /\
  map Generate.timestamp (concat (concat per_driver)) =
    flat_map (fun driver : Z =>
      flat_map (fun day => map (Z.add (morning_of day)) day_offsets) (range m))
      drivers.
Proof.
  induction 1 as [|driver per_day drivers per_driver Hd _ [IH1 IH2]].
  - split; reflexivity.
  - destruct (day_rows_columns driver _ _ Hd) as [H1 H2].
    rewrite length_range in H1.
    cbn [concat flat_map]. rewrite concat_app, !map_app, H1, H2, IH1, IH2.
    split; reflexivity.
Qed.

Lemma length_expected_driver_ids (n m : Z) :
  length (expected_driver_ids n m) = (72 * Z.to_nat m * Z.to_nat n)%nat.
Proof.
  unfold expected_driver_ids. rewrite <- (length_range n).
  induction (range n) as [|d r IH]; cbn [flat_map length].
  - lia.
  - rewrite length_app, repeat_length, IH. lia.
Qed.

(** The frame [generate_traffic_data] returns for positive counts. *)
Lemma generate_frame (rnd : nat -> float) (num_drivers simulation_days : Z)
    (s : nat) :
  0 < num_drivers -> 0 < simulation_days ->
  exists df,
    generate_traffic_data rnd num_drivers simulation_days s
      = Ok (df, (148 * Z.to_nat simulation_days * Z.to_nat num_drivers + s)%nat) /\
    columns df = ["driver_id"; "latitude"; "longitude"; "timestamp"]%string /\
    map Generate.driver_id (records df)
      = expected_driver_ids num_drivers simulation_days /\
    map Generate.timestamp (records df)
      = expected_timestamps num_drivers simulation_days.
Proof.
  intros Hn Hm.
  destruct (generate_loops rnd num_drivers simulation_days s)
    as (per_driver & Hrun & Hrows).
  rewrite !length_range in Hrun.
  destruct (driver_rows_columns _ _ _ Hrows) as [Hids Htss].
  fold (expected_driver_ids num_drivers simulation_days) in Hids.
  fold (expected_timestamps num_drivers simulation_days) in Htss.
  set (all_data := concat (concat per_driver)) in *.
  assert (Hlen : length all_data
                 = (72 * Z.to_nat simulation_days * Z.to_nat num_drivers)%nat).
  { rewrite <- (length_map Generate.driver_id), Hids.
    apply length_expected_driver_ids. }
  assert (Hcols : columns (make_DataFrame all_data)
                  = ["driver_id"; "latitude"; "longitude"; "timestamp"]%string).
  { unfold make_DataFrame. cbn [columns].
    destruct all_data; [simpl in Hlen; nia | reflexivity]. }
  exists (make_DataFrame all_data). split; [|split; [exact Hcols|split]].
  - unfold generate_traffic_data. unfold bind at 1. rewrite Hrun.
    fold all_data. unfold bind, lift, column_driver_id. rewrite Hcols.
    reflexivity.
  - exact Hids.
  - exact Htss.
Qed.

(** X15.  For a positive driver count and a positive day count
    [generate_traffic_data] returns a frame with the four columns and
    72 rows per driver and day, after 148 draws per driver and day.  The
    rows are grouped by driver in ascending order of the ids 0, 1, ...,
    each id on 72 times the day count consecutive rows; within a driver
    the rows go day by day, stamped at 07:00 of 2024-01-01 plus the day
    number, plus the 72 offsets of a route. *)
Theorem generate_traffic_data_rows (rnd : nat -> float)
    (num_drivers simulation_days : Z) (s : nat) :
  0 < num_drivers -> 0 < simulation_days ->
  exists df,
    generate_traffic_data rnd num_drivers simulation_days s
      = Ok (df, (148 * Z.to_nat simulation_days * Z.to_nat num_drivers + s)%nat) /\
    columns df = ["driver_id"; "latitude"; "longitude"; "timestamp"]%string /\
    length (records df)
      = (72 * Z.to_nat simulation_days * Z.to_nat num_drivers)%nat /\
    map Generate.driver_id (records df)
      = flat_map (fun driver => repeat driver (72 * Z.to_nat simulation_days))
                 (range num_drivers) /\
    map Generate.timestamp (records df)
      = flat_map (fun driver : Z =>
          flat_map (fun day => map (Z.add (morning_of day)) day_offsets)
                   (range simulation_days))
          (range num_drivers).
Proof.
  intros Hn Hm.
  destruct (generate_frame rnd num_drivers simulation_days s Hn Hm)
    as (df & Hrun & Hcols & Hids & Htss).
  exists df. split; [exact Hrun|]. split; [exact Hcols|].
  split; [|split; [exact Hids | exact Htss]].
  rewrite <- (length_map Generate.driver_id), Hids.
  apply length_expected_driver_ids.
Qed.

(** The call of the script: 100 drivers, one day. *)
Lemma generate_traffic_data_rows_witness :
  (0 < 100 /\ 0 < 1) /\
  exists df,
    generate_traffic_data rnd_half 100 1 0%nat
      = Ok (df, (148 * Z.to_nat 1 * Z.to_nat 100 + 0)%nat) /\
    columns df = ["driver_id"; "latitude"; "longitude"; "timestamp"]%string /\
    length (records df) = (72 * Z.to_nat 1 * Z.to_nat 100)%nat /\
    map Generate.driver_id (records df)
      = flat_map (fun driver => repeat driver (72 * Z.to_nat 1)) (range 100) /\
    map Generate.timestamp (records df)
      = flat_map (fun driver : Z =>
          flat_map (fun day => map (Z.add (morning_of day)) day_offsets)
                   (range 1))
          (range 100).
Proof.
  split; [lia|].
  apply (generate_traffic_data_rows rnd_half 100 1 0%nat); lia.
Defined.

(** * [save_traffic_data] on a generated frame *)

Lemma fold_min_le_init (r : list Z) (x : Z) : fold_left Z.min r x <= x.
Proof.
  revert x; induction r as [|y r IH]; intro x; simpl; [lia|].
  specialize (IH (Z.min x y)). lia.
Qed.

Lemma fold_min_le (r : list Z) (x c : Z) : In c r -> fold_left Z.min r x <= c.
Proof.
  revert x; induction r as [|y r IH]; intros x H; simpl in *; [tauto|].
  destruct H as [->|H]; [|auto].
  pose proof (fold_min_le_init r (Z.min x c)). lia.
Qed.

Lemma fold_min_in (r : list Z) (x : Z) : In (fold_left Z.min r x) (x :: r).
Proof.
  revert x; induction r as [|y r IH]; intro x; simpl; [auto|].
  destruct (IH (Z.min x y)) as [H|H]; [|right; right; exact H].
  rewrite <- H.
  destruct (Z.min_spec x y) as [[_ E]|[_ E]]; rewrite E; auto.
Qed.

Lemma series_min_is (l : list Z) (m : Z) :
  In m l -> (forall x, In x l -> m <= x) -> series_min l = Some m.
Proof.
  intros Hin Hle. destruct l as [|x r]; [destruct Hin|].
  cbn [series_min]. f_equal.
  pose proof (fold_min_in r x) as H1. apply Hle in H1.
  assert (H2 : fold_left Z.min r x <= m).
  { destruct Hin as [<-|Hin]; [apply fold_min_le_init | apply fold_min_le, Hin]. }
  lia.
Qed.

Lemma series_max_is (l : list Z) (m : Z) :
  In m l -> (forall x, In x l -> x <= m) -> series_max l = Some m.
Proof.
  intros Hin Hle. destruct l as [|x r]; [destruct Hin|].
  cbn [series_max]. f_equal.
  pose proof (fold_max_in r x) as H1. apply Hle in H1.
  assert (H2 : m <= fold_left Z.max r x).
  { destruct Hin as [<-|Hin]; [apply fold_max_ge_init | apply fold_max_ge, Hin]. }
  lia.
Qed.

Lemma in_range_iff (n i : Z) : In i (range n) <-> 0 <= i < n.
Proof.
  split; [apply in_range_bounds|]. intro H. unfold range.
  apply in_map_iff. exists (Z.to_nat i). split; [lia|]. apply in_seq. lia.
Qed.

Lemma NoDup_range (n : Z) : NoDup (range n).
Proof.
  unfold range. apply NoDup_map_NoDup_ForallPairs; [|apply seq_NoDup].
  intros x y _ _ H. lia.
Qed.

Lemma in_expected_driver_ids (n m d : Z) :
  0 < m -> (In d (expected_driver_ids n m) <-> In d (range n)).
Proof.
  intro Hm. unfold expected_driver_ids. rewrite in_flat_map. split.
  - intros (x & Hx & Hd). apply repeat_spec in Hd. subst. exact Hx.
  - intro Hd. exists d. split; [exact Hd|].
    destruct (72 * Z.to_nat m)%nat eqn:E; [lia|]. left. reflexivity.
Qed.

Lemma count_unique_driver_ids (n m : Z) :
  0 < m -> count_unique (expected_driver_ids n m) = Z.to_nat n.
Proof.
  intro Hm. unfold count_unique. rewrite <- (length_range n).
  apply Nat.le_antisymm; apply NoDup_incl_length.
  - apply NoDup_nodup.
  - intros d Hd. apply nodup_In in Hd.
    apply (in_expected_driver_ids n m d Hm). exact Hd.
  - apply NoDup_range.
  - intros d Hd. apply nodup_In.
    apply (in_expected_driver_ids n m d Hm). exact Hd.
Qed.

Lemma in_expected_timestamps (n m x : Z) :
  In x (expected_timestamps n m) <->
  exists d day off, In d (range n) /\ In day (range m) /\
                    In off day_offsets /\ x = morning_of day + off.
Proof.
  unfold expected_timestamps. rewrite in_flat_map. split.
  - intros (d & Hd & H). apply in_flat_map in H. destruct H as (day & Hday & H).
    apply in_map_iff in H. destruct H as (off & <- & Hoff).
    exists d, day, off. auto.
  - intros (d & day & off & Hd & Hday & Hoff & ->).
    exists d. split; [exact Hd|]. apply in_flat_map.
    exists day. split; [exact Hday|]. apply in_map_iff. exists off. auto.
Qed.

Lemma day_offset_span (off : Z) :
  In off day_offsets -> 0 <= off <= 43389473684209.
Proof.
  intro H.
  assert (Hall : offsets_in_span = true) by (vm_compute; reflexivity).
  unfold offsets_in_span in Hall. rewrite forallb_forall in Hall.
  specialize (Hall off H). apply andb_true_iff in Hall.
  destruct Hall as [H1 H2]. apply Z.leb_le in H1, H2. lia.
Qed.

Lemma morning_of_shift (day : Z) : morning_of day = morning_of 0 + day * ns_per_day.
Proof. unfold morning_of, timedelta. lia. Qed.

Lemma expected_timestamps_min (n m : Z) :
  0 < n -> 0 < m ->
  series_min (expected_timestamps n m) = Some (morning_of 0).
Proof.
  intros Hn Hm. apply series_min_is.
  - apply in_expected_timestamps. exists 0, 0, 0.
    split; [apply in_range_iff; lia|].
    split; [apply in_range_iff; lia|].
    split; [|lia].
    change (In (nth 0 day_offsets 0) day_offsets). apply nth_In.
    rewrite length_day_offsets. lia.
  - intros x Hx. apply in_expected_timestamps in Hx.
    destruct Hx as (d & day & off & _ & Hday & Hoff & ->).
    apply in_range_bounds in Hday. apply day_offset_span in Hoff.
    rewrite (morning_of_shift day).
    assert (0 <= day * ns_per_day)
      by (unfold ns_per_day, ns_per_hour, ns_per_minute; lia).
    lia.
Qed.

Lemma expected_timestamps_max (n m : Z) :
  0 < n -> 0 < m ->
  series_max (expected_timestamps n m)
    = Some (morning_of (m - 1) + 43389473684209).
Proof.
  intros Hn Hm. apply series_max_is.
  - apply in_expected_timestamps. exists 0, (m - 1), 43389473684209.
    split; [apply in_range_iff; lia|].
    split; [apply in_range_iff; lia|].
    split; [|reflexivity].
    change (In (nth 67 day_offsets 0) day_offsets). apply nth_In.
    rewrite length_day_offsets. lia.
  - intros x Hx. apply in_expected_timestamps in Hx.
    destruct Hx as (d & day & off & _ & Hday & Hoff & ->).
    apply in_range_bounds in Hday. apply day_offset_span in Hoff.
    rewrite (morning_of_shift day), (morning_of_shift (m - 1)).
    assert (day * ns_per_day <= (m - 1) * ns_per_day)
      by (unfold ns_per_day, ns_per_hour, ns_per_minute; lia).
    lia.
Qed.

(** X16.  Saving the frame generated for positive counts succeeds.  The
    saved dictionary has one entry per generated row, and its metadata give
    the driver count, the row count 72 x days x drivers, the start
    "2024-01-01 07:00:00" and, as the end, the time of sample 67 of the
    last day, 12 h 3 min 9 s after that day's 07:00 (the last sample of the
    day is stamped 19:00:00). *)
Theorem save_generated_frame (rnd : nat -> float) (n_drivers n_days : Z)
    (s : nat) (filename : string) :
  0 < n_drivers -> 0 < n_days ->
  exists df s' dict,
    generate_traffic_data rnd n_drivers n_days s = Ok (df, s') /\
    save_traffic_data df filename = Ok (filename, dict) /\
    length (drivers dict) = (72 * Z.to_nat n_days * Z.to_nat n_drivers)%nat /\
    num_drivers (metadata dict) = Z.to_nat n_drivers /\
    total_points (metadata dict)
      = (72 * Z.to_nat n_days * Z.to_nat n_drivers)%nat /\
    date_range_start (metadata dict) = "2024-01-01 07:00:00"%string /\
    date_range_end (metadata dict)
      = strftime (morning_of (n_days - 1) + 43389473684209).
Proof.
  intros Hn Hm.
  destruct (generate_frame rnd n_drivers n_days s Hn Hm)
    as (df & Hrun & Hcols & Hids & Htss).
  assert (Hlen : length (records df)
                 = (72 * Z.to_nat n_days * Z.to_nat n_drivers)%nat).
  { rewrite <- (length_map Generate.driver_id), Hids.
    apply length_expected_driver_ids. }
  exists df. eexists. eexists. split; [exact Hrun|].
  unfold save_traffic_data, column_timestamp, column_driver_id.
  rewrite Hcols. cbn [existsb String.eqb Ascii.eqb Bool.eqb orb rbind].
  rewrite Hids, Htss.
  rewrite (expected_timestamps_min _ _ Hn Hm), (expected_timestamps_max _ _ Hn Hm).
  cbn [strftime_scalar rbind]. split; [reflexivity|].
  cbn [drivers metadata num_drivers total_points date_range_start date_range_end].
  rewrite length_map, Hlen, (count_unique_driver_ids _ _ Hm).
  repeat split; reflexivity.
Qed.

(** The calls of the script: 100 drivers, one day, saved to
    "traffic_data.json".  The end of the date range is 19:03:09, not the
    19:00:00 of the last sample. *)
Lemma save_generated_frame_witness :
  (0 < 100 /\ 0 < 1) /\
  exists df s' dict,
    generate_traffic_data rnd_half 100 1 0%nat = Ok (df, s') /\
    save_traffic_data df "traffic_data.json"
      = Ok ("traffic_data.json"%string, dict) /\
    length (drivers dict) = (72 * Z.to_nat 1 * Z.to_nat 100)%nat /\
    num_drivers (metadata dict) = Z.to_nat 100 /\
    total_points (metadata dict) = (72 * Z.to_nat 1 * Z.to_nat 100)%nat /\
    date_range_start (metadata dict) = "2024-01-01 07:00:00"%string /\
    date_range_end (metadata dict) = "2024-01-01 19:03:09"%string.
Proof.
  split; [lia|].
  apply (save_generated_frame rnd_half 100 1 0%nat "traffic_data.json"); lia.
Defined.

(** * The demo *)

(** What [main] computes when the import succeeds: 30 draws, two per
    record. *)
Lemma main_records (rnd : nat -> float) (scenario : Demo.Scenario) (s : nat) :
  let lat_values :=
    map (fun i => demo_lat scenario (rnd (2 * i + s)%nat)) (seq 0 15) in
  let small := Demo.std_lt lat_values 0.005 in
  Demo.main rnd true scenario s =
  Ok (Some {| Demo.drivers_data :=
                map (fun i =>
                  {| Demo.driver_id := Z.of_nat (i / 3);
                     Demo.latitude :=
                       Demo.round6 (demo_lat scenario (rnd (2 * i + s)%nat));
                     Demo.longitude :=
                       Demo.round6 (demo_lon scenario (rnd (2 * i + 1 + s)%nat));
                     Demo.timestamp :=
                       ("2024-01-01 "
                        ++ Demo.str_int (8 + Z.of_nat (i mod 3))
                        ++ ":00:00")%string |})
                  (seq 0 15);
              Demo.traffic_level :=
                if small then "HIGH (Congestion Detected)"%string
                else "LOW (Free Flow)"%string;
              Demo.confidence := if small then "98%"%string else "92%"%string |},
      (30 + s)%nat).
Proof. reflexivity. Qed.

(** ** Mean and variance *)

Lemma qsum_map_ext (f g : Q -> Q) (l : list Q) :
  (forall x, In x l -> (f x == g x)%Q) ->
  (qsum (map f l) == qsum (map g l))%Q.
Proof.
  induction l as [|x r IH]; intro H; cbn [map qsum fold_right].
  - reflexivity.
  - rewrite (H x (or_introl eq_refl)).
    unfold qsum in IH. rewrite IH by (intros y Hy; apply H; right; exact Hy).
    reflexivity.
Qed.

Lemma qsum_affine (a b : Q) (l : list Q) :
  (qsum (map (fun x => a + b * x) l)
   == inject_Z (Z.of_nat (length l)) * a + b * qsum l)%Q.
Proof.
  induction l as [|x r IH]; cbn [map qsum fold_right length].
  - change (inject_Z (Z.of_nat 0)) with 0%Q. ring.
  - unfold qsum in IH. rewrite IH. rewrite Nat2Z.inj_succ. unfold Z.succ.
    rewrite inject_Z_plus. change (inject_Z 1) with 1%Q. ring.
Qed.

Lemma qsum_scale (b : Q) (f : Q -> Q) (l : list Q) :
  (qsum (map (fun x => b * f x) l) == b * qsum (map f l))%Q.
Proof.
  induction l as [|x r IH]; cbn [map qsum fold_right].
  - ring.
  - unfold qsum in IH. rewrite IH. ring.
Qed.

Lemma length_nonzero {A : Type} (l : list A) :
  l <> [] -> ~ (inject_Z (Z.of_nat (length l)) == 0)%Q.
Proof.
  intro Hne. apply Qeq_bool_neq, inject_Z_nonzero.
  destruct l; [congruence | simpl; lia].
Qed.

Lemma qmean_affine (a b : Q) (f : Q -> Q) (l : list Q) :
  l <> [] -> (forall x, (f x == a + b * x)%Q) ->
  (qmean (map f l) == a + b * qmean l)%Q.
Proof.
  intros Hne Hf. unfold qmean. rewrite length_map.
  rewrite (qsum_map_ext f (fun x => a + b * x)%Q) by (intros; apply Hf).
  rewrite qsum_affine. field. apply length_nonzero. exact Hne.
Qed.

(** The variance of an affine image: the offset goes away and the scale is
    squared. *)
Lemma qvar_affine (a b : Q) (f : Q -> Q) (l : list Q) :
  l <> [] -> (forall x, (f x == a + b * x)%Q) ->
  (qvar (map f l) == b * b * qvar l)%Q.
Proof.
  intros Hne Hf. unfold qvar.
  pose proof (qmean_affine a b f l Hne Hf) as Hm.
  set (m' := qmean (map f l)) in *. set (m := qmean l) in *.
  unfold qmean. rewrite !length_map, map_map.
  rewrite (qsum_map_ext _ (fun x => (b * b) * ((x - m) * (x - m)))%Q).
  - rewrite (qsum_scale (b * b) (fun x => (x - m) * (x - m))%Q).
    field. apply length_nonzero. exact Hne.
  - intros x _. cbv beta. rewrite (Hf x), Hm. ring.
Qed.

Lemma var_fin (l : list Q) :
  l <> [] -> exists v, Demo.var (map Fin l) = Fin v /\ (v == qvar l)%Q.
Proof.
  intro Hne. unfold Demo.var.
  destruct (mean_fin l Hne) as (m & Em & Hm). rewrite Em. cbv zeta.
  rewrite map_map.
  rewrite (map_ext _ (fun x => Fin (Qred (Qred (x - m) * Qred (x - m)))))
    by reflexivity.
  rewrite <- (map_map (fun x => Qred (Qred (x - m) * Qred (x - m))) Fin).
  destruct (mean_fin (map (fun x => Qred (Qred (x - m) * Qred (x - m))) l))
    as (v & Ev & Hv).
  { destruct l; [congruence | discriminate]. }
  exists v. split; [exact Ev|]. rewrite Hv. unfold qvar, qmean at 1.
  rewrite !length_map.
  rewrite (qsum_map_ext _ (fun x => (x - qmean l) * (x - qmean l))%Q).
  - reflexivity.
  - intros x _. cbv beta. rewrite !Qred_correct. unfold qmean.
    rewrite Hm. reflexivity.
Qed.

(** ** The reported level *)

(** A coordinate before rounding is an affine function of its draw. *)
Lemma demo_coord_value (centre : Q) (scenario : Demo.Scenario) :
  exists f : Q -> Q,
    (forall r, demo_coord centre scenario (Fin r) = Fin (f r)) /\
    (forall r, (f r == (centre - half_spread scenario)
                       + (2 * half_spread scenario) * r)%Q).
Proof.
  destruct scenario.
  - exists (fun r => Qred (Qred centre + Qred (Qred (r - Qred 0.5) * Qred 0.001))).
    split; intro r; [reflexivity|].
    rewrite !Qred_correct. unfold half_spread. ring.
  - exists (fun r => Qred (Qred centre + Qred (Qred (r - Qred 0.5) * Qred 0.02))).
    split; intro r; [reflexivity|].
    rewrite !Qred_correct. unfold half_spread. ring.
Qed.

(** The test [lat_std < 0.005] of a run, in terms of its latitude draws. *)
Lemma demo_level (rnd : nat -> float) (q : nat -> Q)
    (scenario : Demo.Scenario) (s : nat) :
  (forall k, rnd k = Fin (q k)) ->
  Demo.std_lt
    (map (fun i => demo_lat scenario (rnd (2 * i + s)%nat)) (seq 0 15)) 0.005
    = true
  <-> (qvar (lat_draws q s) < level_bound scenario)%Q.
Proof.
  intro Hrnd. destruct (demo_coord_value 40.7128 scenario) as (f & Ef & Hf).
  assert (Hlats : map (fun i => demo_lat scenario (rnd (2 * i + s)%nat)) (seq 0 15)
                  = map Fin (map f (lat_draws q s))).
  { unfold lat_draws. rewrite !map_map. apply map_ext. intro i.
    rewrite Hrnd. apply Ef. }
  rewrite Hlats.
  assert (Hne : lat_draws q s <> []) by discriminate.
  destruct (var_fin (map f (lat_draws q s))) as (v & Ev & Hv).
  { discriminate. }
  rewrite (qvar_affine _ _ f _ Hne Hf) in Hv.
  unfold Demo.std_lt. rewrite Ev. unfold lit, Float.fin. cbn [Float.ltb].
  rewrite Qltb_lt, Qred_correct, Hv.
  generalize (qvar (lat_draws q s)). clear. intro x.
  destruct scenario; unfold half_spread, level_bound; split; intro H; lra.
Qed.

Lemma qvar_unit (l : list Q) :
  l <> [] -> (forall x, In x l -> (0 <= x <= 1)%Q) -> (qvar l <= 1)%Q.
Proof.
  intros Hne Hl.
  assert (Hm : (0 <= qmean l <= 1)%Q).
  { apply (mean_between l 0 1 (qmean l) Hne Hl). reflexivity. }
  assert (Hv : (0 <= qvar l <= 1)%Q).
  { apply (mean_between (map (fun x => (x - qmean l) * (x - qmean l))%Q l) 0 1).
    - destruct l; [congruence | discriminate].
    - intros y Hy. apply in_map_iff in Hy. destruct Hy as (x & <- & Hx).
      specialize (Hl x Hx). revert Hm. generalize (qmean l). intros m Hm.
      assert (Hd : (-1 <= x - m <= 1)%Q) by (split; lra).
      revert Hd. generalize (x - m)%Q. intros d Hd. split; nra.
    - reflexivity. }
  apply Hv.
Qed.

(** The value of a draw, 0 when it is not finite. *)
Lemma unit_draws_values (rnd : nat -> float) :
  unit_draws rnd ->
  exists q : nat -> Q,
    (forall k, rnd k = Fin (q k)) /\ (forall k, (0 <= q k)%Q /\ (q k < 1)%Q).
Proof.
  intro Hrnd.
  exists (fun k => match rnd k with Fin r => r | _ => 0%Q end).
  split; intro k; destruct (Hrnd k) as (r & E & Hr); rewrite E;
    [reflexivity | exact Hr].
Qed.

(** X17.  In the FREE_FLOW scenario, with draws in [0, 1), a run that
    finds Syft makes 30 draws and reports "HIGH (Congestion Detected)" with
    confidence "98%" when the population variance of its 15 latitude draws
    is below 0.99/16, and "LOW (Free Flow)" with confidence "92%" when it is
    above 1.01/16.  The test of the source, a standard deviation of the
    latitudes below 0.005, puts the limit at a variance of 1/16 of the
    draws; within one percent of the limit the outcome depends on the
    rounding of the floating-point arithmetic and is left open. *)
Theorem level_follows_variance (rnd : nat -> float) (s : nat) :
  unit_draws rnd ->
  let draws := lat_draws (fun k => draw_value (rnd k)) s in
  exists out,
    Demo.main rnd true Demo.FREE_FLOW s = Ok (Some out, (30 + s)%nat) /\
    ((qvar draws < 99 # 1600)%Q ->
       Demo.traffic_level out = "HIGH (Congestion Detected)"%string /\
       Demo.confidence out = "98%"%string) /\
    ((101 # 1600 < qvar draws)%Q ->
       Demo.traffic_level out = "LOW (Free Flow)"%string /\
       Demo.confidence out = "92%"%string).
Proof.
  intro Hrnd. cbv zeta.
  assert (Hq : forall k, rnd k = Fin (draw_value (rnd k))).
  { intro k. destruct (Hrnd k) as (r & E & _). rewrite E. reflexivity. }
  pose proof (demo_level rnd _ Demo.FREE_FLOW s Hq) as Hlevel.
  cbn [level_bound] in Hlevel.
  eexists. split; [apply main_records|].
  cbn [Demo.traffic_level Demo.confidence].
  destruct (Demo.std_lt _ 0.005).
  - split; [intros _; split; reflexivity|].
    intro H.
    assert (Hlt : (qvar (lat_draws (fun k => draw_value (rnd k)) s) < 1 # 16)%Q)
      by (apply Hlevel; reflexivity).
    lra.
  - split; [|intros _; split; reflexivity].
    intro H.
    assert (Hlt : (qvar (lat_draws (fun k => draw_value (rnd k)) s) < 1 # 16)%Q)
      by lra.
    apply Hlevel in Hlt. discriminate.
Qed.

Lemma level_follows_variance_witness :
  unit_draws rnd_alternating /\
  let draws := lat_draws (fun k => draw_value (rnd_alternating k)) 0 in
  exists out,
    Demo.main rnd_alternating true Demo.FREE_FLOW 0%nat
      = Ok (Some out, (30 + 0)%nat) /\
    ((qvar draws < 99 # 1600)%Q ->
       Demo.traffic_level out = "HIGH (Congestion Detected)"%string /\
       Demo.confidence out = "98%"%string) /\
    ((101 # 1600 < qvar draws)%Q ->
       Demo.traffic_level out = "LOW (Free Flow)"%string /\
       Demo.confidence out = "92%"%string).
Proof.
  assert (H : unit_draws rnd_alternating).
  { intro k. unfold rnd_alternating. destruct (Nat.even (k / 2)).
    - exists (Qred 0). split; [reflexivity|].
      split; vm_compute; [discriminate | reflexivity].
    - exists (Qred 0.99). split; [reflexivity|].
      split; vm_compute; [discriminate | reflexivity]. }
  split; [exact H|].
  apply (level_follows_variance rnd_alternating 0%nat H).
Defined.

(** X18.  In the JAM scenario the reported level does not depend on the
    draws: with draws in [0, 1) the run always reports
    "HIGH (Congestion Detected)" with confidence "98%". *)
Theorem jam_reports_congestion (rnd : nat -> float) (s : nat) :
  unit_draws rnd ->
  exists out,
    Demo.main rnd true Demo.JAM s = Ok (Some out, (30 + s)%nat) /\
    Demo.traffic_level out = "HIGH (Congestion Detected)"%string /\
    Demo.confidence out = "98%"%string.
Proof.
  intro Hrnd. destruct (unit_draws_values rnd Hrnd) as (q & Hq & Hunit).
  assert (Hsmall : (qvar (lat_draws q s) < level_bound Demo.JAM)%Q).
  { apply Qle_lt_trans with 1%Q; [|reflexivity].
    apply qvar_unit; [discriminate|].
    intros x Hx. unfold lat_draws in Hx. apply in_map_iff in Hx.
    destruct Hx as (i & <- & _). destruct (Hunit (2 * i + s)%nat). split; lra. }
  apply (demo_level rnd q Demo.JAM s Hq) in Hsmall.
  eexists. split; [apply main_records|].
  cbn [Demo.traffic_level Demo.confidence]. rewrite Hsmall.
  split; reflexivity.
Qed.

Lemma jam_reports_congestion_witness :
  unit_draws rnd_alternating /\
  exists out,
    Demo.main rnd_alternating true Demo.JAM 0%nat = Ok (Some out, (30 + 0)%nat) /\
    Demo.traffic_level out = "HIGH (Congestion Detected)"%string /\
    Demo.confidence out = "98%"%string.
Proof.
  assert (H : unit_draws rnd_alternating).
  { intro k. unfold rnd_alternating. destruct (Nat.even (k / 2)).
    - exists (Qred 0). split; [reflexivity|].
      split; vm_compute; [discriminate | reflexivity].
    - exists (Qred 0.99). split; [reflexivity|].
      split; vm_compute; [discriminate | reflexivity]. }
  split; [exact H|].
  apply (jam_reports_congestion rnd_alternating 0%nat H).
Defined.

(** X19.  In the FREE_FLOW scenario the reported level depends on the
    draws: there are draws in [0, 1) for which the run reports
    "HIGH (Congestion Detected)", and draws in [0, 1) for which it reports
    "LOW (Free Flow)". *)
Theorem free_flow_reports_either :
  (exists rnd out s',
     unit_draws rnd /\
     Demo.main rnd true Demo.FREE_FLOW 0%nat = Ok (Some out, s') /\
     Demo.traffic_level out = "HIGH (Congestion Detected)"%string) /\
  (exists rnd out s',
     unit_draws rnd /\
     Demo.main rnd true Demo.FREE_FLOW 0%nat = Ok (Some out, s') /\
     Demo.traffic_level out = "LOW (Free Flow)"%string).
Proof.
  split.
  - exists rnd_half. eexists. eexists. split; [|split].
    + intro k. exists (Qred 0.5). split; [reflexivity|].
      split; vm_compute; [discriminate | reflexivity].
    + vm_compute. reflexivity.
    + reflexivity.
  - exists rnd_alternating. eexists. eexists. split; [|split].
    + intro k. unfold rnd_alternating. destruct (Nat.even (k / 2)).
      * exists (Qred 0). split; [reflexivity|].
        split; vm_compute; [discriminate | reflexivity].
      * exists (Qred 0.99). split; [reflexivity|].
        split; vm_compute; [discriminate | reflexivity].
    + vm_compute. reflexivity.
    + reflexivity.
Qed.

(** ** The records *)

Lemma round_half_even_between (a b : Z) (y : Q) :
  (inject_Z a <= y <= inject_Z b)%Q -> a <= Demo.round_half_even y <= b.
Proof.
  intros [Ha Hb].
  pose proof (Qfloor_resp_le _ _ Ha) as Hfa. rewrite Qfloor_Z in Hfa.
  pose proof (Qfloor_resp_le _ _ Hb) as Hfb. rewrite Qfloor_Z in Hfb.
  pose proof (Qfloor_le y) as Hfy.
  assert (Hup : (inject_Z (Qfloor y) < y)%Q -> Qfloor y + 1 <= b).
  { intro Hlt. assert (H : (inject_Z (Qfloor y) < inject_Z b)%Q) by lra.
    rewrite <- Zlt_Qlt in H. lia. }
  unfold Demo.round_half_even. cbv zeta.
  destruct (Qcompare_spec (y - inject_Z (Qfloor y)) (1 # 2)) as [E|E|E].
  - destruct (Z.even (Qfloor y)); [lia|].
    split; [lia|]. apply Hup. lra.
  - lia.
  - split; [lia|]. apply Hup. lra.
Qed.

(** Rounding to six decimals keeps a value inside a box whose bounds have
    at most six decimals. *)
Lemma round6_within (h c q : Q) (lo hi : Z) :
  (c - h == inject_Z lo / 1000000)%Q -> (c + h == inject_Z hi / 1000000)%Q ->
  within h c q ->
  exists x, Demo.round6 (Fin q) = Fin x /\ within h c x /\ six_decimals x.
Proof.
  intros Hlo Hhi [H1 H2]. cbn [Demo.round6]. unfold Float.fin.
  eexists. split; [reflexivity|].
  destruct (round_half_even_between lo hi (q * 1000000)) as [Ha Hb].
  { split.
    - rewrite Hlo in H1. unfold Qdiv in H1.
      change (/ 1000000)%Q with (1 # 1000000)%Q in H1. lra.
    - rewrite Hhi in H2. unfold Qdiv in H2.
      change (/ 1000000)%Q with (1 # 1000000)%Q in H2. lra. }
  rewrite Zle_Qle in Ha, Hb.
  split.
  - unfold within. rewrite Qred_correct, Hlo, Hhi. unfold Qdiv.
    change (/ 1000000)%Q with (1 # 1000000)%Q.
    revert Ha Hb. generalize (inject_Z (Demo.round_half_even (q * 1000000))).
    intros z Ha Hb. split; lra.
  - exists (Demo.round_half_even (q * 1000000)). apply Qred_correct.
Qed.

(** A rounded coordinate of a run with a draw in [0, 1). *)
Lemma demo_coord_rounded (centre : Q) (scenario : Demo.Scenario)
    (x : float) (lo hi : Z) :
  (centre - half_spread scenario == inject_Z lo / 1000000)%Q ->
  (centre + half_spread scenario == inject_Z hi / 1000000)%Q ->
  (exists r, x = Fin r /\ (0 <= r)%Q /\ (r < 1)%Q) ->
  exists y, Demo.round6 (demo_coord centre scenario x) = Fin y /\
            within (half_spread scenario) centre y /\ six_decimals y.
Proof.
  intros Hlo Hhi (r & -> & Hr0 & Hr1).
  destruct (demo_coord_value centre scenario) as (f & Ef & Hf).
  rewrite Ef. apply (round6_within _ _ _ lo hi Hlo Hhi).
  unfold within. rewrite (Hf r).
  assert (Hh : (0 < half_spread scenario)%Q) by (destruct scenario; reflexivity).
  revert Hh. generalize (half_spread scenario). intros h Hh. split; nra.
Qed.

(** X20.  With draws in [0, 1), a run that finds Syft writes 15 records:
    three for each of the drivers 0..4, stamped "2024-01-01 8:00:00",
    "2024-01-01 9:00:00" and "2024-01-01 10:00:00" (the hour is not
    zero-padded), each with finite coordinates of at most six decimals
    within half the spread factor of the centre (40.7128, -74.0060). *)
Theorem demo_records (rnd : nat -> float) (scenario : Demo.Scenario) (s : nat) :
  unit_draws rnd ->
  exists out,
    Demo.main rnd true scenario s = Ok (Some out, (30 + s)%nat) /\
    map Demo.driver_id (Demo.drivers_data out)
      = [0; 0; 0; 1; 1; 1; 2; 2; 2; 3; 3; 3; 4; 4; 4] /\
    map Demo.timestamp (Demo.drivers_data out)
      = concat (repeat ["2024-01-01 8:00:00"; "2024-01-01 9:00:00";
                        "2024-01-01 10:00:00"]%string 5) /\
    Forall (near_centre (half_spread scenario)) (Demo.drivers_data out).
Proof.
  intro Hrnd. eexists. split; [apply main_records|].
  cbn [Demo.drivers_data]. split; [reflexivity|]. split; [reflexivity|].
  apply Forall_forall. intros rec Hrec. apply in_map_iff in Hrec.
  destruct Hrec as (i & <- & _). unfold near_centre.
  cbn [Demo.latitude Demo.longitude].
  destruct (demo_coord_rounded 40.7128 scenario (rnd (2 * i + s)%nat)
              (match scenario with Demo.JAM => 40712300 | _ => 40702800 end)
              (match scenario with Demo.JAM => 40713300 | _ => 40722800 end))
    as (x & Ex & Hx & Hx6);
    [destruct scenario; reflexivity | destruct scenario; reflexivity
     | apply Hrnd |].
  destruct (demo_coord_rounded (-74.0060) scenario (rnd (2 * i + 1 + s)%nat)
              (match scenario with Demo.JAM => -74006500 | _ => -74016000 end)
              (match scenario with Demo.JAM => -74005500 | _ => -73996000 end))
    as (y & Ey & Hy & Hy6);
    [destruct scenario; reflexivity | destruct scenario; reflexivity
     | apply Hrnd |].
  exists x, y. split; [exact Ex|]. split; [exact Ey|]. auto.
Qed.

Lemma demo_records_witness :
  unit_draws rnd_half /\
  exists out,
    Demo.main rnd_half true Demo.FREE_FLOW 0%nat = Ok (Some out, (30 + 0)%nat) /\
    map Demo.driver_id (Demo.drivers_data out)
      = [0; 0; 0; 1; 1; 1; 2; 2; 2; 3; 3; 3; 4; 4; 4] /\
    map Demo.timestamp (Demo.drivers_data out)
      = concat (repeat ["2024-01-01 8:00:00"; "2024-01-01 9:00:00";
                        "2024-01-01 10:00:00"]%string 5) /\
    Forall (near_centre (half_spread Demo.FREE_FLOW)) (Demo.drivers_data out).
Proof.
  assert (H : unit_draws rnd_half).
  { intro k. exists (Qred 0.5). split; [reflexivity|].
    split; vm_compute; [discriminate | reflexivity]. }
  split; [exact H|].
  apply (demo_records rnd_half Demo.FREE_FLOW 0%nat H).
Defined.

(** ** The square root

    [Demo.std_lt] compares the variance with the square of the constant.
    Over the real numbers this is the test the source makes on the square
    root of the variance. *)

Lemma qsum_nonneg (l : list Q) :
  (forall x, In x l -> (0 <= x)%Q) -> (0 <= qsum l)%Q.
Proof.
  induction l as [|x r IH]; intro H; cbn [qsum fold_right].
  - apply Qle_refl.
  - pose proof (H x (or_introl eq_refl)).
    pose proof (IH (fun y Hy => H y (or_intror Hy))) as Hr.
    unfold qsum in Hr. lra.
Qed.

Lemma qvar_nonneg (l : list Q) : (0 <= qvar l)%Q.
Proof.
  unfold qvar, qmean at 1. apply Qmult_le_0_compat.
  - apply qsum_nonneg. intros y Hy. apply in_map_iff in Hy.
    destruct Hy as (x & <- & _). generalize (x - qmean l)%Q. intro d. nra.
  - apply Qinv_le_0_compat. change 0%Q with (inject_Z 0).
    rewrite <- Zle_Qle. lia.
Qed.

Lemma sqrt_lt_square (v c : Q) :
  (0 <= v)%Q -> (0 < c)%Q ->
  Rdefinitions.Rlt (R_sqrt.sqrt (Rdefinitions.Q2R v)) (Rdefinitions.Q2R c)
  <-> (v < c * c)%Q.
Proof.
  intros Hv Hc.
  apply Qreals.Qle_Rle in Hv. apply Qreals.Qlt_Rlt in Hc.
  rewrite RMicromega.Q2R_0 in Hv, Hc.
  split; intro H.
  - apply Qreals.Rlt_Qlt. rewrite Qreals.Q2R_mult.
    rewrite <- (R_sqrt.sqrt_sqrt (Rdefinitions.Q2R v)) at 1 by exact Hv.
    pose proof (R_sqrt.sqrt_pos (Rdefinitions.Q2R v)) as Hs.
    apply RIneq.Rmult_le_0_lt_compat; assumption.
  - apply Qreals.Qlt_Rlt in H. rewrite Qreals.Q2R_mult in H.
    rewrite <- (R_sqrt.sqrt_square (Rdefinitions.Q2R c))
      by (apply RIneq.Rlt_le; exact Hc).
    apply R_sqrt.sqrt_lt_1_alt. split; assumption.
Qed.

(** On a non-empty array of finite values the variance is a finite value
    [v >= 0], and [Demo.std_lt] holds exactly when the real square root of
    [v] is below the constant. *)
Lemma std_lt_is_root_test (l : list Q) (c : Q) :
  l <> [] -> (0 < c)%Q ->
  exists v,
    Demo.var (map Fin l) = Fin v /\ (0 <= v)%Q /\
    (Demo.std_lt (map Fin l) c = true
     <-> Rdefinitions.Rlt (R_sqrt.sqrt (Rdefinitions.Q2R v))
                          (Rdefinitions.Q2R c)).
Proof.
  intros Hne Hc. destruct (var_fin l Hne) as (v & Ev & Hv).
  assert (Hv0 : (0 <= v)%Q) by (rewrite Hv; apply qvar_nonneg).
  exists v. split; [exact Ev|]. split; [exact Hv0|].
  unfold Demo.std_lt. rewrite Ev. unfold lit, Float.fin. cbn [Float.ltb].
  rewrite Qltb_lt, Qred_correct. symmetry. apply sqrt_lt_square; assumption.
Qed.
